(* ===================================================================== *)
(* codalab-cli: the bundle execution worker                               *)
(*   src/codalab/objects/work_manager.py  (class Worker)                  *)
(*                                                                       *)
(* A shallow embedding of Worker and of the collaborators it drives:     *)
(* the metadata store (self.model), the compute backend (self.machine),  *)
(* the blob store (self.bundle_store), the file system and the clock.    *)
(* Worker's methods are state transformers over the worker's world that  *)
(* either return a value or raise; effects made before a raise stay.     *)
(*                                                                       *)
(* Not modelled: what pretty_print and print write to stdout, and the    *)
(* profiling_depth / verbose attributes that only feed those messages.   *)
(* ===================================================================== *)

From stdpp Require Import gmap strings list fin_maps.
From Stdlib Require Import ZArith.

Open Scope Z_scope.

(* --------------------------------------------------------------------- *)
(* codalab.common and the bundle objects                                  *)
(* --------------------------------------------------------------------- *)

(** State: the lifecycle position of a bundle (codalab.common.State). *)
Inductive State := CREATED | STAGED | RUNNING | READY | FAILED.

#[global] Instance State_eq_dec : EqDecision State.
Proof. solve_decision. Defined.

(** Command: an operator command (codalab.common.Command); only KILL is
    recognised by the worker. *)
Inductive Command := KILL | OTHER (name : string).

#[global] Instance Command_eq_dec : EqDecision Command.
Proof. solve_decision. Defined.

(** isinstance(bundle, RunBundle) separates the two kinds of bundle. *)
Inductive Kind := RunBundle | MakeBundle.

Definition is_RunBundle (k : Kind) : bool :=
  match k with RunBundle => true | MakeBundle => false end.

Record Dependency := {
  parent_uuid : string;
  parent_path : string;
  child_path : string;
}.

(** Values of the open metadata mapping: failure_message is a string,
    time a difference of two clock readings, actions a list of commands. *)
Inductive MetaValue :=
| MString (s : string)
| MTime (t : Z)
| MActions (l : list Command).

Record Bundle := {
  uuid : string;
  kind : Kind;
  state : State;
  data_hash : option string;
  dependencies : list Dependency;
  metadata : gmap string MetaValue;
}.

Record BundleAction := {
  bundle_uuid : string;
  action : Command;
}.

(** The update dict handed to the store: each key is present or not. *)
Record Update := {
  upd_state : option State;
  upd_data_hash : option (option string);
  upd_metadata : option (gmap string MetaValue);
}.

Definition state_update (s : State) : Update :=
  {| upd_state := Some s; upd_data_hash := None; upd_metadata := None |}.

(** What Python raises in the worker. *)
Inductive Exn :=
| PreconditionViolation (message : string)
| KeyError (key : string).

Inductive Res (A : Type) :=
| Ok (a : A)
| Raise (e : Exn).
Arguments Ok {A} a.
Arguments Raise {A} e.

(** A call of a collaborator that may raise an Exception with a message. *)
Inductive Raised (A : Type) :=
| Returns (a : A)
| Raises (message : string).
Arguments Returns {A} a.
Arguments Raises {A} message.

(** ', '.join(l) *)
Fixpoint join (sep : string) (l : list string) : string :=
  match l with
  | [] => ""
  | [x] => x
  | x :: rest => x +:+ sep +:+ join sep rest
  end.

(* --------------------------------------------------------------------- *)
(* The metadata store (self.model)                                        *)
(* --------------------------------------------------------------------- *)

(** Modelled from the spec: the requests that change the store (section
    6, MetadataStore), as the store receives them; [success] is the answer
    batch_update_bundles gave. *)
Inductive StoreCall :=
| BatchUpdate (uuids : list string) (update : Update) (condition : State) (success : bool)
| UpdateBundle (target : string) (update : Update)
| PopActions (popped : list BundleAction)
| AddActions (batch : list BundleAction).

(** Modelled from the spec: the metadata store (codalab's BundleModel is
    not part of the sources at hand). The bundle table is a list of rows;
    the action queue is a list; [peers] is what the other workers that
    share the store commit (section 5, shared resources): its head is
    applied just before this worker's next request, which is the finest
    interleaving a single-threaded worker can observe; [calls] records the
    writes the store was asked for, oldest first. *)
Record Store := {
  rows : list Bundle;
  queue : list BundleAction;
  peers : list (list (string * State));
  calls : list StoreCall;
}.

(** Modelled from the spec: a peer's write puts a row in a new state. *)
Definition set_state (s : State) (b : Bundle) : Bundle :=
  {| uuid := uuid b; kind := kind b; state := s; data_hash := data_hash b;
     dependencies := dependencies b; metadata := metadata b |}.

(** Modelled from the spec: an update is a diff; keys absent from the
    update dict leave the column alone, metadata keys are merged with the
    new values winning. *)
Definition apply_update (u : Update) (b : Bundle) : Bundle :=
  {| uuid := uuid b;
     kind := kind b;
     state := default (state b) (upd_state u);
     data_hash := default (data_hash b) (upd_data_hash u);
     dependencies := dependencies b;
     metadata := match upd_metadata u with
                 | Some m => m ∪ metadata b
                 | None => metadata b
                 end |}.

(** Modelled from the spec: UPDATE ... WHERE uuid is selected, over the
    table; the other rows stay. *)
Definition update_rows (sel : string → bool) (f : Bundle → Bundle)
    (t : list Bundle) : list Bundle :=
  (λ r, if sel (uuid r) then f r else r) <$> t.

(** Modelled from the spec: one committed transition of a peer worker. *)
Definition peer_write (t : list Bundle) (w : string * State) : list Bundle :=
  update_rows (λ u, bool_decide (u = w.1)) (set_state w.2) t.

(** Modelled from the spec: one turn of the peers before a request. *)
Definition peer_turn (σ : Store) : Store :=
  match peers σ with
  | [] => σ
  | ws :: rest =>
      {| rows := foldl peer_write (rows σ) ws; queue := queue σ;
         peers := rest; calls := calls σ |}
  end.

(** Modelled from the spec: batch_get_bundles({state: s}) -> [Bundle]. *)
Definition batch_get_bundles_state (s : State) (σ : Store) : Store * list Bundle :=
  let σ1 := peer_turn σ in
  (σ1, filter (λ r, state r = s) (rows σ1)).

(** Modelled from the spec: batch_get_bundles({uuid: set}) -> [Bundle]. *)
Definition batch_get_bundles_uuid (us : gset string) (σ : Store) : Store * list Bundle :=
  let σ1 := peer_turn σ in
  (σ1, filter (λ r, uuid r ∈ us) (rows σ1)).

(** Modelled from the spec: batch_update_bundles(bundles, update,
    condition) -> bool applies update to the selected rows iff each of
    them currently satisfies the condition {state: expected}, all or
    nothing. On success the caller's bundle objects carry the update too:
    start_bundle checks the state of the very object that was handed to
    update_bundle_states, and the roll-back reads its condition off it. *)
Definition batch_update_bundles (bundles : list Bundle) (update : Update)
    (condition : State) (σ : Store) : Store * (bool * list Bundle) :=
  let σ1 := peer_turn σ in
  let us := uuid <$> bundles in
  let sel := λ u, bool_decide (u ∈ us) in
  let success :=
    forallb (λ r, bool_decide (state r = condition))
            (filter (λ r, uuid r ∈ us) (rows σ1)) in
  ({| rows := if success then update_rows sel (apply_update update) (rows σ1)
              else rows σ1;
      queue := queue σ1;
      peers := peers σ1;
      calls := calls σ1 ++ [BatchUpdate us update condition success] |},
   (success, if success then apply_update update <$> bundles else bundles)).

(** Modelled from the spec: update_bundle(bundle, update), the
    unconditional single-row update. *)
Definition update_bundle (bundle : Bundle) (update : Update) (σ : Store) : Store * unit :=
  let σ1 := peer_turn σ in
  ({| rows := update_rows (λ u, bool_decide (u = uuid bundle))
                          (apply_update update) (rows σ1);
      queue := queue σ1;
      peers := peers σ1;
      calls := calls σ1 ++ [UpdateBundle (uuid bundle) update] |}, tt).

(** Modelled from the spec: pop_bundle_actions() -> [BundleAction], the
    atomic drain of the queue. *)
Definition pop_bundle_actions (σ : Store) : Store * list BundleAction :=
  let σ1 := peer_turn σ in
  ({| rows := rows σ1; queue := []; peers := peers σ1;
      calls := calls σ1 ++ [PopActions (queue σ1)] |}, queue σ1).

(** Modelled from the spec: add_bundle_actions([BundleAction]), enqueue. *)
Definition add_bundle_actions (batch : list BundleAction) (σ : Store) : Store * unit :=
  let σ1 := peer_turn σ in
  ({| rows := rows σ1; queue := queue σ1 ++ batch; peers := peers σ1;
      calls := calls σ1 ++ [AddActions batch] |}, tt).

(* --------------------------------------------------------------------- *)
(* The other collaborators                                                *)
(* --------------------------------------------------------------------- *)

(** Modelled from the spec: the interface of the compute backend
    (self.machine), the blob store (self.bundle_store), Bundle's
    install_dependencies, the file-system helpers of path_util and
    canonicalize, and the clock, over a state E of everything outside the
    worker and the metadata store. Only Machine.start, install_dependencies
    and upload may raise. Clock readings are integers here. *)
Class Backend (E : Type) := {
  machine_start_bundle : Bundle → gmap string Bundle → E → E * Raised bool;
  machine_kill_bundle : string → E → E * bool;
  machine_poll : E → E * option (Bundle * bool * string);
  machine_finalize_bundle : string → E → E * unit;
  install_dependencies : Bundle → gmap string Bundle → string → E → E * Raised unit;
  bundle_store_upload : string → E → E * Raised (string * gmap string MetaValue);
  get_current_location : string → E → string;
  make_directory : string → E → E * unit;
  path_util_remove : string → E → E * unit;
  time_time : E → E * Z;
  time_sleep : Z → E → E * unit;
}.

(** The worker's per-bundle scratch record: self.bundle_data[uuid]. *)
Record ScratchRecord := {
  parent_dict : gmap string Bundle;
  start_time : Z;
  actions : list Command;
}.

Definition append_action (a : Command) (r : ScratchRecord) : ScratchRecord :=
  {| parent_dict := parent_dict r; start_time := start_time r;
     actions := actions r ++ [a] |}.

#[global] Instance MetaValue_eq_dec : EqDecision MetaValue.
Proof. solve_decision. Defined.

(* --------------------------------------------------------------------- *)
(* class Worker                                                           *)
(* --------------------------------------------------------------------- *)

Section Worker.
Context {E : Type} `{Backend E}.

(** The world a Worker acts on: [env] holds self.machine,
    self.bundle_store, the file system and the clock; [model] is
    self.model; [bundle_data] is self.bundle_data. *)
Record Worker := {
  env : E;
  model : Store;
  bundle_data : gmap string ScratchRecord;
}.

Definition M (A : Type) : Type := Worker → Worker * Res A.

Definition ret {A} (a : A) : M A := λ w, (w, Ok a).

Definition raise {A} (e : Exn) : M A := λ w, (w, Raise e).

Definition bind {A B} (c : M A) (k : A → M B) : M B :=
  λ w, match c w with
       | (w1, Ok a) => k a w1
       | (w1, Raise e) => (w1, Raise e)
       end.

#[local] Notation "x <~ c ;; k" := (bind c (λ x, k))
  (at level 100, c at next level, right associativity).
#[local] Notation "c ;;; k" := (bind c (λ _, k))
  (at level 100, right associativity).

Definition with_env {A} (f : E → E * A) : M A :=
  λ w, let '(e, a) := f (env w) in
       ({| env := e; model := model w; bundle_data := bundle_data w |}, Ok a).

Definition with_model {A} (f : Store → Store * A) : M A :=
  λ w, let '(σ, a) := f (model w) in
       ({| env := env w; model := σ; bundle_data := bundle_data w |}, Ok a).

Definition set_bundle_data (f : gmap string ScratchRecord → gmap string ScratchRecord) : M unit :=
  λ w, ({| env := env w; model := model w; bundle_data := f (bundle_data w) |}, Ok tt).

(** self.bundle_data[key]: a KeyError when the key is absent. *)
Definition get_bundle_data (key : string) : M ScratchRecord :=
  λ w, match bundle_data w !! key with
       | Some r => (w, Ok r)
       | None => (w, Raise (KeyError key))
       end.

(** codalab.common.precondition. Where the source formats a value into
    the message ('Got multiple states: %s', 'Unexpected bundle state:
    %s', 'Unexpected bundle data_hash: %s'), the callers below pass the
    constant part of the message only; nothing depends on its text. *)
Definition precondition (condition : bool) (message : string) : M unit :=
  if condition then ret tt else raise (PreconditionViolation message).

(** Worker.update_bundle_states. The second component of the result is
    the list of bundle objects as the store left them in memory. *)
Definition update_bundle_states (bundles : list Bundle) (new_state : State)
    : M (bool * list Bundle) :=
  match bundles with
  | [] => ret (true, bundles)
  | first :: _ =>
      let states := remove_dups (state <$> bundles) in
      precondition (bool_decide (length states = 1%nat)) "Got multiple states" ;;;
      with_model (batch_update_bundles bundles (state_update new_state) (state first))
  end.

(** {parent.uuid: parent for parent in parents}: a later parent with the
    same uuid replaces an earlier one. *)
Definition dict_by_uuid {V} (f : Bundle → V) (parents : list Bundle) : gmap string V :=
  foldl (λ m p, <[uuid p := f p]> m) ∅ parents.

Definition dep_uuids (bundle : Bundle) : gset string :=
  list_to_set (parent_uuid <$> dependencies bundle).

(** The try block of finalize_bundle: install_dependencies, then upload;
    the first error ends the block. *)
Definition try_upload (bundle : Bundle) (parent_dict : gmap string Bundle)
    (temp_dir : string) : M (Raised (string * gmap string MetaValue)) :=
  installed <~ with_env (install_dependencies bundle parent_dict temp_dir) ;;
  match installed with
  | Returns _ => with_env (bundle_store_upload temp_dir)
  | Raises message => ret (Raises message)
  end.

(** The update dict finalize_bundle builds from the outcome of its try
    block. *)
Definition finalize_update (bundle : Bundle) (success : bool) (record : ScratchRecord)
    (end_time : Z) (outcome : Raised (string * gmap string MetaValue)) : Update :=
  let '(data_hash, metadata, success) :=
    match outcome with
    | Returns (h, m) => (Some h, m, success)
    | Raises message => (None, <["failure_message" := MString message]> ∅, false)
    end in
  let metadata :=
    if is_RunBundle (kind bundle) then
      let timed := <["time" := MTime (end_time - start_time record)]> metadata in
      if bool_decide (0 < length (actions record))%nat
      then <["actions" := MActions (actions record)]> timed
      else timed
    else metadata in
  let state := if success then READY else FAILED in
  {| upd_state := Some state;
     upd_data_hash := Some data_hash;
     upd_metadata := if decide (metadata = ∅) then None else Some metadata |}.

(** Worker.finalize_bundle *)
Definition finalize_bundle (result : Bundle * bool * string) : M unit :=
  let '(bundle, success, temp_dir) := result in
  end_time <~ with_env time_time ;;
  record <~ get_bundle_data (uuid bundle) ;;
  outcome <~ try_upload bundle (parent_dict record) temp_dir ;;
  with_model (update_bundle bundle (finalize_update bundle success record end_time outcome)) ;;;
  if is_RunBundle (kind bundle)
  then with_env (machine_finalize_bundle (uuid bundle))
  else with_env (path_util_remove temp_dir).

(** Worker.check_finished_bundles: it has no return statement, so its
    value is None. *)
Definition check_finished_bundles : M (option bool) :=
  result <~ with_env machine_poll ;;
  match result with
  | Some r => finalize_bundle r ;;; ret None
  | None => ret None
  end.

(** The inline finalisation of start_bundle's two branches. *)
Definition finalize_inline (bundle : Bundle) (success : bool) : M unit :=
  temp_dir <~ (λ w, (w, Ok (get_current_location (uuid bundle) (env w)))) ;;
  with_env (make_directory temp_dir) ;;;
  finalize_bundle (bundle, success, temp_dir).

(** Worker.start_bundle *)
Definition start_bundle (bundle : Bundle) : M bool :=
  precondition (bool_decide (state bundle = RUNNING)) "Unexpected bundle state" ;;;
  precondition (bool_decide (data_hash bundle = None)) "Unexpected bundle data_hash" ;;;
  let parent_uuids := dep_uuids bundle in
  parents <~ with_model (batch_get_bundles_uuid parent_uuids) ;;
  let parent_dict := dict_by_uuid id parents in
  now <~ with_env time_time ;;
  set_bundle_data (insert (uuid bundle)
    {| parent_dict := parent_dict; start_time := now; actions := [] |}) ;;;
  (* started, exception *)
  launch <~ (if is_RunBundle (kind bundle)
             then r <~ with_env (machine_start_bundle bundle parent_dict) ;;
                  match r with
                  | Returns started => ret (started, None)
                  | Raises message => ret (true, Some message)
                  end
             else ret (true, None)) ;;
  let '(started, exception) := launch in
  (if exception is Some _ then finalize_inline bundle false else ret tt) ;;;
  (if negb (is_RunBundle (kind bundle)) then finalize_inline bundle true else ret tt) ;;;
  ret started.

(** The body of check_killed_bundles' loop over the popped actions;
    [keep] is keep_bundle_actions. *)
Fixpoint kill_loop (bundle_actions keep : list BundleAction) : M (list BundleAction) :=
  match bundle_actions with
  | [] => ret keep
  | x :: rest =>
      processed <~ (if decide (action x = KILL)
                    then with_env (machine_kill_bundle (bundle_uuid x))
                    else ret false) ;;
      keep1 <~ (if processed : bool
                then record <~ get_bundle_data (bundle_uuid x) ;;
                     set_bundle_data (insert (bundle_uuid x) (append_action (action x) record)) ;;;
                     ret keep
                else ret (keep ++ [x])) ;;
      kill_loop rest keep1
  end.

(** Worker.check_killed_bundles *)
Definition check_killed_bundles : M bool :=
  bundle_actions <~ with_model pop_bundle_actions ;;
  keep_bundle_actions <~ kill_loop bundle_actions [] ;;
  (if bool_decide (0 < length keep_bundle_actions)%nat
   then with_model (add_bundle_actions keep_bundle_actions)
   else ret tt) ;;;
  ret (bool_decide (Z.of_nat (length bundle_actions)
                    - Z.of_nat (length keep_bundle_actions) > 0)).

(** {uuid: all_parent_states[uuid] for uuid in parent_uuids} *)
Definition restrict_states (all_parent_states : gmap string State)
    (parent_uuids : gset string) : gmap string State :=
  list_to_map (omap (λ u, (u,.) <$> all_parent_states !! u) (elements parent_uuids)).

Definition failure_message_of (failed_uuids : list string) : string :=
  "Parent bundles failed: " +:+ join ", " failed_uuids.

(** One round of update_created_bundles' classification loop; the pair
    is (bundles_to_fail, bundles_to_stage). *)
Definition classify (all_parent_states : gmap string State)
    (acc : list (Bundle * string) * list Bundle) (bundle : Bundle)
    : list (Bundle * string) * list Bundle :=
  let parent_uuids := dep_uuids bundle in
  let missing_uuids := parent_uuids ∖ dom all_parent_states in
  if decide (missing_uuids = ∅) then
    let parent_states := restrict_states all_parent_states parent_uuids in
    let failed_uuids :=
      (map_to_list (filter (λ kv, kv.2 = FAILED) parent_states)).*1 in
    if decide (failed_uuids = []) then
      if bool_decide (map_Forall (λ _ s, s = READY) parent_states)
      then (acc.1, acc.2 ++ [bundle])
      else acc
    else (acc.1 ++ [(bundle, failure_message_of failed_uuids)], acc.2)
  else acc.

Definition fail_update (failure_message : string) : Update :=
  {| upd_state := Some FAILED;
     upd_data_hash := None;
     upd_metadata := Some (<["failure_message" := MString failure_message]> ∅) |}.

Fixpoint fail_loop (bundles_to_fail : list (Bundle * string)) : M unit :=
  match bundles_to_fail with
  | [] => ret tt
  | (bundle, failure_message) :: rest =>
      with_model (update_bundle bundle (fail_update failure_message)) ;;;
      fail_loop rest
  end.

(** Worker.update_created_bundles *)
Definition update_created_bundles : M bool :=
  bundles <~ with_model (batch_get_bundles_state CREATED) ;;
  let parent_uuids : gset string := ⋃ (dep_uuids <$> bundles) in
  parents <~ with_model (batch_get_bundles_uuid parent_uuids) ;;
  let all_parent_states := dict_by_uuid state parents in
  let '(bundles_to_fail, bundles_to_stage) :=
    foldl (classify all_parent_states) ([], []) bundles in
  fail_loop bundles_to_fail ;;;
  update_bundle_states bundles_to_stage STAGED ;;;
  let num_processed := (length bundles_to_fail + length bundles_to_stage)%nat in
  ret (bool_decide (0 < num_processed)%nat).

(** The body of update_staged_bundles' loop. *)
Definition staged_body (new_running_bundles : Z) (bundle : Bundle) : M Z :=
  locked <~ update_bundle_states [bundle] RUNNING ;;
  if negb locked.1 then ret new_running_bundles
  else
    let bundle := default bundle (head locked.2) in
    started <~ start_bundle bundle ;;
    if started then ret (new_running_bundles + 1)
    else (* Restage: undo state change to RUNNING *)
      update_bundle_states [bundle] STAGED ;;;
      ret new_running_bundles.

Fixpoint staged_loop (bundles : list Bundle) (new_running_bundles : Z) : M Z :=
  match bundles with
  | [] => ret new_running_bundles
  | bundle :: rest =>
      n <~ staged_body new_running_bundles bundle ;;
      staged_loop rest n
  end.

(** Worker.update_staged_bundles *)
Definition update_staged_bundles : M bool :=
  bundles <~ with_model (batch_get_bundles_state STAGED) ;;
  new_running_bundles <~ staged_loop bundles 0 ;;
  ret (bool_decide (new_running_bundles > 0)).

(** Python truth value of what check_finished_bundles hands back. *)
Definition truthy (v : option bool) : bool := default false v.

(** One pass of run_loop's while body; the result is the new value of
    the iteration counter. *)
Definition loop_body (sleep_time : Z) (iteration : Z) : M Z :=
  bool_killed <~ check_killed_bundles ;;
  update_created_bundles ;;;
  bool_run <~ update_staged_bundles ;;
  bool_done <~ check_finished_bundles ;;
  if negb (bool_killed || bool_run || truthy bool_done)
  then with_env (time_sleep sleep_time) ;;; ret iteration
  else ret (iteration + 1).

(** not num_iterations or iteration < num_iterations *)
Definition loop_condition (num_iterations : option Z) (iteration : Z) : bool :=
  match num_iterations with
  | None => true
  | Some n => bool_decide (n = 0) || bool_decide (iteration < n)
  end.

(** Worker.run_loop, for at most [fuel] passes of the while loop; the
    result says whether the loop ended within them. *)
Fixpoint run_loop_from (fuel : nat) (num_iterations : option Z) (sleep_time : Z)
    (iteration : Z) : M bool :=
  if loop_condition num_iterations iteration then
    match fuel with
    | O => ret false
    | S fuel' =>
        next <~ loop_body sleep_time iteration ;;
        run_loop_from fuel' num_iterations sleep_time next
    end
  else ret true.

Definition run_loop (fuel : nat) (num_iterations : option Z) (sleep_time : Z) : M bool :=
  run_loop_from fuel num_iterations sleep_time 0.

End Worker.

Notation "x <~ c ;; k" := (bind c (λ x, k))
  (at level 100, c at next level, right associativity).
Notation "c ;;; k" := (bind c (λ _, k))
  (at level 100, right associativity).

Arguments Worker E : clear implicits.
Arguments M E A : clear implicits.

(* --------------------------------------------------------------------- *)
(* A scripted backend, to run the worker on concrete worlds               *)
(* --------------------------------------------------------------------- *)

(** A backend whose answers are given in advance: Machine.start and
    upload answer from their scripts (accepting, resp. an empty upload
    with hash "h", once the script is used up), kill answers true for the
    listed uuids, poll answers from its script (None afterwards); the
    clock advances by one at each reading. The calls received are kept. *)
Record Scripted := {
  start_answers : list (Raised bool);
  kill_true : list string;
  poll_answers : list (option (Bundle * bool * string));
  upload_answers : list (Raised (string * gmap string MetaValue));
  clock : Z;
  sleeps : list Z;
  started : list string;
  finalized : list string;
}.

#[global] Instance Scripted_backend : Backend Scripted := {|
  machine_start_bundle b _ e :=
    ({| start_answers := tail (start_answers e); kill_true := kill_true e;
        poll_answers := poll_answers e; upload_answers := upload_answers e;
        clock := clock e; sleeps := sleeps e;
        started := started e ++ [uuid b]; finalized := finalized e |},
     default (Returns true) (head (start_answers e)));
  machine_kill_bundle u e := (e, bool_decide (u ∈ kill_true e));
  machine_poll e :=
    ({| start_answers := start_answers e; kill_true := kill_true e;
        poll_answers := tail (poll_answers e); upload_answers := upload_answers e;
        clock := clock e; sleeps := sleeps e;
        started := started e; finalized := finalized e |},
     default None (head (poll_answers e)));
  machine_finalize_bundle u e :=
    ({| start_answers := start_answers e; kill_true := kill_true e;
        poll_answers := poll_answers e; upload_answers := upload_answers e;
        clock := clock e; sleeps := sleeps e;
        started := started e; finalized := finalized e ++ [u] |}, tt);
  install_dependencies _ _ _ e := (e, Returns tt);
  bundle_store_upload _ e :=
    ({| start_answers := start_answers e; kill_true := kill_true e;
        poll_answers := poll_answers e; upload_answers := tail (upload_answers e);
        clock := clock e; sleeps := sleeps e;
        started := started e; finalized := finalized e |},
     default (Returns ("h", ∅)) (head (upload_answers e)));
  get_current_location u _ := "/tmp/" +:+ u;
  make_directory _ e := (e, tt);
  path_util_remove _ e := (e, tt);
  time_time e :=
    ({| start_answers := start_answers e; kill_true := kill_true e;
        poll_answers := poll_answers e; upload_answers := upload_answers e;
        clock := clock e + 1; sleeps := sleeps e;
        started := started e; finalized := finalized e |}, clock e);
  time_sleep t e :=
    ({| start_answers := start_answers e; kill_true := kill_true e;
        poll_answers := poll_answers e; upload_answers := upload_answers e;
        clock := clock e; sleeps := sleeps e ++ [t];
        started := started e; finalized := finalized e |}, tt);
|}.

Definition quiet_backend : Scripted :=
  {| start_answers := []; kill_true := []; poll_answers := [];
     upload_answers := []; clock := 0; sleeps := [];
     started := []; finalized := [] |}.

Definition mk_bundle (u : string) (k : Kind) (s : State) (parents : list string) : Bundle :=
  {| uuid := u; kind := k; state := s; data_hash := None;
     dependencies := (λ p, {| parent_uuid := p; parent_path := ""; child_path := p |}) <$> parents;
     metadata := ∅ |}.

Definition mk_store (t : list Bundle) (q : list BundleAction) : Store :=
  {| rows := t; queue := q; peers := []; calls := [] |}.

Definition mk_worker (e : Scripted) (σ : Store) : Worker Scripted :=
  {| env := e; model := σ; bundle_data := ∅ |}.


(** Scenario: bundle "r" is RUNNING on this worker and the backend's next
    poll reports it finished with success. *)
Definition r_running : Bundle := mk_bundle "r" RunBundle RUNNING [].

Definition r_record : ScratchRecord :=
  {| parent_dict := ∅; start_time := 0; actions := [] |}.

Definition w_reap : Worker Scripted :=
  {| env := {| start_answers := []; kill_true := [];
               poll_answers := [Some (r_running, true, "/tmp/r")];
               upload_answers := []; clock := 7; sleeps := [];
               started := []; finalized := [] |};
     model := mk_store [r_running] [];
     bundle_data := {[ "r" := r_record ]} |}.

(* --------------------------------------------------------------------- *)
(* Vocabulary of the properties                                           *)
(* --------------------------------------------------------------------- *)

Section Frames.
Context {E : Type} `{Backend E}.

(** [stable R c]: whatever [c] does, returning or raising, the world it
    leaves is related by [R] to the one it found. *)
Definition stable {A} (R : relation (Worker E)) (c : M E A) : Prop :=
  ∀ w, R w (c w).1.

(** What a step leaves alone. *)
Definition same_data : relation (Worker E) := λ w w', bundle_data w' = bundle_data w.
Definition same_model : relation (Worker E) := λ w w', model w' = model w.
Definition same_env : relation (Worker E) := λ w w', env w' = env w.

End Frames.

Arguments same_data E : clear implicits.
Arguments same_model E : clear implicits.
Arguments same_env E : clear implicits.

Section Kill_vocabulary.
Context {E : Type} `{Backend E}.

(** What the loop of check_killed_bundles learns about one popped action:
    Machine.kill's answer for a KILL action, false for any other. *)
Definition kill_answer (x : BundleAction) (e : E) : E * bool :=
  if decide (action x = KILL) then machine_kill_bundle (bundle_uuid x) e else (e, false).

(** The backend after the loop has gone through the given actions. *)
Fixpoint env_after_kills (bundle_actions : list BundleAction) (e : E) : E :=
  match bundle_actions with
  | [] => e
  | x :: rest => env_after_kills rest (kill_answer x e).1
  end.

(** The popped actions the backend answered true for, in order. *)
Fixpoint consumed_of (bundle_actions : list BundleAction) (e : E) : list BundleAction :=
  match bundle_actions with
  | [] => []
  | x :: rest =>
      if (kill_answer x e).2
      then x :: consumed_of rest (kill_answer x e).1
      else consumed_of rest (kill_answer x e).1
  end.

(** The other popped actions, in order. *)
Fixpoint requeued_of (bundle_actions : list BundleAction) (e : E) : list BundleAction :=
  match bundle_actions with
  | [] => []
  | x :: rest =>
      if (kill_answer x e).2
      then requeued_of rest (kill_answer x e).1
      else x :: requeued_of rest (kill_answer x e).1
  end.

(** A scratch record after the given actions were appended to it. *)
Definition with_actions (applied : list Command) (r : ScratchRecord) : ScratchRecord :=
  foldl (λ r a, append_action a r) r applied.

(** The actions among [l] that address bundle [u]. *)
Definition actions_for (u : string) (l : list BundleAction) : list Command :=
  action <$> filter (λ x, bundle_uuid x = u) l.

End Kill_vocabulary.

(** Scenario: two KILL actions are queued; the backend can kill "r", which
    runs on this worker, and "p", which this worker has no record of. *)
Definition kill_r : BundleAction := {| bundle_uuid := "r"; action := KILL |}.
Definition kill_p : BundleAction := {| bundle_uuid := "p"; action := KILL |}.
Definition kill_q : BundleAction := {| bundle_uuid := "q"; action := KILL |}.

Definition w_kill (q : list BundleAction) : Worker Scripted :=
  {| env := {| start_answers := []; kill_true := ["r"; "p"]; poll_answers := [];
               upload_answers := []; clock := 7; sleeps := [];
               started := []; finalized := [] |};
     model := mk_store [r_running] q;
     bundle_data := {[ "r" := r_record ]} |}.

Section Launch_vocabulary.
Context {E : Type} `{Backend E}.

(** The parent_dict start_bundle builds from the store's answer. *)
Definition parents_at (bundle : Bundle) (σ : Store) : gmap string Bundle :=
  dict_by_uuid id (batch_get_bundles_uuid (dep_uuids bundle) σ).2.

(** The scratch record start_bundle allocates in world [w]. *)
Definition scratch_at (bundle : Bundle) (w : Worker E) : ScratchRecord :=
  {| parent_dict := parents_at bundle (model w);
     start_time := (time_time (env w)).2;
     actions := [] |}.

(** Machine.start's answer to start_bundle called in world [w]. *)
Definition start_answer (bundle : Bundle) (w : Worker E) : Raised bool :=
  (machine_start_bundle bundle (parents_at bundle (model w)) (time_time (env w)).1).2.

(** What start_bundle returns in world [w]: true for a MakeBundle, true
    when Machine.start raises, Machine.start's answer otherwise. *)
Definition moved (bundle : Bundle) (w : Worker E) : bool :=
  match kind bundle with
  | MakeBundle => true
  | RunBundle =>
      match start_answer bundle w with
      | Returns started => started
      | Raises _ => true
      end
  end.

(** The bundle object once the store has set it to RUNNING. *)
Definition running (bundle : Bundle) : Bundle :=
  apply_update (state_update RUNNING) bundle.

(** The world after update_staged_bundles' attempt to lock [bundle]. *)
Definition after_lock (bundle : Bundle) (w : Worker E) : Worker E :=
  {| env := env w;
     model := (batch_update_bundles [bundle] (state_update RUNNING) (state bundle) (model w)).1;
     bundle_data := bundle_data w |}.

Definition lock_won (bundle : Bundle) (w : Worker E) : bool :=
  (batch_update_bundles [bundle] (state_update RUNNING) (state bundle) (model w)).2.1.

(** In world [w] the loop of update_staged_bundles wins the lock on
    [bundle] and start_bundle then returns true. *)
Definition launched_at (bundle : Bundle) (w : Worker E) : bool :=
  lock_won bundle w && moved (running bundle) (after_lock bundle w).

(** metadata.failure_message as an update dict writes it, if it does. *)
Definition written_failure_message (u : Update) : option MetaValue :=
  upd_metadata u ≫= (λ m, m !! "failure_message").

End Launch_vocabulary.

(** Scenario: "r" is a RunBundle the worker has just locked, and the
    backend's start raises "boom". *)
Definition w_boom : Worker Scripted :=
  {| env := {| start_answers := [Raises "boom"]; kill_true := []; poll_answers := [];
               upload_answers := []; clock := 7; sleeps := [];
               started := []; finalized := [] |};
     model := mk_store [r_running] [];
     bundle_data := ∅ |}.

(** Scenario: the only STAGED bundle is a MakeBundle. *)
Definition m_staged : Bundle := mk_bundle "m" MakeBundle STAGED [].

Definition w_make : Worker Scripted := mk_worker quiet_backend (mk_store [m_staged] []).

(** Scenario: the only STAGED bundle is a RunBundle and the backend
    refuses it. *)
Definition s_staged : Bundle := mk_bundle "s" RunBundle STAGED [].

Definition w_refuse : Worker Scripted :=
  {| env := {| start_answers := [Returns false]; kill_true := []; poll_answers := [];
               upload_answers := []; clock := 7; sleeps := [];
               started := []; finalized := [] |};
     model := mk_store [s_staged] [];
     bundle_data := ∅ |}.

(** The three tests of update_created_bundles' classification loop on
    one bundle: missing_uuids, failed_uuids, and whether all parents are
    READY. *)
Definition missing_uuids (all_parent_states : gmap string State) (bundle : Bundle)
    : gset string :=
  dep_uuids bundle ∖ dom all_parent_states.

Definition failed_uuids_of (all_parent_states : gmap string State) (bundle : Bundle)
    : list string :=
  (map_to_list (filter (λ kv, kv.2 = FAILED)
                       (restrict_states all_parent_states (dep_uuids bundle)))).*1.

Definition all_ready_of (all_parent_states : gmap string State) (bundle : Bundle) : Prop :=
  map_Forall (λ _ s, s = READY) (restrict_states all_parent_states (dep_uuids bundle)).

(** The store as update_created_bundles reads it. *)
Definition created_at (σ : Store) : list Bundle :=
  (batch_get_bundles_state CREATED σ).2.

Definition parent_states_at (σ : Store) : gmap string State :=
  dict_by_uuid state
    (batch_get_bundles_uuid (⋃ (dep_uuids <$> created_at σ)) (peer_turn σ)).2.

(** (bundles_to_fail, bundles_to_stage) after the classification loop. *)
Definition classified (σ : Store) : list (Bundle * string) * list Bundle :=
  foldl (classify (parent_states_at σ)) ([], []) (created_at σ).

(** The request each entry of bundles_to_fail turns into. *)
Definition fail_call (bm : Bundle * string) : StoreCall :=
  UpdateBundle (uuid bm.1) (fail_update bm.2).

(** The table after the writes for bundles_to_fail. *)
Definition fail_rows (l : list (Bundle * string)) (t : list Bundle) : list Bundle :=
  foldl (λ t bm, update_rows (λ u, bool_decide (u = uuid bm.1))
                             (apply_update (fail_update bm.2)) t) t l.

(** Parents of a bundle, by uuid, against a table of rows. *)
Definition parents_of (bundle : Bundle) : list string :=
  parent_uuid <$> dependencies bundle.

Definition present (t : list Bundle) (u : string) : Prop :=
  ∃ p, p ∈ t ∧ uuid p = u.

Definition parent_in (t : list Bundle) (s : State) (u : string) : Prop :=
  ∃ p, p ∈ t ∧ uuid p = u ∧ state p = s.

(** Scenario: "x" is CREATED and depends on the FAILED bundle "p"; just
    before the worker's third request a peer moves "x" to STAGED. *)
Definition w_race_fail : Worker Scripted :=
  mk_worker quiet_backend
    {| rows := [mk_bundle "p" RunBundle FAILED []; mk_bundle "x" RunBundle CREATED ["p"]];
       queue := []; peers := [[]; []; [("x", STAGED)]]; calls := [] |}.

(** Scenario: "x" is CREATED without parents; just before the worker's
    third request a peer worker stages it. *)
Definition w_race_stage : Worker Scripted :=
  mk_worker quiet_backend
    {| rows := [mk_bundle "x" RunBundle CREATED []];
       queue := []; peers := [[]; []; [("x", STAGED)]]; calls := [] |}.

(** Scenario: a family of bundles, one for each way update_created_bundles
    treats a CREATED bundle. *)
Definition family : list Bundle :=
  [ mk_bundle "a" RunBundle READY [];
    mk_bundle "b" RunBundle FAILED [];
    mk_bundle "c" RunBundle CREATED ["a"; "b"];
    mk_bundle "d" MakeBundle CREATED ["a"];
    mk_bundle "e" MakeBundle CREATED ["c"];
    mk_bundle "f" MakeBundle CREATED ["zz"; "b"] ].

Definition w_family : Worker Scripted := mk_worker quiet_backend (mk_store family []).

(** Scenario: the two STAGED bundles handed over together are not in one
    state. *)
Definition w_mixed : Worker Scripted :=
  mk_worker quiet_backend (mk_store [s_staged; r_running] []).

(** Scenario: a STAGED RunBundle whose row already carries a data_hash. *)
Definition h_staged : Bundle :=
  {| uuid := "h"; kind := RunBundle; state := STAGED; data_hash := Some "0xabc";
     dependencies := []; metadata := ∅ |}.

Definition w_hashed : Worker Scripted := mk_worker quiet_backend (mk_store [h_staged] []).

(** Scenario: the backend reports "r" finished, but this worker holds no
    scratch record for it. *)
Definition w_stranger : Worker Scripted :=
  {| env := {| start_answers := []; kill_true := [];
               poll_answers := [Some (r_running, true, "/tmp/r")];
               upload_answers := []; clock := 7; sleeps := [];
               started := []; finalized := [] |};
     model := mk_store [r_running] [];
     bundle_data := ∅ |}.

(** Scenario: "r" runs here and a KILL has already been applied to it. *)
Definition w_killed : Worker Scripted :=
  {| env := {| start_answers := []; kill_true := []; poll_answers := [];
               upload_answers := []; clock := 7; sleeps := [];
               started := []; finalized := [] |};
     model := mk_store [r_running] [];
     bundle_data := {[ "r" := {| parent_dict := ∅; start_time := 3; actions := [KILL] |} ]} |}.

(** Scenario: "m" is a MakeBundle the worker has just locked. *)
Definition m_running : Bundle := mk_bundle "m" MakeBundle RUNNING [].

Definition w_made : Worker Scripted := mk_worker quiet_backend (mk_store [m_running] []).

(** Scenario: only commands other than KILL are queued. *)
Definition pause_r : BundleAction := {| bundle_uuid := "r"; action := OTHER "pause" |}.
Definition resume_q : BundleAction := {| bundle_uuid := "q"; action := OTHER "resume" |}.

(** Scenario: nothing to do: no action queued, no CREATED or STAGED row,
    nothing finished. *)
Definition w_idle : Worker Scripted :=
  mk_worker quiet_backend
    (mk_store [mk_bundle "a" RunBundle READY []; mk_bundle "b" RunBundle FAILED []] []).

(* --------------------------------------------------------------------- *)
(* src/codalab/rest/util.py: group helpers                                *)
(* --------------------------------------------------------------------- *)

(** bottle's HTTPError, as abort(code, text) raises it. *)
Record HTTPError := {
  status_code : Z;
  http_message : string;
}.

(** httplib.FORBIDDEN *)
Definition FORBIDDEN : Z := 403.

(** The group_info dict, with the keys get_group_info reads. *)
Record GroupInfo := {
  group_uuid : string;
  owner_id : string;
  is_admin : bool;
}.

(** How a decorated function's body ends: it returns, abort raises an
    HTTPError, or a collaborator raises a CodaLab exception. *)
Inductive Ending (Exc A : Type) :=
| Done (a : A)
| Aborted (e : HTTPError)
| Failed (e : Exc).
Arguments Done {Exc A} a.
Arguments Aborted {Exc A} e.
Arguments Failed {Exc A} e.

Section Util.
(** Not part of the sources at hand, taken as parameters: the CodaLab
    exception type with codalab.common.http_error_to_exception, the
    model's root_user_id and public_group_uuid, and
    codalab.objects.permission.unique_group on local.model, which returns
    a group_info or raises. *)
Variable Exc : Type.
Variable http_error_to_exception : Z → string → Exc.
Variable root_user_id : string.
Variable public_group_uuid : string.
Variable unique_group : string → option string → Exc + GroupInfo.

(** local_bundle_client_compatible's wrapper around a body's ending:
    HTTP errors are translated back to CodaLab exceptions. *)
Definition local_bundle_client_compatible {A} (ending : Ending Exc A) : Exc + A :=
  match ending with
  | Done a => inr a
  | Aborted e => inl (http_error_to_exception (status_code e) (http_message e))
  | Failed e => inl e
  end.

(** Python truth value of user_id once root has been mapped to None. *)
Definition truthy_user (user_id : option string) : bool :=
  match user_id with
  | Some s => negb (bool_decide (s = ""))
  | None => false
  end.

(** The body of get_group_info; [user_id] is request.user.user_id. *)
Definition get_group_info_body (user_id group_spec : string) (need_admin : bool)
    : Ending Exc GroupInfo :=
  let user_id : option string :=
    if decide (user_id = root_user_id) then None else Some user_id in
  match unique_group group_spec user_id with
  | inl e => Failed e
  | inr group_info =>
      if truthy_user user_id && need_admin && negb (is_admin group_info)
         && negb (bool_decide (user_id = Some (owner_id group_info)))
      then Aborted {| status_code := FORBIDDEN;
                      http_message := "You are not the admin of group " +:+ group_spec +:+ "." |}
      else if need_admin && bool_decide (group_uuid group_info = public_group_uuid)
      then Aborted {| status_code := FORBIDDEN;
                      http_message := "Cannot modify the public group " +:+ group_spec +:+ "." |}
      else Done group_info
  end.

(** get_group_info, decorated. *)
Definition get_group_info (user_id group_spec : string) (need_admin : bool)
    : Exc + GroupInfo :=
  local_bundle_client_compatible (get_group_info_body user_id group_spec need_admin).

End Util.

(** Scenario: user "7" asks for admin access to a group they own; and the
    public group "pub", which root itself may not modify. *)
Definition lab_group : GroupInfo :=
  {| group_uuid := "0xlab"; owner_id := "7"; is_admin := false |}.

Definition pub_group : GroupInfo :=
  {| group_uuid := "pub"; owner_id := "0"; is_admin := true |}.

Definition groups_of (group_spec : string) (user_id : option string)
    : (Z * string) + GroupInfo :=
  if bool_decide (group_spec = "lab") then inr lab_group
  else if bool_decide (group_spec = "public") then inr pub_group
  else inl (404, "no such group").

Section Inline_vocabulary.
Context {E : Type} `{Backend E}.

(** The outcome of finalize_bundle's try block run on backend [e]: the
    error of install_dependencies if it raises, else upload's answer. *)
Definition try_outcome (bundle : Bundle) (parent_dict : gmap string Bundle)
    (temp_dir : string) (e : E) : Raised (string * gmap string MetaValue) :=
  match (install_dependencies bundle parent_dict temp_dir e).2 with
  | Returns _ =>
      (bundle_store_upload temp_dir (install_dependencies bundle parent_dict temp_dir e).1).2
  | Raises message => Raises message
  end.

(** The backend as Machine.start leaves it when start_bundle calls it in
    world [w]; its answer is not part of it. *)
Definition env_after_start (bundle : Bundle) (w : Worker E) : E :=
  (machine_start_bundle bundle (parents_at bundle (model w)) (time_time (env w)).1).1.

(** The temp directory of the inline finalisation that follows. *)
Definition inline_temp_dir (bundle : Bundle) (w : Worker E) : string :=
  get_current_location (uuid bundle) (env_after_start bundle w).

(** The clock reading finalize_bundle takes there, with the backend after
    it. *)
Definition inline_clock (bundle : Bundle) (w : Worker E) : E * Z :=
  time_time (make_directory (inline_temp_dir bundle w) (env_after_start bundle w)).1.

(** The outcome of the try block there. *)
Definition inline_outcome (bundle : Bundle) (w : Worker E)
    : Raised (string * gmap string MetaValue) :=
  try_outcome bundle (parents_at bundle (model w)) (inline_temp_dir bundle w)
    (inline_clock bundle w).1.

(** The update dict finalize_bundle builds there with success = False. *)
Definition inline_update_on_raise (bundle : Bundle) (w : Worker E) : Update :=
  finalize_update bundle false (scratch_at bundle w) (inline_clock bundle w).2
    (inline_outcome bundle w).

End Inline_vocabulary.

(** Scenario: "x" and "y" are CREATED and depend on the READY bundle "a";
    just before the worker's third request a peer worker stages "x". *)
Definition w_race_batch : Worker Scripted :=
  mk_worker quiet_backend
    {| rows := [mk_bundle "a" RunBundle READY [];
                mk_bundle "x" RunBundle CREATED ["a"];
                mk_bundle "y" RunBundle CREATED ["a"]];
       queue := []; peers := [[]; []; [("x", STAGED)]]; calls := [] |}.

(* ===================================================================== *)
(* Properties                                                             *)
(* ===================================================================== *)

Section Monad_facts.
Context {E : Type} `{Backend E}.

Lemma bind_Ok {A B} (c : M E A) (k : A → M E B) w w' b :
  bind c k w = (w', Ok b) →
  ∃ w1 a, c w = (w1, Ok a) ∧ k a w1 = (w', Ok b).
Proof.
  unfold bind. destruct (c w) as [w1 [a|e]]; [eauto | discriminate].
Qed.

Lemma bind_Raise {A B} (c : M E A) (k : A → M E B) w w' e :
  bind c k w = (w', Raise e) →
  c w = (w', Raise e) ∨ ∃ w1 a, c w = (w1, Ok a) ∧ k a w1 = (w', Raise e).
Proof.
  unfold bind. destruct (c w) as [w1 [a|e1]]; [eauto | ].
  intros [= -> ->]. by left.
Qed.

Lemma bind_step {A B} (c : M E A) (k : A → M E B) w w1 a :
  c w = (w1, Ok a) → bind c k w = k a w1.
Proof. unfold bind. by intros ->. Qed.

Lemma stable_ret {A} (R : relation (Worker E)) `{!Reflexive R} (a : A) : stable R (ret a).
Proof. intros w. simpl. reflexivity. Qed.

Lemma stable_raise {A} (R : relation (Worker E)) `{!Reflexive R} e : stable R (raise (A:=A) e).
Proof. intros w. simpl. reflexivity. Qed.

Lemma stable_bind {A B} (R : relation (Worker E)) `{!Transitive R} (c : M E A) (k : A → M E B) :
  stable R c → (∀ a, stable R (k a)) → stable R (bind c k).
Proof.
  intros Hc Hk w. unfold bind. specialize (Hc w).
  destruct (c w) as [w1 [a|e]]; simpl in *; [| done].
  etrans; [exact Hc | apply Hk].
Qed.

Lemma stable_precondition (R : relation (Worker E)) `{!Reflexive R} b m : stable R (precondition b m).
Proof. destruct b; [apply stable_ret | apply stable_raise]; done. Qed.

Lemma stable_get_bundle_data (R : relation (Worker E)) `{!Reflexive R} key : stable R (get_bundle_data key).
Proof. intros w. unfold get_bundle_data. destruct (bundle_data w !! key); simpl; reflexivity. Qed.

#[local] Instance same_data_refl : Reflexive (same_data E).
Proof. by intros w. Qed.
#[local] Instance same_data_trans : Transitive (same_data E).
Proof. unfold same_data. intros w1 w2 w3 H12 H23. congruence. Qed.
#[local] Instance same_model_refl : Reflexive (same_model E).
Proof. by intros w. Qed.
#[local] Instance same_model_trans : Transitive (same_model E).
Proof. unfold same_model. intros w1 w2 w3 H12 H23. congruence. Qed.
#[local] Instance same_env_refl : Reflexive (same_env E).
Proof. by intros w. Qed.
#[local] Instance same_env_trans : Transitive (same_env E).
Proof. unfold same_env. intros w1 w2 w3 H12 H23. congruence. Qed.

Lemma with_env_same_data {A} (f : E → E * A) : stable (same_data E) (with_env f).
Proof. intros w. unfold with_env. by destruct (f (env w)). Qed.

Lemma with_env_same_model {A} (f : E → E * A) : stable (same_model E) (with_env f).
Proof. intros w. unfold with_env. by destruct (f (env w)). Qed.

Lemma with_model_same_data {A} (f : Store → Store * A) : stable (same_data E) (with_model f).
Proof. intros w. unfold with_model. by destruct (f (model w)). Qed.

Lemma with_model_same_env {A} (f : Store → Store * A) : stable (same_env E) (with_model f).
Proof. intros w. unfold with_model. by destruct (f (model w)). Qed.

Lemma try_upload_same_data b pd t : stable (same_data E) (try_upload b pd t).
Proof.
  apply stable_bind; [apply _ | apply with_env_same_data |].
  intros [[]|m]; [apply with_env_same_data | by apply stable_ret].
Qed.

Lemma finalize_bundle_same_data result : stable (same_data E) (finalize_bundle result).
Proof.
  destruct result as [[b s] t]. unfold finalize_bundle.
  apply stable_bind; [apply _ | apply with_env_same_data | intros end_time].
  apply stable_bind; [apply _ | by apply stable_get_bundle_data | intros record].
  apply stable_bind; [apply _ | apply try_upload_same_data | intros outcome].
  apply stable_bind; [apply _ | apply with_model_same_data | intros _].
  destruct (is_RunBundle (kind b)); apply with_env_same_data.
Qed.

End Monad_facts.

(* --------------------------------------------------------------------- *)
(* finalize_bundle and the scratch registry                               *)
(* --------------------------------------------------------------------- *)

Section Finalize_facts.
Context {E : Type} `{Backend E}.

Lemma get_bundle_data_Ok key (w w' : Worker E) r :
  get_bundle_data key w = (w', Ok r) → w' = w ∧ bundle_data w !! key = Some r.
Proof.
  unfold get_bundle_data. destruct (bundle_data w !! key); [| discriminate].
  by intros [= -> ->].
Qed.

Lemma get_bundle_data_Raise key (w w' : Worker E) e :
  get_bundle_data key w = (w', Raise e) →
  w' = w ∧ e = KeyError key ∧ bundle_data w !! key = None.
Proof.
  unfold get_bundle_data. destruct (bundle_data w !! key); [discriminate |].
  by intros [= -> <-].
Qed.

(** C6 (as the code has it): when finalize_bundle completes for a bundle,
    the worker's registry bundle_data is exactly what it was before: no
    entry is changed, and the scratch record keyed by the bundle's uuid is
    still there. finalize_bundle has no statement that deletes it. *)
Theorem finalize_bundle_registry_unchanged (w w' : Worker E) bundle success temp_dir :
  finalize_bundle (bundle, success, temp_dir) w = (w', Ok tt) →
  bundle_data w' = bundle_data w ∧ is_Some (bundle_data w' !! uuid bundle).
Proof.
  intros Hfin.
  assert (Hsame : bundle_data w' = bundle_data w).
  { pose proof (finalize_bundle_same_data (bundle, success, temp_dir) w) as Hs.
    rewrite Hfin in Hs. exact Hs. }
  split; [exact Hsame |].
  unfold finalize_bundle in Hfin.
  apply bind_Ok in Hfin as (w1 & end_time & Htime & Hfin).
  apply bind_Ok in Hfin as (w2 & record & Hget & _).
  apply get_bundle_data_Ok in Hget as [-> Hlook].
  pose proof (with_env_same_data time_time w) as Hs. rewrite Htime in Hs.
  rewrite Hsame, <- Hs. eauto.
Qed.

(** check_finished_bundles hands back None whenever it returns. *)
Lemma check_finished_bundles_None (w w' : Worker E) r :
  check_finished_bundles w = (w', Ok r) → r = None.
Proof.
  unfold check_finished_bundles. intros Hc.
  apply bind_Ok in Hc as (w1 & [res|] & _ & Hc).
  - apply bind_Ok in Hc as (w2 & [] & _ & Hc). by injection Hc as _ <-.
  - by injection Hc as _ <-.
Qed.

End Finalize_facts.

(** C6, refuted as stated: bundle "r" is finalized and the call completes,
    yet its scratch record is still in the registry. *)
Lemma finalize_bundle_record_not_deleted :
  (finalize_bundle (r_running, true, "/tmp/r") w_reap).2 = Ok tt ∧
  bundle_data (finalize_bundle (r_running, true, "/tmp/r") w_reap).1 !! "r" ≠ None.
Proof. split; [vm_compute; reflexivity | vm_compute; discriminate]. Qed.

Lemma finalize_bundle_registry_unchanged_witness :
  bundle_data (finalize_bundle (r_running, true, "/tmp/r") w_reap).1 = bundle_data w_reap ∧
  is_Some (bundle_data (finalize_bundle (r_running, true, "/tmp/r") w_reap).1 !! "r").
Proof.
  apply (finalize_bundle_registry_unchanged w_reap _ r_running true "/tmp/r").
  vm_compute. reflexivity.
Defined.

(* --------------------------------------------------------------------- *)
(* run_loop                                                               *)
(* --------------------------------------------------------------------- *)

(** C2, at the failing input: nothing is queued or staged and the backend
    reports bundle "r" finished. The pass reaps it (its row becomes READY
    and the backend is told to finalize it), and still the loop sleeps and
    the iteration counter stays at 0: check_finished_bundles returns None,
    so bool_done never counts as activity. *)
Theorem run_loop_reaping_is_not_activity :
  (loop_body 5 0 w_reap).2 = Ok 0 ∧
  sleeps (env (loop_body 5 0 w_reap).1) = [5] ∧
  finalized (env (loop_body 5 0 w_reap).1) = ["r"] ∧
  state <$> rows (model (loop_body 5 0 w_reap).1) = [READY].
Proof. vm_compute. repeat split; reflexivity. Qed.

(* --------------------------------------------------------------------- *)
(* check_killed_bundles                                                   *)
(* --------------------------------------------------------------------- *)

Section Kill_facts.
Context {E : Type} `{Backend E}.

Lemma kill_step (x : BundleAction) (w : Worker E) :
  (if decide (action x = KILL)
   then with_env (machine_kill_bundle (bundle_uuid x))
   else ret false) w
  = ({| env := (kill_answer x (env w)).1; model := model w;
        bundle_data := bundle_data w |}, Ok (kill_answer x (env w)).2).
Proof.
  unfold kill_answer, with_env, ret. destruct (decide (action x = KILL)).
  - by destruct (machine_kill_bundle (bundle_uuid x) (env w)).
  - by destruct w.
Qed.

Lemma kill_answer_true x (e : E) : (kill_answer x e).2 = true → action x = KILL.
Proof. unfold kill_answer. by destruct (decide (action x = KILL)). Qed.

Lemma consumed_requeued_perm (l : list BundleAction) (e : E) :
  l ≡ₚ consumed_of l e ++ requeued_of l e.
Proof.
  revert e. induction l as [|x l IH]; intros e; simpl; [done |].
  destruct (kill_answer x e).2; simpl.
  - by rewrite <- IH.
  - by rewrite <- Permutation_middle, <- IH.
Qed.

Lemma consumed_all_KILL (l : list BundleAction) (e : E) :
  Forall (λ x, action x = KILL) (consumed_of l e).
Proof.
  revert e. induction l as [|x l IH]; intros e; simpl; [constructor |].
  destruct (kill_answer x e).2 eqn:Hx; [| apply IH].
  constructor; [by eapply kill_answer_true | apply IH].
Qed.

Lemma with_actions_cons a l r :
  with_actions (a :: l) r = with_actions l (append_action a r).
Proof. reflexivity. Qed.

(** The loop, when every action the backend kills finds its record. *)
Lemma kill_loop_Ok (l keep : list BundleAction) (w : Worker E) :
  Forall (λ x, is_Some (bundle_data w !! bundle_uuid x)) (consumed_of l (env w)) →
  ∃ w', kill_loop l keep w = (w', Ok (keep ++ requeued_of l (env w))) ∧
        model w' = model w ∧
        env w' = env_after_kills l (env w) ∧
        ∀ u, bundle_data w' !! u
             = with_actions (actions_for u (consumed_of l (env w))) <$> bundle_data w !! u.
Proof.
  revert keep w. induction l as [|x l IH]; intros keep w Hrec; simpl in *.
  - exists w. rewrite app_nil_r. repeat split; try done.
    intros u. unfold actions_for; simpl. by destruct (bundle_data w !! u).
  - rewrite (bind_step _ _ _ _ _ (kill_step x w)).
    destruct (kill_answer x (env w)) as [e1 p] eqn:Hans; simpl in *.
    destruct p.
    + apply Forall_cons in Hrec as [[record Hlook] Hrec].
      unfold bind at 1. unfold bind at 1. unfold get_bundle_data; simpl.
      rewrite Hlook; simpl.
      set (w1 := {| env := e1; model := model w;
                    bundle_data := <[bundle_uuid x := append_action (action x) record]> (bundle_data w) |}).
      destruct (IH keep w1) as (w' & Hloop & Hm & He & Hd).
      { simpl. eapply Forall_impl; [exact Hrec |]. intros y Hy. simpl in Hy.
        destruct (decide (bundle_uuid x = bundle_uuid y)) as [Heq|Hne].
        - rewrite <- Heq, lookup_insert_eq. eauto.
        - by rewrite lookup_insert_ne. }
      exists w'. split; [exact Hloop |]. split; [exact Hm |]. split; [exact He |].
      intros u. rewrite Hd. simpl. unfold actions_for.
      destruct (decide (bundle_uuid x = u)) as [<-|Hne].
      * rewrite lookup_insert_eq, Hlook.
        rewrite filter_cons_True by done. reflexivity.
      * rewrite lookup_insert_ne by done.
        rewrite filter_cons_False by done. reflexivity.
    + unfold bind at 1. simpl.
      set (w1 := {| env := e1; model := model w; bundle_data := bundle_data w |}).
      destruct (IH (keep ++ [x]) w1 Hrec) as (w' & Hloop & Hm & He & Hd).
      exists w'. rewrite Hloop, <- app_assoc. done.
Qed.

(** The loop, when the backend kills a bundle this worker has no record
    of: the KeyError ends it, and the store is as the pop left it. *)
Lemma kill_loop_KeyError (pre post keep : list BundleAction) x (w : Worker E) :
  Forall (λ y, is_Some (bundle_data w !! bundle_uuid y)) (consumed_of pre (env w)) →
  (kill_answer x (env_after_kills pre (env w))).2 = true →
  bundle_data w !! bundle_uuid x = None →
  ∃ w', kill_loop (pre ++ x :: post) keep w = (w', Raise (KeyError (bundle_uuid x))) ∧
        model w' = model w.
Proof.
  revert keep w. induction pre as [|y pre IH]; intros keep w Hrec Hx Hnone; simpl in *.
  - rewrite (bind_step _ _ _ _ _ (kill_step x w)). rewrite Hx.
    unfold bind, get_bundle_data; simpl. rewrite Hnone. eauto.
  - rewrite (bind_step _ _ _ _ _ (kill_step y w)).
    destruct (kill_answer y (env w)) as [e1 p] eqn:Hans; simpl in *.
    destruct p.
    + apply Forall_cons in Hrec as [[record Hlook] Hrec].
      unfold bind at 1. unfold bind at 1. unfold get_bundle_data; simpl.
      rewrite Hlook; simpl.
      assert (Hne : bundle_uuid y ≠ bundle_uuid x) by congruence.
      set (w1 := {| env := e1; model := model w;
                    bundle_data := <[bundle_uuid y := append_action (action y) record]> (bundle_data w) |}).
      destruct (IH keep w1) as (w' & Hloop & Hm); simpl; try done.
      * eapply Forall_impl; [exact Hrec |]. intros z Hz. simpl in Hz.
        destruct (decide (bundle_uuid y = bundle_uuid z)) as [Heq|Hnz].
        -- rewrite <- Heq, lookup_insert_eq. eauto.
        -- by rewrite lookup_insert_ne.
      * by rewrite lookup_insert_ne.
      * eauto.
    + unfold bind at 1. simpl.
      set (w1 := {| env := e1; model := model w; bundle_data := bundle_data w |}).
      destruct (IH (keep ++ [y]) w1) as (w' & Hloop & Hm); simpl; try done.
      eauto.
Qed.

Lemma peer_turn_queue σ : queue (peer_turn σ) = queue σ.
Proof. unfold peer_turn. by destruct (peers σ). Qed.

Lemma peer_turn_calls σ : calls (peer_turn σ) = calls σ.
Proof. unfold peer_turn. by destruct (peers σ). Qed.

End Kill_facts.

Section Kill_claims.
Context {E : Type} `{Backend E}.

Lemma pop_step (w : Worker E) :
  with_model pop_bundle_actions w
  = ({| env := env w;
        model := {| rows := rows (peer_turn (model w)); queue := [];
                    peers := peers (peer_turn (model w));
                    calls := calls (model w) ++ [PopActions (queue (model w))] |};
        bundle_data := bundle_data w |}, Ok (queue (model w))).
Proof.
  unfold with_model, pop_bundle_actions.
  by rewrite peer_turn_queue, peer_turn_calls.
Qed.

(** check_killed_bundles when every bundle the backend kills in the call
    has a scratch record on this worker: the method returns and splits
    the popped actions in two. The consumed ones are the KILL actions for
    which Machine.kill answered true; each is appended to the actions of
    its bundle's scratch record. All the others are put back with one
    add_bundle_actions call (none is made when there is nothing to put
    back). Consumed and re-queued together are the popped actions, and
    the method returns whether the number of consumed actions is
    positive. *)
Theorem check_killed_bundles_partition (w : Worker E) :
  let popped := queue (model w) in
  let consumed := consumed_of popped (env w) in
  let requeued := requeued_of popped (env w) in
  Forall (λ x, is_Some (bundle_data w !! bundle_uuid x)) consumed →
  popped ≡ₚ consumed ++ requeued ∧
  (length consumed + length requeued = length popped)%nat ∧
  Forall (λ x, action x = KILL) consumed ∧
  ∃ w', check_killed_bundles w = (w', Ok (bool_decide (0 < length consumed)%nat)) ∧
        (∀ u, bundle_data w' !! u
              = with_actions (actions_for u consumed) <$> bundle_data w !! u) ∧
        queue (model w') = requeued ∧
        calls (model w') = calls (model w) ++ PopActions popped ::
                             (if decide (requeued = []) then [] else [AddActions requeued]).
Proof.
  intros popped consumed requeued Hrec.
  pose proof (consumed_requeued_perm popped (env w)) as Hperm.
  fold consumed requeued in Hperm.
  assert (Hlen : (length consumed + length requeued = length popped)%nat).
  { by rewrite (Permutation_length Hperm), length_app. }
  split; [exact Hperm |]. split; [exact Hlen |].
  split; [apply consumed_all_KILL |].
  unfold check_killed_bundles.
  rewrite (bind_step _ _ _ _ _ (pop_step w)).
  lazymatch goal with |- ∃ _, _ ?v = _ ∧ _ => set (w0 := v) end.
  destruct (kill_loop_Ok popped [] w0 Hrec) as (w1 & Hloop & Hm & _ & Hd).
  simpl in Hloop, Hd.
  rewrite (bind_step _ _ _ _ _ Hloop). cbv beta.
  change (queue (model w)) with popped.
  change (requeued_of popped (env w)) with requeued in Hloop |- *.
  change (consumed_of popped (env w)) with consumed in Hd |- *.
  assert (Hret : bool_decide (Z.of_nat (length popped) - Z.of_nat (length requeued) > 0)
                 = bool_decide (0 < length consumed)%nat).
  { apply bool_decide_ext. lia. }
  rewrite Hret. subst w0. simpl in Hm.
  change (queue (model w)) with popped in Hm.
  clearbody requeued consumed popped. clear Hloop Hret Hperm Hlen.
  destruct requeued as [|y requeued'].
  - rewrite bool_decide_false by (simpl; lia). unfold bind, ret; simpl.
    exists w1. split; [done |]. split; [exact Hd |].
    rewrite Hm. done.
  - rewrite bool_decide_true by (simpl; lia).
    unfold bind, with_model, add_bundle_actions, ret; simpl.
    eexists. split; [reflexivity |]. simpl.
    split; [exact Hd |].
    rewrite peer_turn_queue, peer_turn_calls, Hm. simpl.
    rewrite <- app_assoc. done.
Qed.

(** C10: when a popped KILL action names a bundle that has no scratch
    record on this worker and Machine.kill answers true for it, the method
    raises KeyError for that uuid (the actions before it having gone
    through). The queue stays as the pop left it, empty: no
    add_bundle_actions call is made, so neither that action nor any other
    popped one is put back. *)
Theorem check_killed_bundles_missing_record (w : Worker E) pre x post :
  queue (model w) = pre ++ x :: post →
  action x = KILL →
  Forall (λ y, is_Some (bundle_data w !! bundle_uuid y)) (consumed_of pre (env w)) →
  (machine_kill_bundle (bundle_uuid x) (env_after_kills pre (env w))).2 = true →
  bundle_data w !! bundle_uuid x = None →
  ∃ w', check_killed_bundles w = (w', Raise (KeyError (bundle_uuid x))) ∧
        queue (model w') = [] ∧
        calls (model w') = calls (model w) ++ [PopActions (pre ++ x :: post)].
Proof.
  intros Hq Hkill Hrec Htrue Hnone.
  unfold check_killed_bundles.
  rewrite (bind_step _ _ _ _ _ (pop_step w)). rewrite Hq.
  lazymatch goal with |- ∃ _, _ ?v = _ ∧ _ => set (w0 := v) end.
  destruct (kill_loop_KeyError pre post [] x w0) as (w' & Hloop & Hm); try done.
  { simpl. unfold kill_answer. by rewrite decide_True. }
  exists w'. unfold bind at 1. rewrite Hloop. split; [done |].
  by rewrite Hm.
Qed.

End Kill_claims.

(** C8, at the failing input: KILL actions for "r", "p" and "q" are
    queued; the backend kills "r", which has a scratch record on this
    worker, and "p", which has none. The method pops the three actions,
    consumes the one for "r" (it is appended to the record's actions) and
    raises KeyError on the one for "p": nothing is put back, so of three
    popped actions one is consumed and none is re-queued, and no result
    is returned. *)
Theorem check_killed_bundles_loses_popped_actions :
  let w := w_kill [kill_r; kill_p; kill_q] in
  let result := check_killed_bundles w in
  queue (model w) = [kill_r; kill_p; kill_q] ∧
  consumed_of (queue (model w)) (env w) = [kill_r; kill_p] ∧
  requeued_of (queue (model w)) (env w) = [kill_q] ∧
  bundle_data w !! "p" = None ∧
  result.2 = Raise (KeyError "p") ∧
  calls (model result.1) = [PopActions [kill_r; kill_p; kill_q]] ∧
  queue (model result.1) = [] ∧
  actions <$> bundle_data result.1 !! "r" = Some [KILL] ∧
  bundle_data result.1 !! "p" = None ∧
  bundle_data result.1 !! "q" = None.
Proof. intros w result. repeat split; vm_compute; reflexivity. Qed.

Lemma check_killed_bundles_partition_witness :
  ∃ w', check_killed_bundles (w_kill [kill_r; kill_q; kill_r])
        = (w', Ok true) ∧
        actions <$> bundle_data w' !! "r" = Some [KILL; KILL] ∧
        queue (model w') = [kill_q].
Proof.
  destruct (check_killed_bundles_partition (w_kill [kill_r; kill_q; kill_r]))
    as (_ & _ & _ & w' & Hrun & Hdata & Hq & _).
  { vm_compute. repeat constructor; eauto. }
  exists w'. split; [exact Hrun |]. split; [| exact Hq].
  rewrite Hdata. vm_compute. reflexivity.
Defined.

Lemma check_killed_bundles_missing_record_witness :
  ∃ w', check_killed_bundles (w_kill [kill_r; kill_p; kill_q])
        = (w', Raise (KeyError "p")) ∧
        queue (model w') = [] ∧
        calls (model w') = [PopActions [kill_r; kill_p; kill_q]].
Proof.
  apply (check_killed_bundles_missing_record
           (w_kill [kill_r; kill_p; kill_q]) [kill_r] kill_p [kill_q]).
  - reflexivity.
  - reflexivity.
  - vm_compute. repeat constructor; eauto.
  - vm_compute. reflexivity.
  - vm_compute. reflexivity.
Defined.

(* --------------------------------------------------------------------- *)
(* Store requests                                                         *)
(* --------------------------------------------------------------------- *)

Lemma apply_update_uuid u b : uuid (apply_update u b) = uuid b.
Proof. reflexivity. Qed.

Lemma elem_of_update_rows sel f t r' :
  r' ∈ update_rows sel f t ↔ ∃ r, r ∈ t ∧ r' = if sel (uuid r) : bool then f r else r.
Proof.
  unfold update_rows. rewrite list_elem_of_fmap.
  split; intros (r & H1 & H2); exists r; done.
Qed.

Lemma update_rows_uuid sel f t :
  (∀ r, uuid (f r) = uuid r) → uuid <$> update_rows sel f t = uuid <$> t.
Proof.
  intros Hf. unfold update_rows. rewrite <- list_fmap_compose.
  apply list_fmap_ext. intros i r _. simpl. destruct (sel (uuid r)); [apply Hf | done].
Qed.

Lemma remove_dups_const {A} `{EqDecision A} (x : A) (l : list A) :
  Forall (λ y, y = x) l → l ≠ [] → remove_dups l = [x].
Proof.
  induction l as [|y l IH]; [done |]. intros Hall _.
  apply Forall_cons in Hall as [-> Hall]. simpl.
  destruct (decide_rel elem_of x l) as [Hin|Hnin].
  - apply IH; [exact Hall |]. intros ->. by apply not_elem_of_nil in Hin.
  - destruct l as [|z l]; [done |].
    apply Forall_cons in Hall as [-> _]. exfalso. apply Hnin. left.
Qed.

Lemma remove_dups_singleton_inv {A} `{EqDecision A} (l : list A) x :
  remove_dups l = [x] → Forall (λ y, y = x) l.
Proof.
  intros Hd. apply Forall_forall. intros y Hy.
  apply elem_of_remove_dups in Hy. rewrite Hd in Hy.
  by apply list_elem_of_singleton in Hy.
Qed.

Section Store_facts.
Context {E : Type} `{Backend E}.

Lemma with_env_run {A} (f : E → E * A) (w : Worker E) :
  with_env f w = ({| env := (f (env w)).1; model := model w;
                     bundle_data := bundle_data w |}, Ok (f (env w)).2).
Proof. unfold with_env. by destruct (f (env w)). Qed.

Lemma with_model_run {A} (f : Store → Store * A) (w : Worker E) :
  with_model f w = ({| env := env w; model := (f (model w)).1;
                       bundle_data := bundle_data w |}, Ok (f (model w)).2).
Proof. unfold with_model. by destruct (f (model w)). Qed.

(** update_bundle_states on a non-empty list: either the bundles are not
    all in one state and it raises before asking the store anything, or
    it asks for one batch update conditional on that state. *)
Lemma update_bundle_states_run (w : Worker E) first rest new_state :
  let bundles := first :: rest in
  if bool_decide (Forall (λ b, state b = state first) bundles)
  then update_bundle_states bundles new_state w
       = with_model (batch_update_bundles bundles (state_update new_state) (state first)) w
  else update_bundle_states bundles new_state w
       = (w, Raise (PreconditionViolation "Got multiple states")).
Proof.
  intros bundles. unfold update_bundle_states, bundles.
  case_bool_decide as Hall.
  - rewrite (remove_dups_const (state first) (state <$> first :: rest)).
    + simpl. reflexivity.
    + apply Forall_fmap. exact Hall.
    + done.
  - rewrite bool_decide_false; [reflexivity |].
    intros Hlen. apply Hall.
    destruct (remove_dups (state <$> first :: rest)) as [|s [|? ?]] eqn:Hd; try done.
    apply remove_dups_singleton_inv in Hd.
    assert (Hs : state first = s).
    { apply Forall_fmap in Hd. apply Forall_cons in Hd as [Hs _]. exact Hs. }
    apply Forall_fmap in Hd. rewrite Hs. exact Hd.
Qed.

Lemma update_bundle_states_single (w : Worker E) b new_state :
  update_bundle_states [b] new_state w
  = with_model (batch_update_bundles [b] (state_update new_state) (state b)) w.
Proof.
  pose proof (update_bundle_states_run w b [] new_state) as Hrun. simpl in Hrun.
  rewrite bool_decide_true in Hrun by (by repeat constructor). exact Hrun.
Qed.

Lemma try_upload_run b pd t (w : Worker E) :
  ∃ w' outcome, try_upload b pd t w = (w', Ok outcome) ∧
    model w' = model w ∧ bundle_data w' = bundle_data w.
Proof.
  unfold try_upload. rewrite (bind_step _ _ _ _ _ (with_env_run _ w)).
  destruct (install_dependencies b pd t (env w)).2 as [[]|m].
  - rewrite with_env_run. eauto.
  - unfold ret. eauto.
Qed.

(** finalize_bundle with a scratch record in place: it returns, and what
    it asks of the store is one unconditional update_bundle. *)
Lemma finalize_bundle_run (w : Worker E) bundle success temp_dir record :
  bundle_data w !! uuid bundle = Some record →
  ∃ w' outcome,
    finalize_bundle (bundle, success, temp_dir) w = (w', Ok tt) ∧
    model w' = (update_bundle bundle
                  (finalize_update bundle success record (time_time (env w)).2 outcome)
                  (model w)).1 ∧
    bundle_data w' = bundle_data w.
Proof.
  intros Hrec. unfold finalize_bundle.
  rewrite (bind_step _ _ _ _ _ (with_env_run _ w)).
  unfold bind at 1. unfold get_bundle_data at 1. simpl. rewrite Hrec.
  match goal with |- context [try_upload ?b ?pd ?t] =>
    lazymatch goal with |- ∃ _ _, _ ?v = _ ∧ _ =>
      destruct (try_upload_run b pd t v) as (w2 & outcome & Hup & Hm & Hd)
    end
  end.
  rewrite (bind_step _ _ _ _ _ Hup).
  rewrite (bind_step _ _ _ _ _ (with_model_run _ w2)).
  simpl in Hm, Hd.
  destruct (is_RunBundle (kind bundle)); rewrite with_env_run;
    eexists _, outcome; simpl; rewrite Hm, Hd;
    (split; [by lazymatch goal with |- (_, Ok ?u) = _ => destruct u end | done]).
Qed.

(** The call log after update_created_bundles' loop over bundles_to_fail:
    one unconditional update_bundle per bundle. *)
Lemma fail_loop_run (l : list (Bundle * string)) (w : Worker E) :
  ∃ w', fail_loop l w = (w', Ok tt) ∧
    env w' = env w ∧ bundle_data w' = bundle_data w ∧
    calls (model w') = calls (model w)
      ++ ((λ bm, UpdateBundle (uuid bm.1) (fail_update bm.2)) <$> l).
Proof.
  revert w. induction l as [|[b m] l IH]; intros w; simpl.
  - exists w. by rewrite app_nil_r.
  - rewrite (bind_step _ _ _ _ _ (with_model_run _ w)).
    match goal with |- ∃ _, _ ?v = _ ∧ _ => destruct (IH v) as (w' & Hrun & He & Hd & Hc) end.
    exists w'. simpl in *. rewrite Hrun, He, Hd, Hc, peer_turn_calls, <- app_assoc. done.
Qed.

End Store_facts.

(* --------------------------------------------------------------------- *)
(* start_bundle                                                           *)
(* --------------------------------------------------------------------- *)

Section Start_facts.
Context {E : Type} `{Backend E}.

Lemma bind_ret_l {A B} (a : A) (k : A → M E B) w : bind (ret a) k w = k a w.
Proof. reflexivity. Qed.

Lemma bind_with_env {A B} (f : E → E * A) (k : A → M E B) (w : Worker E) :
  bind (with_env f) k w
  = k (f (env w)).2 {| env := (f (env w)).1; model := model w; bundle_data := bundle_data w |}.
Proof. apply bind_step, with_env_run. Qed.

Lemma bind_with_model {A B} (f : Store → Store * A) (k : A → M E B) (w : Worker E) :
  bind (with_model f) k w
  = k (f (model w)).2 {| env := env w; model := (f (model w)).1; bundle_data := bundle_data w |}.
Proof. apply bind_step, with_model_run. Qed.

Lemma finalize_inline_run (w : Worker E) bundle success record :
  bundle_data w !! uuid bundle = Some record →
  ∃ w' end_time outcome,
    finalize_inline bundle success w = (w', Ok tt) ∧
    model w' = (update_bundle bundle
                  (finalize_update bundle success record end_time outcome) (model w)).1 ∧
    bundle_data w' = bundle_data w.
Proof.
  intros Hrec. unfold finalize_inline.
  unfold bind at 1. rewrite bind_with_env.
  match goal with |- ∃ _ _ _, finalize_bundle (_, _, ?t) ?v = _ ∧ _ =>
    destruct (finalize_bundle_run v bundle success t record Hrec)
      as (w' & outcome & Hrun & Hm & Hd)
  end.
  eexists w', _, outcome. split; [exact Hrun |]. split; [exact Hm | exact Hd].
Qed.

(** start_bundle on a bundle that meets its preconditions: it returns
    [moved], leaves a scratch record behind, and writes to the store only
    on the two inline finalisations. *)
Lemma start_bundle_run (w : Worker E) bundle :
  state bundle = RUNNING → data_hash bundle = None →
  ∃ w', start_bundle bundle w = (w', Ok (moved bundle w)) ∧
    bundle_data w' = <[uuid bundle := scratch_at bundle w]> (bundle_data w) ∧
    match kind bundle, start_answer bundle w with
    | RunBundle, Returns _ => model w' = peer_turn (model w)
    | RunBundle, Raises _ =>
        ∃ end_time outcome,
          model w' = (update_bundle bundle
                        (finalize_update bundle false (scratch_at bundle w) end_time outcome)
                        (peer_turn (model w))).1
    | MakeBundle, _ =>
        ∃ end_time outcome,
          model w' = (update_bundle bundle
                        (finalize_update bundle true (scratch_at bundle w) end_time outcome)
                        (peer_turn (model w))).1
    end.
Proof.
  intros Hstate Hhash. unfold start_bundle.
  rewrite !bool_decide_true by done. unfold precondition.
  rewrite !bind_ret_l, bind_with_model, bind_with_env.
  unfold bind at 1. unfold set_bundle_data at 1. cbv beta iota.
  cbn [env model bundle_data].
  change (dict_by_uuid id (batch_get_bundles_uuid (dep_uuids bundle) (model w)).2)
    with (parents_at bundle (model w)).
  change {| parent_dict := parents_at bundle (model w);
            start_time := (time_time (env w)).2; actions := [] |}
    with (scratch_at bundle w).
  unfold moved, start_answer.
  destruct (kind bundle); simpl is_RunBundle; cbv iota.
  - unfold bind at 1. rewrite bind_with_env. cbn [env model bundle_data].
    destruct (machine_start_bundle bundle (parents_at bundle (model w)) (time_time (env w)).1)
      as [e2 [started|message]]; simpl.
    + eexists. split; [reflexivity |]. done.
    + unfold ret at 1. cbv beta iota.
      match goal with |- ∃ _, bind (finalize_inline _ _) _ ?v = _ ∧ _ =>
        destruct (finalize_inline_run v bundle false (scratch_at bundle w))
          as (w' & end_time & outcome & Hrun & Hm & Hd);
          [simpl; apply lookup_insert_eq |]
      end.
      rewrite (bind_step _ _ _ _ _ Hrun).
      exists w'. split; [reflexivity |]. split; [exact Hd |].
      exists end_time, outcome. exact Hm.
  - rewrite !bind_ret_l. cbn [negb].
    change (batch_get_bundles_uuid (dep_uuids bundle) (model w)).1 with (peer_turn (model w)).
    match goal with |- ∃ _, bind (finalize_inline _ _) _ ?v = _ ∧ _ =>
      destruct (finalize_inline_run v bundle true (scratch_at bundle w))
        as (w' & end_time & outcome & Hrun & Hm & Hd);
        [simpl; apply lookup_insert_eq |]
    end.
    rewrite (bind_step _ _ _ _ _ Hrun).
    exists w'. split; [reflexivity |]. split; [exact Hd |].
    exists end_time, outcome; exact Hm.
Qed.

(** When start_bundle returns, its preconditions held. *)
Lemma start_bundle_Ok (w w' : Worker E) bundle started :
  start_bundle bundle w = (w', Ok started) →
  state bundle = RUNNING ∧ data_hash bundle = None.
Proof.
  unfold start_bundle, precondition. intros Hrun.
  case_bool_decide as Hs; [| discriminate].
  case_bool_decide as Hh; [| discriminate]. done.
Qed.

Lemma start_bundle_Ok_moved (w w' : Worker E) bundle started :
  start_bundle bundle w = (w', Ok started) → started = moved bundle w.
Proof.
  intros Hrun. destruct (start_bundle_Ok _ _ _ _ Hrun) as [Hs Hh].
  destruct (start_bundle_run w bundle Hs Hh) as (w2 & Hrun2 & _). congruence.
Qed.

Lemma written_failure_message_finalize bundle success record end_time outcome :
  written_failure_message (finalize_update bundle success record end_time outcome)
  = match outcome with
    | Returns (_, uploaded) => uploaded !! "failure_message"
    | Raises message => Some (MString message)
    end.
Proof.
  unfold written_failure_message, finalize_update.
  set (base := match outcome with
               | Returns (h, m) => (Some h, m, success)
               | Raises message => (None, <["failure_message" := MString message]> ∅, false)
               end).
  assert (Hbase : base.1.2 !! "failure_message"
                  = match outcome with
                    | Returns (_, uploaded) => uploaded !! "failure_message"
                    | Raises message => Some (MString message)
                    end).
  { unfold base. destruct outcome as [[h m]|message]; simpl; [done |].
    by rewrite lookup_insert_eq. }
  rewrite <- Hbase. destruct base as [[dh md] sc]. simpl.
  set (final := if is_RunBundle (kind bundle) then _ else _).
  assert (Hfinal : final !! "failure_message" = md !! "failure_message").
  { unfold final. destruct (is_RunBundle (kind bundle)); [| done].
    case_bool_decide; rewrite ?lookup_insert_ne by done; done. }
  destruct (decide (final = ∅)) as [Hempty|]; simpl; [| exact Hfinal].
  by rewrite <- Hfinal, Hempty, lookup_empty.
Qed.

End Start_facts.

Section Start_claims.
Context {E : Type} `{Backend E}.

Lemma finalize_update_failed bundle record end_time outcome :
  upd_state (finalize_update bundle false record end_time outcome) = Some FAILED.
Proof. unfold finalize_update. by destruct outcome as [[h m]|message]. Qed.

Lemma update_bundle_rows_state bundle update σ s r :
  upd_state update = Some s →
  r ∈ rows (update_bundle bundle update σ).1 → uuid r = uuid bundle → state r = s.
Proof.
  intros Hs Hr Hu. simpl in Hr.
  apply elem_of_update_rows in Hr as (r0 & _ & ->).
  case_bool_decide as Hsel.
  - simpl. by rewrite Hs.
  - done.
Qed.

Lemma try_upload_exact bundle pd temp_dir (w : Worker E) :
  ∃ w', try_upload bundle pd temp_dir w = (w', Ok (try_outcome bundle pd temp_dir (env w))) ∧
        model w' = model w ∧ bundle_data w' = bundle_data w.
Proof.
  unfold try_upload, try_outcome. rewrite (bind_step _ _ _ _ _ (with_env_run _ w)).
  destruct (install_dependencies bundle pd temp_dir (env w)).2 as [[]|m].
  - rewrite with_env_run. eauto.
  - unfold ret. eauto.
Qed.

(** finalize_bundle with a scratch record in place, with the update it
    writes spelled out. *)
Lemma finalize_bundle_exact (w : Worker E) bundle success temp_dir record :
  bundle_data w !! uuid bundle = Some record →
  ∃ w', finalize_bundle (bundle, success, temp_dir) w = (w', Ok tt) ∧
        model w' = (update_bundle bundle
                      (finalize_update bundle success record (time_time (env w)).2
                         (try_outcome bundle (parent_dict record) temp_dir
                            (time_time (env w)).1))
                      (model w)).1 ∧
        bundle_data w' = bundle_data w.
Proof.
  intros Hrec. unfold finalize_bundle.
  rewrite (bind_step _ _ _ _ _ (with_env_run _ w)).
  unfold bind at 1. unfold get_bundle_data at 1. cbn [bundle_data]. rewrite Hrec.
  lazymatch goal with |- ∃ _, bind (try_upload ?b ?pd ?t) _ ?v = _ ∧ _ =>
    destruct (try_upload_exact b pd t v) as (w2 & Hup & Hm & Hd)
  end.
  cbn [env model bundle_data] in Hup, Hm, Hd.
  rewrite (bind_step _ _ _ _ _ Hup).
  rewrite (bind_step _ _ _ _ _ (with_model_run _ w2)).
  destruct (is_RunBundle (kind bundle)); rewrite with_env_run;
    eexists; cbn [model bundle_data]; rewrite Hm, Hd;
    (split; [by lazymatch goal with |- (_, Ok ?u) = _ => destruct u end | done]).
Qed.

Lemma finalize_inline_exact (w : Worker E) bundle success record :
  bundle_data w !! uuid bundle = Some record →
  let temp_dir := get_current_location (uuid bundle) (env w) in
  let clock := time_time (make_directory temp_dir (env w)).1 in
  ∃ w', finalize_inline bundle success w = (w', Ok tt) ∧
        model w' = (update_bundle bundle
                      (finalize_update bundle success record clock.2
                         (try_outcome bundle (parent_dict record) temp_dir clock.1))
                      (model w)).1 ∧
        bundle_data w' = bundle_data w.
Proof.
  intros Hrec temp_dir clock. unfold finalize_inline.
  unfold bind at 1. rewrite bind_with_env.
  lazymatch goal with |- ∃ _, finalize_bundle (_, _, ?t) ?v = _ ∧ _ =>
    destruct (finalize_bundle_exact v bundle success t record Hrec) as (w' & Hrun & Hm & Hd)
  end.
  exists w'. split; [exact Hrun |]. split; [exact Hm | exact Hd].
Qed.

(** start_bundle when Machine.start raises, with the one update it
    writes spelled out; the raised message is nowhere in it. *)
Lemma start_bundle_raise_exact (w : Worker E) bundle message :
  kind bundle = RunBundle → state bundle = RUNNING → data_hash bundle = None →
  start_answer bundle w = Raises message →
  ∃ w', start_bundle bundle w = (w', Ok true) ∧
        model w' = (update_bundle bundle (inline_update_on_raise bundle w)
                      (peer_turn (model w))).1.
Proof.
  intros Hkind Hstate Hhash Hans. unfold start_bundle.
  rewrite !bool_decide_true by done. unfold precondition.
  rewrite !bind_ret_l, bind_with_model, bind_with_env.
  unfold bind at 1. unfold set_bundle_data at 1. cbv beta iota.
  cbn [env model bundle_data].
  change (dict_by_uuid id (batch_get_bundles_uuid (dep_uuids bundle) (model w)).2)
    with (parents_at bundle (model w)).
  change {| parent_dict := parents_at bundle (model w);
            start_time := (time_time (env w)).2; actions := [] |}
    with (scratch_at bundle w).
  change (batch_get_bundles_uuid (dep_uuids bundle) (model w)).1 with (peer_turn (model w)).
  rewrite Hkind. cbn [is_RunBundle negb].
  unfold bind at 1. rewrite bind_with_env. cbn [env model bundle_data].
  unfold inline_update_on_raise, inline_outcome, inline_clock, inline_temp_dir, env_after_start.
  unfold start_answer in Hans.
  destruct (machine_start_bundle bundle (parents_at bundle (model w)) (time_time (env w)).1)
    as [e2 answer]. cbn [fst snd] in Hans |- *. subst answer.
  unfold ret at 1. cbv beta iota.
  lazymatch goal with |- ∃ _, bind (finalize_inline _ _) _ ?v = _ ∧ _ =>
    destruct (finalize_inline_exact v bundle false (scratch_at bundle w))
      as (w' & Hrun & Hm & _); [cbn [bundle_data]; apply lookup_insert_eq |]
  end.
  cbn [env model bundle_data] in Hrun, Hm.
  rewrite (bind_step _ _ _ _ _ Hrun).
  exists w'. split; [reflexivity |]. exact Hm.
Qed.

(** C3 (as the code has it): when Machine.start raises for a RunBundle
    that start_bundle was entitled to start, start_bundle returns true
    after finalizing the bundle inline with success = False. It sends the
    store one update_bundle, built from the scratch record, the clock and
    the outcome of install_dependencies and upload in the fresh temp
    directory, and from nothing else: the raised message is not in it.
    Every row of the bundle is FAILED afterwards, not RUNNING. Its
    metadata.failure_message is the message of the install_dependencies
    or upload error if one of them raised; otherwise it is what upload's
    own metadata says under that key, or what the row held before. *)
Theorem start_bundle_backend_raises (w : Worker E) bundle message :
  kind bundle = RunBundle → state bundle = RUNNING → data_hash bundle = None →
  start_answer bundle w = Raises message →
  let update := inline_update_on_raise bundle w in
  let before := rows (peer_turn (peer_turn (model w))) in
  ∃ w',
    start_bundle bundle w = (w', Ok true) ∧
    calls (model w') = calls (model w) ++ [UpdateBundle (uuid bundle) update] ∧
    upd_state update = Some FAILED ∧
    written_failure_message update
    = match inline_outcome bundle w with
      | Returns (_, uploaded) => uploaded !! "failure_message"
      | Raises error => Some (MString error)
      end ∧
    ∀ r, r ∈ rows (model w') → uuid r = uuid bundle →
      state r = FAILED ∧
      ∃ r0, r0 ∈ before ∧ uuid r0 = uuid bundle ∧
        metadata r !! "failure_message"
        = match inline_outcome bundle w with
          | Returns (_, uploaded) =>
              match uploaded !! "failure_message" with
              | Some v => Some v
              | None => metadata r0 !! "failure_message"
              end
          | Raises error => Some (MString error)
          end.
Proof.
  intros Hkind Hstate Hhash Hans update before.
  destruct (start_bundle_raise_exact w bundle message Hkind Hstate Hhash Hans)
    as (w' & Hrun & Hm).
  fold update in Hm. exists w'. split; [exact Hrun |].
  assert (Hfailed : upd_state update = Some FAILED) by apply finalize_update_failed.
  assert (Hwritten : written_failure_message update
                     = match inline_outcome bundle w with
                       | Returns (_, uploaded) => uploaded !! "failure_message"
                       | Raises error => Some (MString error)
                       end) by apply written_failure_message_finalize.
  split; [rewrite Hm; cbn [update_bundle fst calls]; by rewrite !peer_turn_calls |].
  split; [exact Hfailed |]. split; [exact Hwritten |].
  intros r Hr Hu. rewrite Hm in Hr. cbn [update_bundle fst rows] in Hr.
  apply elem_of_update_rows in Hr as (r0 & Hr0 & ->).
  case_bool_decide as Hsel; [| done].
  split; [unfold apply_update; cbn [state]; by rewrite Hfailed |].
  exists r0. split; [exact Hr0 |]. split; [exact Hsel |].
  unfold written_failure_message in Hwritten. unfold apply_update. cbn [metadata].
  destruct (upd_metadata update) as [m|]; cbn [mbind option_bind] in Hwritten.
  - destruct (inline_outcome bundle w) as [[h uploaded]|error].
    + rewrite <- Hwritten. destruct (m !! "failure_message") as [v|] eqn:Hmv.
      * by apply lookup_union_Some_l.
      * by apply lookup_union_r.
    + by apply lookup_union_Some_l.
  - destruct (inline_outcome bundle w) as [[h uploaded]|error]; [| discriminate].
    by rewrite <- Hwritten.
Qed.

End Start_claims.

(** C3, refuted as stated: Machine.start raises "boom" for RunBundle "r";
    the bundle ends FAILED, but no failure_message is stored at all. *)
Lemma start_bundle_raise_message_not_stored :
  start_answer r_running w_boom = Raises "boom" ∧
  (start_bundle r_running w_boom).2 = Ok true ∧
  state <$> rows (model (start_bundle r_running w_boom).1) = [FAILED] ∧
  (λ r, metadata r !! "failure_message") <$> rows (model (start_bundle r_running w_boom).1)
  = [None].
Proof. vm_compute. repeat split; reflexivity. Qed.

Lemma start_bundle_backend_raises_witness :
  ∃ w',
    start_bundle r_running w_boom = (w', Ok true) ∧
    calls (model w') = [UpdateBundle "r" (inline_update_on_raise r_running w_boom)] ∧
    upd_state (inline_update_on_raise r_running w_boom) = Some FAILED ∧
    written_failure_message (inline_update_on_raise r_running w_boom) = None ∧
    state <$> rows (model w') = [FAILED].
Proof.
  destruct (start_bundle_backend_raises w_boom r_running "boom")
    as (w' & Hrun & Hcalls & Hstate & Hwritten & _); try reflexivity.
  exists w'. split; [exact Hrun |]. split; [exact Hcalls |]. split; [exact Hstate |].
  split; [rewrite Hwritten; reflexivity |].
  assert (Hw : w' = (start_bundle r_running w_boom).1) by (by rewrite Hrun).
  rewrite Hw. vm_compute. reflexivity.
Defined.

(* --------------------------------------------------------------------- *)
(* update_staged_bundles                                                  *)
(* --------------------------------------------------------------------- *)

Section Staged_facts.
Context {E : Type} `{Backend E}.

Lemma lock_step (w : Worker E) bundle :
  update_bundle_states [bundle] RUNNING w
  = (after_lock bundle w,
     Ok (lock_won bundle w, if lock_won bundle w then [running bundle] else [bundle])).
Proof.
  rewrite update_bundle_states_single, with_model_run.
  unfold after_lock, lock_won, batch_update_bundles. simpl.
  by destruct (forallb _ _).
Qed.

(** The loop body when the lock is lost: nothing but the failed attempt. *)
Lemma staged_body_lost (w : Worker E) n bundle :
  lock_won bundle w = false → staged_body n bundle w = (after_lock bundle w, Ok n).
Proof.
  intros Hlost. unfold staged_body.
  rewrite (bind_step _ _ _ _ _ (lock_step w bundle)). simpl. by rewrite Hlost.
Qed.

(** The loop body when the lock is won: start_bundle on the bundle object
    the store set to RUNNING, then the roll-back if it returns false. *)
Lemma staged_body_won (w : Worker E) n bundle :
  lock_won bundle w = true →
  staged_body n bundle w
  = bind (start_bundle (running bundle))
      (λ started, if started : bool then ret (n + 1)
                  else bind (update_bundle_states [running bundle] STAGED) (λ _, ret n))
      (after_lock bundle w).
Proof.
  intros Hwon. unfold staged_body.
  rewrite (bind_step _ _ _ _ _ (lock_step w bundle)). simpl. by rewrite Hwon.
Qed.

Lemma rollback_step (w : Worker E) bundle :
  update_bundle_states [running bundle] STAGED w
  = with_model (batch_update_bundles [running bundle] (state_update STAGED) RUNNING) w.
Proof. by rewrite update_bundle_states_single. Qed.

(** The counter after one round of the loop. *)
Lemma staged_body_count (w w' : Worker E) n n' bundle :
  staged_body n bundle w = (w', Ok n') →
  n' = n + (if launched_at bundle w then 1 else 0).
Proof.
  unfold launched_at. destruct (lock_won bundle w) eqn:Hlock; simpl.
  - rewrite staged_body_won by done. intros Hrun.
    apply bind_Ok in Hrun as (w2 & started & Hstart & Hrest).
    rewrite <- (start_bundle_Ok_moved _ _ _ _ Hstart).
    destruct started.
    + by injection Hrest as _ <-.
    + apply bind_Ok in Hrest as (w3 & ? & _ & Hret). injection Hret as _ <-. lia.
  - rewrite staged_body_lost by done. intros [= _ <-]. lia.
Qed.

(** The counter after the loop: it grows exactly when some bundle of the
    list is launched in the world the loop has reached by then. *)
Lemma staged_loop_count (l : list Bundle) (w w' : Worker E) n n' :
  staged_loop l n w = (w', Ok n') →
  n ≤ n' ∧
  (n < n' ↔ ∃ pre bundle post wb nb,
              l = pre ++ bundle :: post ∧
              staged_loop pre n w = (wb, Ok nb) ∧
              launched_at bundle wb = true).
Proof.
  revert w n. induction l as [|b l IH]; intros w n Hloop; simpl in Hloop.
  - injection Hloop as <- <-. split; [lia |]. split; [lia |].
    intros (pre & bundle & post & ? & ? & Hl & _). by destruct pre.
  - apply bind_Ok in Hloop as (w1 & n1 & Hbody & Hloop).
    pose proof (staged_body_count _ _ _ _ _ Hbody) as Hn1.
    destruct (IH _ _ Hloop) as [Hle Hiff].
    split; [destruct (launched_at b w); lia |]. split.
    + intros Hlt. destruct (launched_at b w) eqn:Hb.
      * exists [], b, l, w, n. done.
      * assert (Hlt1 : n1 < n') by lia.
        apply Hiff in Hlt1 as (pre & bundle & post & wb & nb & -> & Hpre & Hlaunch).
        exists (b :: pre), bundle, post, wb, nb. split; [done |]. split; [| done].
        simpl. by rewrite (bind_step _ _ _ _ _ Hbody).
    + intros (pre & bundle & post & wb & nb & Hl & Hpre & Hlaunch).
      destruct pre as [|b' pre]; simpl in Hl.
      * injection Hl as -> ->.
        simpl in Hpre. injection Hpre as <- <-. rewrite Hlaunch in Hn1. lia.
      * injection Hl as <- ->.
        simpl in Hpre. rewrite (bind_step _ _ _ _ _ Hbody) in Hpre.
        assert (n1 < n'); [| destruct (launched_at b w); lia].
        apply Hiff. by exists pre, bundle, post, wb, nb.
Qed.

(** The loop goes through when the bundles carry no data_hash, which is
    start_bundle's one precondition the lock does not establish. *)
Lemma staged_loop_returns (l : list Bundle) (w : Worker E) n :
  Forall (λ b, data_hash b = None) l →
  ∃ w' n', staged_loop l n w = (w', Ok n').
Proof.
  revert w n. induction l as [|b l IH]; intros w n Hall; simpl; [by eexists _, _ |].
  apply Forall_cons in Hall as [Hb Hall].
  assert (Hbody : ∃ w1 n1, staged_body n b w = (w1, Ok n1)).
  { destruct (lock_won b w) eqn:Hlock.
    - rewrite staged_body_won by done.
      destruct (start_bundle_run (after_lock b w) (running b)) as (w2 & Hstart & _);
        [done | done |].
      rewrite (bind_step _ _ _ _ _ Hstart).
      destruct (moved (running b) (after_lock b w)); [by eexists _, _ |].
      rewrite (bind_step _ _ _ _ _ (eq_trans (rollback_step w2 b) (with_model_run _ w2))).
      by eexists _, _.
    - rewrite staged_body_lost by done. by eexists _, _. }
  destruct Hbody as (w1 & n1 & Hbody). rewrite (bind_step _ _ _ _ _ Hbody).
  by apply IH.
Qed.

(** The loop over a list in two parts. *)
Lemma staged_loop_app (pre l : list Bundle) n (w : Worker E) :
  staged_loop (pre ++ l) n w = bind (staged_loop pre n) (staged_loop l) w.
Proof.
  revert n w. induction pre as [|b pre IH]; intros n w; [reflexivity |].
  simpl. unfold bind at 1 2 3. destruct (staged_body n b w) as [w1 [n1|e]]; [| reflexivity].
  apply IH.
Qed.

(** update_staged_bundles, seen from one round of its loop: what is left
    of the method once the round on [bundle] has returned. *)
Lemma update_staged_bundles_round (w : Worker E) pre bundle post wb nb w' n' :
  (batch_get_bundles_state STAGED (model w)).2 = pre ++ bundle :: post →
  staged_loop pre 0 {| env := env w; model := peer_turn (model w);
                       bundle_data := bundle_data w |} = (wb, Ok nb) →
  staged_body nb bundle wb = (w', Ok n') →
  update_staged_bundles w
  = bind (staged_loop post n') (λ m, ret (bool_decide (m > 0))) w'.
Proof.
  intros Hl Hpre Hbody. unfold update_staged_bundles. rewrite bind_with_model, Hl.
  change (batch_get_bundles_state STAGED (model w)).1 with (peer_turn (model w)).
  unfold bind at 1. rewrite staged_loop_app, (bind_step _ _ _ _ _ Hpre).
  simpl staged_loop. rewrite (bind_step _ _ _ _ _ Hbody). reflexivity.
Qed.

End Staged_facts.

Section Staged_claims.
Context {E : Type} `{Backend E}.

(** C7: update_staged_bundles, at any bundle of the list it fetched, in
    the world its loop has reached by then. The bundle is STAGED when
    fetched. The worker first calls update_bundle_states on it, which
    sends the store one batch update to RUNNING conditional on state
    STAGED, and touches neither backend nor registry. If that update
    fails, no row is changed and the method goes straight on to the
    bundles after this one, the counter as it was: the bundle is not
    started. If it succeeds, the bundle's rows are RUNNING and
    start_bundle runs on the bundle; when it returns true the method goes
    on with the counter one higher; when it returns false (launch
    rejected) the worker calls update_bundle_states again, which sends
    one batch update back to STAGED conditional on state RUNNING, and the
    method goes on with the counter as it was. *)
Theorem update_staged_bundles_lock_protocol (w : Worker E) pre bundle post wb nb :
  let fetched := (batch_get_bundles_state STAGED (model w)).2 in
  let w0 := {| env := env w; model := peer_turn (model w); bundle_data := bundle_data w |} in
  let rest : Z → M E bool :=
    λ n, bind (staged_loop post n) (λ m, ret (bool_decide (m > 0))) in
  fetched = pre ++ bundle :: post →
  staged_loop pre 0 w0 = (wb, Ok nb) →
  state bundle = STAGED ∧
  ∃ w1 (locked : bool),
    update_bundle_states [bundle] RUNNING wb
    = (w1, Ok (locked, if locked then [running bundle] else [bundle])) ∧
    env w1 = env wb ∧ bundle_data w1 = bundle_data wb ∧
    calls (model w1)
    = calls (model wb) ++ [BatchUpdate [uuid bundle] (state_update RUNNING) STAGED locked] ∧
    (locked = false →
       rows (model w1) = rows (peer_turn (model wb)) ∧
       update_staged_bundles w = rest nb w1) ∧
    (locked = true →
       (∀ r, r ∈ rows (model w1) → uuid r = uuid bundle → state r = RUNNING) ∧
       ∀ w2 started,
         start_bundle (running bundle) w1 = (w2, Ok started) →
         if started then update_staged_bundles w = rest (nb + 1) w2
         else ∃ w3 undone objects,
                update_bundle_states [running bundle] STAGED w2 = (w3, Ok (undone, objects)) ∧
                env w3 = env w2 ∧ bundle_data w3 = bundle_data w2 ∧
                calls (model w3)
                = calls (model w2)
                  ++ [BatchUpdate [uuid bundle] (state_update STAGED) RUNNING undone] ∧
                update_staged_bundles w = rest nb w3).
Proof.
  intros fetched w0 rest Hl Hpre.
  assert (Hstate : state bundle = STAGED).
  { assert (Hin : bundle ∈ fetched).
    { rewrite Hl, elem_of_app. right. apply list_elem_of_here. }
    unfold fetched, batch_get_bundles_state in Hin. cbn [snd] in Hin.
    by apply list_elem_of_filter in Hin as [Hs _]. }
  split; [exact Hstate |].
  exists (after_lock bundle wb), (lock_won bundle wb).
  split; [apply lock_step |]. split; [reflexivity |]. split; [reflexivity |].
  split; [unfold after_lock, lock_won; simpl; by rewrite peer_turn_calls, Hstate |].
  split.
  - intros Hlost. split.
    + unfold lock_won in Hlost. unfold after_lock. simpl in *. by rewrite Hlost.
    + apply (update_staged_bundles_round w pre bundle post wb nb); [exact Hl | exact Hpre |].
      by apply staged_body_lost.
  - intros Hwon. split.
    + intros r Hr Hu. unfold lock_won in Hwon. unfold after_lock in Hr.
      cbn [model batch_update_bundles fst snd rows] in Hwon, Hr. rewrite Hwon in Hr.
      apply elem_of_update_rows in Hr as (r0 & Hr0 & ->).
      case_bool_decide as Hsel; [reflexivity |].
      exfalso. apply Hsel. simpl in Hu |- *. rewrite Hu. apply list_elem_of_here.
    + intros w2 started Hstart.
      pose proof (staged_body_won wb nb bundle Hwon) as Hbody.
      rewrite (bind_step _ _ _ _ _ Hstart) in Hbody.
      destruct started.
      * by apply (update_staged_bundles_round w pre bundle post wb nb).
      * pose proof (eq_trans (rollback_step w2 bundle) (with_model_run _ w2)) as Hroll.
        rewrite (bind_step _ _ _ _ _ Hroll) in Hbody.
        eexists _, _, _. split; [rewrite Hroll; reflexivity |].
        split; [reflexivity |]. split; [reflexivity |].
        split; [simpl; by rewrite peer_turn_calls |].
        by apply (update_staged_bundles_round w pre bundle post wb nb).
Qed.

(** What update_staged_bundles returns, when it returns. *)
Lemma update_staged_bundles_Ok (w w' : Worker E) r :
  update_staged_bundles w = (w', Ok r) →
  let fetched := (batch_get_bundles_state STAGED (model w)).2 in
  let w0 := {| env := env w; model := peer_turn (model w); bundle_data := bundle_data w |} in
  r = true ↔
  ∃ pre bundle post wb nb,
    fetched = pre ++ bundle :: post ∧
    staged_loop pre 0 w0 = (wb, Ok nb) ∧
    lock_won bundle wb = true ∧
    (kind bundle = MakeBundle ∨
     (∃ message, start_answer (running bundle) (after_lock bundle wb) = Raises message) ∨
     start_answer (running bundle) (after_lock bundle wb) = Returns true).
Proof.
  unfold update_staged_bundles. rewrite bind_with_model. intros Hrun.
  apply bind_Ok in Hrun as (w1 & n' & Hloop & Hret). injection Hret as _ <-.
  cbv zeta. simpl in Hloop.
  destruct (staged_loop_count _ _ _ _ _ Hloop) as [_ Hiff].
  rewrite bool_decide_eq_true.
  assert (Hlaunch : ∀ b wb, launched_at b wb = true ↔
            lock_won b wb = true ∧
            (kind b = MakeBundle ∨
             (∃ message, start_answer (running b) (after_lock b wb) = Raises message) ∨
             start_answer (running b) (after_lock b wb) = Returns true)).
  { intros b wb. unfold launched_at, moved. rewrite andb_true_iff.
    change (kind (running b)) with (kind b).
    destruct (kind b), (start_answer (running b) (after_lock b wb)) as [[]|m];
      (split;
       [ intros [Hl Hm]; split; [exact Hl |]; try discriminate Hm; eauto
       | intros [Hl [Hk|[[m' Hm]|Hm]]]; split; try exact Hl; try done ]). }
  split.
  - intros Hpos. assert (Hlt : 0 < n') by lia.
    apply Hiff in Hlt as (pre & b & post & wb & nb & Hl & Hpre & Hb).
    apply Hlaunch in Hb as [Hwon Hwhy].
    by exists pre, b, post, wb, nb.
  - intros (pre & b & post & wb & nb & Hl & Hpre & Hwon & Hwhy).
    assert (0 < n'); [| lia].
    apply Hiff. exists pre, b, post, wb, nb. split; [done |]. split; [done |].
    by apply Hlaunch.
Qed.

(** C9 (as the code has it): update_staged_bundles returns (it always
    does when the STAGED bundles carry no data_hash), and it returns true
    exactly when, for some STAGED bundle it went through, the conditional
    update to RUNNING succeeded and start_bundle then returned true.
    start_bundle returns true when the backend accepted the RunBundle,
    and also when Machine.start raised or the bundle is a MakeBundle, the
    two cases that are finalized inline. *)
Theorem update_staged_bundles_true_iff_moved (w : Worker E) :
  let fetched := (batch_get_bundles_state STAGED (model w)).2 in
  let w0 := {| env := env w; model := peer_turn (model w); bundle_data := bundle_data w |} in
  (Forall (λ b, data_hash b = None) fetched →
   ∃ w' r, update_staged_bundles w = (w', Ok r)) ∧
  (∀ w' r,
     update_staged_bundles w = (w', Ok r) →
     r = true ↔
     ∃ pre bundle post wb nb,
       fetched = pre ++ bundle :: post ∧
       staged_loop pre 0 w0 = (wb, Ok nb) ∧
       lock_won bundle wb = true ∧
       (kind bundle = MakeBundle ∨
        (∃ message, start_answer (running bundle) (after_lock bundle wb) = Raises message) ∨
        start_answer (running bundle) (after_lock bundle wb) = Returns true)).
Proof.
  intros fetched w0. split.
  - intros Hall. unfold update_staged_bundles. rewrite bind_with_model.
    destruct (staged_loop_returns fetched w0 0 Hall) as (w' & n' & Hloop).
    change (batch_get_bundles_state STAGED (model w)).2 with fetched.
    change (batch_get_bundles_state STAGED (model w)).1 with (peer_turn (model w)).
    fold w0. rewrite (bind_step _ _ _ _ _ Hloop). by eexists _, _.
  - intros w' r Hrun. by apply (update_staged_bundles_Ok w w' r).
Qed.

End Staged_claims.

(** C9, refuted as stated: the only STAGED bundle is a MakeBundle; the
    backend is never asked to start anything, the bundle is finalized
    inline (its row ends READY), and update_staged_bundles returns true. *)
Lemma update_staged_bundles_true_without_backend :
  (update_staged_bundles w_make).2 = Ok true ∧
  started (env (update_staged_bundles w_make).1) = [] ∧
  state <$> rows (model (update_staged_bundles w_make).1) = [READY].
Proof. vm_compute. repeat split; reflexivity. Qed.

Lemma update_staged_bundles_true_iff_moved_witness :
  (∃ w' r, update_staged_bundles w_make = (w', Ok r)) ∧
  (true = true ↔
   ∃ pre bundle post wb nb,
     [m_staged] = pre ++ bundle :: post ∧
     staged_loop pre 0 w_make = (wb, Ok nb) ∧
     lock_won bundle wb = true ∧
     (kind bundle = MakeBundle ∨
      (∃ message, start_answer (running bundle) (after_lock bundle wb) = Raises message) ∨
      start_answer (running bundle) (after_lock bundle wb) = Returns true)).
Proof.
  destruct (update_staged_bundles_true_iff_moved w_make) as [Hreturns Hiff].
  split.
  - apply Hreturns. vm_compute. by repeat constructor.
  - apply (Hiff (update_staged_bundles w_make).1 true). vm_compute. reflexivity.
Defined.

Lemma update_staged_bundles_lock_protocol_witness :
  ∃ w3,
    update_staged_bundles w_refuse = (w3, Ok false) ∧
    calls (model w3)
    = [BatchUpdate ["s"] (state_update RUNNING) STAGED true;
       BatchUpdate ["s"] (state_update STAGED) RUNNING true] ∧
    state <$> rows (model w3) = [STAGED].
Proof.
  destruct (update_staged_bundles_lock_protocol w_refuse [] s_staged [] w_refuse 0)
    as (_ & w1 & locked & Hlock & _ & _ & _ & _ & Hwon); [reflexivity | reflexivity |].
  pose proof (f_equal (λ x, match x.2 with Ok (b, _) => b | Raise _ => false end) Hlock)
    as Hlocked.
  pose proof (f_equal fst Hlock) as Hw1.
  vm_compute in Hlocked. cbn [fst] in Hw1. subst w1.
  destruct (Hwon (eq_sym Hlocked)) as [_ Hstart].
  specialize (Hstart (start_bundle (running s_staged)
                        (update_bundle_states [s_staged] RUNNING w_refuse).1).1 false).
  destruct Hstart as (w3 & undone & objects & Hroll & _ & _ & _ & Hmethod);
    [vm_compute; reflexivity |].
  exists w3. split; [exact Hmethod |].
  pose proof (f_equal fst Hroll) as Hw3. cbn [fst] in Hw3. subst w3.
  split; vm_compute; reflexivity.
Defined.

(* --------------------------------------------------------------------- *)
(* update_created_bundles: the classification                             *)
(* --------------------------------------------------------------------- *)

Lemma dict_by_uuid_snoc {V} (f : Bundle → V) l p :
  dict_by_uuid f (l ++ [p]) = <[uuid p := f p]> (dict_by_uuid f l).
Proof. unfold dict_by_uuid. by rewrite foldl_app. Qed.

Lemma dict_by_uuid_Some {V} (f : Bundle → V) l u v :
  dict_by_uuid f l !! u = Some v → ∃ p, p ∈ l ∧ uuid p = u ∧ f p = v.
Proof.
  induction l as [|p l IH] using rev_ind;
    [unfold dict_by_uuid; simpl; by rewrite lookup_empty |].
  rewrite dict_by_uuid_snoc. destruct (decide (uuid p = u)) as [<-|Hne].
  - rewrite lookup_insert_eq. intros [= <-]. exists p. by rewrite elem_of_app, list_elem_of_singleton; auto.
  - rewrite lookup_insert_ne by done. intros (q & Hq & Hu & Hv)%IH.
    exists q. rewrite elem_of_app. auto.
Qed.

Lemma dict_by_uuid_is_Some {V} (f : Bundle → V) l p :
  p ∈ l → is_Some (dict_by_uuid f l !! uuid p).
Proof.
  induction l as [|q l IH] using rev_ind; [by intros ?%not_elem_of_nil |].
  rewrite dict_by_uuid_snoc, elem_of_app, list_elem_of_singleton.
  destruct (decide (uuid q = uuid p)) as [Heq|Hne].
  - rewrite Heq, lookup_insert_eq. eauto.
  - rewrite lookup_insert_ne by done. intros [Hin| ->]; [auto | done].
Qed.

(** With one row per uuid, the dict holds each row's value at its uuid. *)
Lemma dict_by_uuid_lookup {V} (f : Bundle → V) l p :
  NoDup (uuid <$> l) → p ∈ l → dict_by_uuid f l !! uuid p = Some (f p).
Proof.
  intros Hnd Hp. destruct (dict_by_uuid_is_Some f l p Hp) as [v Hv].
  destruct (dict_by_uuid_Some f l _ _ Hv) as (q & Hq & Hu & <-).
  rewrite Hv. f_equal. f_equal.
  apply list_elem_of_lookup in Hp as [i Hi]. apply list_elem_of_lookup in Hq as [j Hj].
  assert (i = j) as ->; [| congruence].
  apply (NoDup_lookup (uuid <$> l) i j (uuid p)); [done | |].
  - by rewrite list_lookup_fmap, Hi.
  - by rewrite list_lookup_fmap, Hj, <- Hu.
Qed.

Lemma restrict_states_lookup (m : gmap string State) (us : gset string) u s :
  restrict_states m us !! u = Some s ↔ u ∈ us ∧ m !! u = Some s.
Proof.
  unfold restrict_states. split.
  - intros Hl%elem_of_list_to_map_2.
    apply list_elem_of_omap in Hl as (u' & Hu' & Hf).
    apply elem_of_elements in Hu'.
    destruct (m !! u') as [s'|] eqn:Hm; simpl in Hf; [| done].
    by injection Hf as -> ->.
  - intros [Hu Hm]. apply elem_of_list_to_map_1'.
    + intros y Hy. apply list_elem_of_omap in Hy as (u' & _ & Hf).
      destruct (m !! u') as [s'|] eqn:Hm'; simpl in Hf; [| done].
      injection Hf as -> ->. congruence.
    + apply list_elem_of_omap. exists u. split; [by apply elem_of_elements |].
      by rewrite Hm.
Qed.

Section Verdicts.
Variable all_parent_states : gmap string State.

#[local] Abbreviation missing := (missing_uuids all_parent_states).
#[local] Abbreviation failed_uuids := (failed_uuids_of all_parent_states).
#[local] Abbreviation all_ready := (all_ready_of all_parent_states).

Lemma classify_cases acc b :
  classify all_parent_states acc b
  = if decide (missing b = ∅) then
      if decide (failed_uuids b = []) then
        if bool_decide (all_ready b) then (acc.1, acc.2 ++ [b]) else acc
      else (acc.1 ++ [(b, failure_message_of (failed_uuids b))], acc.2)
    else acc.
Proof. reflexivity. Qed.

Lemma missing_empty b :
  missing b = ∅ ↔ ∀ u, u ∈ parents_of b → is_Some (all_parent_states !! u).
Proof.
  unfold missing_uuids, dep_uuids, parents_of. rewrite elem_of_equiv_empty_L.
  split.
  - intros Hno u Hu. apply elem_of_dom. destruct (decide (u ∈ dom all_parent_states)); [done |].
    exfalso. apply (Hno u). apply elem_of_difference. by rewrite elem_of_list_to_set.
  - intros Hall u [Hu Hd]%elem_of_difference. apply elem_of_list_to_set in Hu.
    apply Hd, elem_of_dom. auto.
Qed.

Lemma elem_of_failed_uuids b u :
  u ∈ failed_uuids b ↔ u ∈ parents_of b ∧ all_parent_states !! u = Some FAILED.
Proof.
  unfold failed_uuids_of, parents_of. rewrite list_elem_of_fmap. split.
  - intros ([u' s] & -> & Hin). apply elem_of_map_to_list in Hin.
    apply map_lookup_filter_Some in Hin as [Hl Hs]. simpl in Hs. subst s.
    apply restrict_states_lookup in Hl as [Hu Hl]. simpl.
    by apply elem_of_list_to_set in Hu.
  - intros [Hu Hl]. exists (u, FAILED). split; [done |].
    apply elem_of_map_to_list, map_lookup_filter_Some. split; [| done].
    apply restrict_states_lookup. split; [| done]. by apply elem_of_list_to_set.
Qed.

Lemma failed_uuids_NoDup b : NoDup (failed_uuids b).
Proof. apply NoDup_fst_map_to_list. Qed.

Lemma all_ready_iff b :
  all_ready b ↔ ∀ u s, u ∈ parents_of b → all_parent_states !! u = Some s → s = READY.
Proof.
  unfold all_ready_of, parents_of. rewrite map_Forall_lookup. split.
  - intros Hall u s Hu Hl. apply (Hall u). apply restrict_states_lookup.
    split; [by apply elem_of_list_to_set | done].
  - intros Hall u s [Hu Hl]%restrict_states_lookup.
    apply (Hall u); [by apply elem_of_list_to_set in Hu | done].
Qed.

(** What ends up in bundles_to_fail and bundles_to_stage. *)
Lemma classified_fail l b m :
  (b, m) ∈ (foldl (classify all_parent_states) ([], []) l).1 ↔
  b ∈ l ∧ missing b = ∅ ∧ failed_uuids b ≠ [] ∧ m = failure_message_of (failed_uuids b).
Proof.
  induction l as [|x l IH] using rev_ind.
  - simpl. rewrite elem_of_nil. split; [done |]. by intros [?%not_elem_of_nil _].
  - rewrite foldl_app. simpl. rewrite classify_cases.
    set (acc := foldl (classify all_parent_states) ([], []) l) in *.
    rewrite elem_of_app, list_elem_of_singleton.
    destruct (decide (missing x = ∅)) as [Hmiss|Hmiss].
    + destruct (decide (failed_uuids x = [])) as [Hf|Hf].
      * assert (Hacc : (if bool_decide (all_ready x)
                        then (acc.1, acc.2 ++ [x]) else acc).1 = acc.1)
          by (by destruct (bool_decide (all_ready x))).
        rewrite Hacc, IH. split.
        -- intros (Hin & Hc). split; [by left | done].
        -- intros ([Hin| ->] & Hm & Hfb & Hmsg); [done | contradiction].
      * simpl. rewrite elem_of_app, list_elem_of_singleton, IH. split.
        -- intros [(Hin & Hc) | Heq]; [split; [by left | done] |].
           injection Heq as -> ->. split; [by right | done].
        -- intros ([Hin| ->] & Hm & Hfb & ->); [by left | by right].
    + rewrite IH. split.
      * intros (Hin & Hc). split; [by left | done].
      * intros ([Hin| ->] & Hc); [done | by destruct Hc].
Qed.

Lemma classified_stage l b :
  b ∈ (foldl (classify all_parent_states) ([], []) l).2 ↔
  b ∈ l ∧ missing b = ∅ ∧ failed_uuids b = [] ∧ all_ready b.
Proof.
  induction l as [|x l IH] using rev_ind.
  - simpl. split; [by intros ?%not_elem_of_nil | by intros [?%not_elem_of_nil _]].
  - rewrite foldl_app. simpl. rewrite classify_cases.
    set (acc := foldl (classify all_parent_states) ([], []) l) in *.
    rewrite elem_of_app, list_elem_of_singleton.
    destruct (decide (missing x = ∅)) as [Hmiss|Hmiss].
    + destruct (decide (failed_uuids x = [])) as [Hf|Hf].
      * case_bool_decide as Hr; simpl.
        -- rewrite elem_of_app, list_elem_of_singleton, IH. split.
           ++ intros [(Hin & Hc) | ->]; [split; [by left | done] |].
              split; [by right | done].
           ++ intros ([Hin| ->] & Hc); [by left | by right].
        -- rewrite IH. split.
           ++ intros (Hin & Hc). split; [by left | done].
           ++ intros ([Hin| ->] & Hm & Hfb & Hall); [done | contradiction].
      * simpl. rewrite IH. split.
        -- intros (Hin & Hc). split; [by left | done].
        -- intros ([Hin| ->] & Hm & Hfb & Hall); [done | contradiction].
    + rewrite IH. split.
      * intros (Hin & Hc). split; [by left | done].
      * intros ([Hin| ->] & Hc); [done | by destruct Hc].
Qed.

(** bundles_to_fail names each uuid at most once when the bundles do. *)
Lemma classified_fail_NoDup l :
  NoDup (uuid <$> l) →
  NoDup ((λ bm, uuid bm.1) <$> (foldl (classify all_parent_states) ([], []) l).1).
Proof.
  induction l as [|x l IH] using rev_ind; [constructor |].
  rewrite fmap_app. intros (Hl & Hx & _)%NoDup_app.
  rewrite foldl_app. simpl. rewrite classify_cases.
  destruct (decide (missing x = ∅)); [| by apply IH].
  destruct (decide (failed_uuids x = [])).
  - destruct (bool_decide (all_ready x)); by apply IH.
  - simpl. rewrite fmap_app. apply NoDup_app. split; [by apply IH |].
    split; [| apply NoDup_singleton].
    intros u Hu Hux. apply list_elem_of_singleton in Hux. simpl in Hux. subst u.
    apply list_elem_of_fmap in Hu as ([b m] & Heq & Hin). simpl in Heq.
    apply classified_fail in Hin as [Hin _].
    apply (Hx (uuid x)); [| by left].
    apply list_elem_of_fmap. by exists b.
Qed.

End Verdicts.

Lemma elem_of_created_at σ b :
  b ∈ created_at σ ↔ state b = CREATED ∧ b ∈ rows (peer_turn σ).
Proof.
  unfold created_at, batch_get_bundles_state. cbn [snd].
  by rewrite list_elem_of_filter.
Qed.

Lemma classified_stage_CREATED σ : Forall (λ b, state b = CREATED) (classified σ).2.
Proof.
  apply Forall_forall. intros b Hb.
  apply classified_stage in Hb as [Hb _]. by apply elem_of_created_at in Hb as [? _].
Qed.

Section Created_facts.
Context {E : Type} `{Backend E}.

(** update_created_bundles, request by request: two reads, one
    update_bundle per bundle to fail, then one conditional batch update
    for the bundles to stage if there are any. It always returns, and its
    result is computed from the two lists alone. *)
Lemma update_created_bundles_run (w : Worker E) :
  let w2 := {| env := env w; model := peer_turn (peer_turn (model w));
               bundle_data := bundle_data w |} in
  ∃ wf w',
    fail_loop (classified (model w)).1 w2 = (wf, Ok tt) ∧
    update_created_bundles w
    = (w', Ok (bool_decide (0 < length (classified (model w)).1
                                + length (classified (model w)).2)%nat)) ∧
    env w' = env w ∧ bundle_data w' = bundle_data w ∧
    model w' = (if decide ((classified (model w)).2 = []) then model wf
                else (batch_update_bundles (classified (model w)).2
                        (state_update STAGED) CREATED (model wf)).1).
Proof.
  intros w2. unfold update_created_bundles.
  rewrite !bind_with_model. cbn [env model bundle_data].
  change (batch_get_bundles_state CREATED (model w)).2 with (created_at (model w)).
  change (batch_get_bundles_state CREATED (model w)).1 with (peer_turn (model w)).
  change (dict_by_uuid state
            (batch_get_bundles_uuid (⋃ (dep_uuids <$> created_at (model w)))
               (peer_turn (model w))).2) with (parent_states_at (model w)).
  change (batch_get_bundles_uuid (⋃ (dep_uuids <$> created_at (model w)))
            (peer_turn (model w))).1 with (peer_turn (peer_turn (model w))).
  change (foldl (classify (parent_states_at (model w))) ([], []) (created_at (model w)))
    with (classified (model w)).
  fold w2.
  pose proof (classified_stage_CREATED (model w)) as Hcreated.
  destruct (classified (model w)) as [fail stage]. cbn [fst snd] in *.
  destruct (fail_loop_run fail w2) as (wf & Hfail & He & Hd & _).
  exists wf. rewrite (bind_step _ _ _ _ _ Hfail).
  destruct stage as [|first rest].
  - eexists. split; [done |]. split; [reflexivity |]. done.
  - apply Forall_cons in Hcreated as Hc. destruct Hc as [Hfirst Hrest].
    pose proof (update_bundle_states_run wf first rest STAGED) as Hrun.
    cbv zeta in Hrun. rewrite bool_decide_true in Hrun.
    2:{ rewrite Hfirst. exact Hcreated. }
    rewrite Hfirst, with_model_run in Hrun.
    rewrite (bind_step _ _ _ _ _ Hrun).
    eexists. split; [done |]. split; [reflexivity |]. done.
Qed.

Lemma batch_update_calls bundles update condition σ :
  calls (batch_update_bundles bundles update condition σ).1
  = calls σ ++ [BatchUpdate (uuid <$> bundles) update condition
                  (batch_update_bundles bundles update condition σ).2.1].
Proof. simpl. by rewrite peer_turn_calls. Qed.

(** C5 (as the code has it): update_created_bundles always returns, and
    it returns true exactly when it put at least one bundle on
    bundles_to_fail or bundles_to_stage, which is exactly when it sent the
    store a write request; with no bundle classified it returns false.
    Whether the conditional batch update CREATED -> STAGED succeeded plays
    no part: its answer [ok] is not looked at. *)
Theorem update_created_bundles_result (w : Worker E) :
  let to_fail := (classified (model w)).1 in
  let to_stage := (classified (model w)).2 in
  ∃ w' ok,
    update_created_bundles w
    = (w', Ok (bool_decide (0 < length to_fail + length to_stage)%nat)) ∧
    calls (model w')
    = calls (model w) ++ (fail_call <$> to_fail)
        ++ (if decide (to_stage = []) then []
            else [BatchUpdate (uuid <$> to_stage) (state_update STAGED) CREATED ok]) ∧
    (bool_decide (0 < length to_fail + length to_stage)%nat = true
     ↔ calls (model w') ≠ calls (model w)).
Proof.
  intros to_fail to_stage.
  destruct (update_created_bundles_run w) as (wf & w' & Hfail & Hrun & _ & _ & Hm).
  destruct (fail_loop_run to_fail
              {| env := env w; model := peer_turn (peer_turn (model w));
                 bundle_data := bundle_data w |})
    as (wf' & Hfail' & _ & _ & Hcalls).
  unfold to_fail in Hfail'. rewrite Hfail in Hfail'. injection Hfail' as <-.
  cbn [model] in Hcalls. rewrite !peer_turn_calls in Hcalls.
  fold to_fail to_stage in Hrun, Hm.
  exists w', (batch_update_bundles to_stage (state_update STAGED) CREATED (model wf)).2.1.
  split; [exact Hrun |].
  assert (Hc : calls (model w')
    = calls (model w) ++ (fail_call <$> to_fail)
        ++ (if decide (to_stage = []) then []
            else [BatchUpdate (uuid <$> to_stage) (state_update STAGED) CREATED
                    (batch_update_bundles to_stage (state_update STAGED) CREATED
                       (model wf)).2.1])).
  { rewrite Hm. destruct (decide (to_stage = [])).
    - by rewrite Hcalls, app_nil_r.
    - rewrite batch_update_calls, Hcalls, <- app_assoc. done. }
  split; [exact Hc |].
  rewrite Hc, bool_decide_eq_true. clear.
  destruct to_fail as [|bm to_fail], to_stage as [|b to_stage]; simpl.
  - rewrite app_nil_r. split; [lia | done].
  - split; [| lia]. intros _ Heq.
    apply (f_equal length) in Heq. rewrite length_app in Heq. simpl in Heq. lia.
  - split; [| lia]. intros _ Heq.
    apply (f_equal length) in Heq. rewrite length_app in Heq. simpl in Heq. lia.
  - split; [| lia]. intros _ Heq.
    apply (f_equal length) in Heq. rewrite length_app in Heq. simpl in Heq. lia.
Qed.

End Created_facts.

(** C5, refuted as stated: a peer stages "x" first, the worker's batch
    update CREATED -> STAGED fails, no bundle is failed, nothing is
    committed by this worker, and update_created_bundles returns true. *)
Lemma update_created_bundles_true_on_failed_batch :
  (update_created_bundles w_race_stage).2 = Ok true ∧
  calls (model (update_created_bundles w_race_stage).1)
  = [BatchUpdate ["x"] (state_update STAGED) CREATED false].
Proof. vm_compute. split; reflexivity. Qed.

(* --------------------------------------------------------------------- *)
(* Which writes carry a condition                                         *)
(* --------------------------------------------------------------------- *)

Lemma batch_update_success_iff bundles update condition σ :
  (batch_update_bundles bundles update condition σ).2.1 = true ↔
  ∀ r, r ∈ rows (peer_turn σ) → uuid r ∈ uuid <$> bundles → state r = condition.
Proof.
  cbn [batch_update_bundles fst snd]. rewrite forallb_forall. split.
  - intros Hall r Hr Hu. specialize (Hall r).
    rewrite <- list_elem_of_In, list_elem_of_filter, bool_decide_eq_true in Hall. auto.
  - intros Hall r Hr. apply list_elem_of_In, list_elem_of_filter in Hr as [Hu Hr].
    apply bool_decide_eq_true. auto.
Qed.

Section Condition_claims.
Context {E : Type} `{Backend E}.

(** C1 (as the code has it). The transitions written through
    update_bundle_states (CREATED -> STAGED, STAGED -> RUNNING and the
    roll-back RUNNING -> STAGED) are conditional on the observed
    pre-state: the bundles handed over are all in one state, the batch
    update carries that state as its condition, it succeeds iff every
    selected row still holds it, and the rows change only then. The
    CREATED -> FAILED writes of update_created_bundles and the commit of
    finalize_bundle are update_bundle requests: they carry no condition
    and set the state of the bundle's rows whatever it was. *)
Theorem state_writes_and_their_conditions :
  (∀ (w w' : Worker E) first rest new_state ok objects,
     update_bundle_states (first :: rest) new_state w = (w', Ok (ok, objects)) →
     let bundles := first :: rest in
     let observed := state first in
     Forall (λ b, state b = observed) bundles ∧
     calls (model w')
     = calls (model w) ++ [BatchUpdate (uuid <$> bundles) (state_update new_state) observed ok] ∧
     (ok = true ↔
      ∀ r, r ∈ rows (peer_turn (model w)) → uuid r ∈ uuid <$> bundles → state r = observed) ∧
     rows (model w')
     = (if ok then update_rows (λ u, bool_decide (u ∈ uuid <$> bundles))
                    (apply_update (state_update new_state)) (rows (peer_turn (model w)))
        else rows (peer_turn (model w)))) ∧
  (∀ (w : Worker E) to_fail,
     ∃ w', fail_loop to_fail w = (w', Ok tt) ∧
           calls (model w') = calls (model w) ++ (fail_call <$> to_fail)) ∧
  (∀ (w : Worker E) bundle success temp_dir record,
     bundle_data w !! uuid bundle = Some record →
     ∃ w' update new_state,
       finalize_bundle (bundle, success, temp_dir) w = (w', Ok tt) ∧
       calls (model w') = calls (model w) ++ [UpdateBundle (uuid bundle) update] ∧
       upd_state update = Some new_state ∧
       ∀ r, r ∈ rows (model w') → uuid r = uuid bundle → state r = new_state).
Proof.
  split; [| split].
  - intros w w' first rest new_state ok objects Hrun. cbv zeta.
    pose proof (update_bundle_states_run w first rest new_state) as Hcase.
    cbv zeta in Hcase.
    case_bool_decide as Hall; [| rewrite Hrun in Hcase; discriminate].
    split; [exact Hall |].
    rewrite Hrun, with_model_run in Hcase.
    set (answer := batch_update_bundles (first :: rest) (state_update new_state)
                     (state first) (model w)) in *.
    assert (Hw : model w' = answer.1) by (by injection Hcase as -> _).
    assert (Hok : ok = answer.2.1).
    { assert (Hpair : (ok, objects) = answer.2) by congruence.
      by rewrite <- Hpair. }
    rewrite Hok, Hw. subst answer.
    split; [apply batch_update_calls |].
    split; [apply batch_update_success_iff |]. reflexivity.
  - intros w to_fail. destruct (fail_loop_run to_fail w) as (w' & Hrun & _ & _ & Hc).
    by exists w'.
  - intros w bundle success temp_dir record Hrec.
    destruct (finalize_bundle_run w bundle success temp_dir record Hrec)
      as (w' & outcome & Hrun & Hm & _).
    set (update := finalize_update bundle success record (time_time (env w)).2 outcome) in *.
    assert (Hs : ∃ s, upd_state update = Some s).
    { unfold update, finalize_update. destruct outcome as [[h m]|m]; eauto. }
    destruct Hs as [s Hs].
    exists w', update, s. split; [exact Hrun |].
    split; [rewrite Hm; simpl; by rewrite peer_turn_calls |].
    split; [exact Hs |].
    intros r Hr Hu. rewrite Hm in Hr. by eapply update_bundle_rows_state.
Qed.

End Condition_claims.

(** C1, refuted as stated: update_created_bundles fails "x" with an
    update_bundle request, which has no condition; by the time it arrives
    a peer has moved "x" out of CREATED, and the row is set to FAILED all
    the same. Likewise the commit of finalize_bundle is an update_bundle
    request. *)
Lemma update_bundle_writes_without_condition :
  calls (model (update_created_bundles w_race_fail).1)
  = [UpdateBundle "x" (fail_update "Parent bundles failed: p")] ∧
  state <$> rows (peer_turn (peer_turn (peer_turn (model w_race_fail)))) = [FAILED; STAGED] ∧
  state <$> rows (model (update_created_bundles w_race_fail).1) = [FAILED; FAILED] ∧
  (∃ update, calls (model (finalize_bundle (r_running, true, "/tmp/r") w_reap).1)
             = [UpdateBundle "r" update]).
Proof.
  split; [vm_compute; reflexivity |]. split; [vm_compute; reflexivity |].
  split; [vm_compute; reflexivity |]. eexists. vm_compute. reflexivity.
Qed.

Lemma state_writes_and_their_conditions_witness :
  let result := update_bundle_states [s_staged] RUNNING w_refuse in
  calls (model result.1) = [BatchUpdate ["s"] (state_update RUNNING) STAGED true] ∧
  state <$> rows (model result.1) = [RUNNING].
Proof.
  intros result.
  destruct (state_writes_and_their_conditions (E:=Scripted)) as (Hcond & _ & _).
  destruct (Hcond w_refuse result.1 s_staged [] RUNNING true [running s_staged])
    as (_ & Hcalls & _ & Hrows); [vm_compute; reflexivity |].
  split; [exact Hcalls |]. rewrite Hrows. vm_compute. reflexivity.
Defined.

(* --------------------------------------------------------------------- *)
(* update_created_bundles on a store no peer is writing to                *)
(* --------------------------------------------------------------------- *)

Lemma nil_or_elem {A} (l : list A) : l = [] ∨ ∃ x, x ∈ l.
Proof. destruct l as [|x l]; [by left | right; exists x; by left]. Qed.

Lemma peer_turn_quiet σ : peers σ = [] → peer_turn σ = σ.
Proof. unfold peer_turn. by intros ->. Qed.

Lemma uuid_inj_rows (t : list Bundle) p q :
  NoDup (uuid <$> t) → p ∈ t → q ∈ t → uuid p = uuid q → p = q.
Proof.
  intros Hnd Hp Hq Hu.
  apply list_elem_of_lookup in Hp as [i Hi]. apply list_elem_of_lookup in Hq as [j Hj].
  assert (i = j) as ->; [| congruence].
  apply (NoDup_lookup (uuid <$> t) i j (uuid p)); [done | |].
  - by rewrite list_lookup_fmap, Hi.
  - by rewrite list_lookup_fmap, Hj, Hu.
Qed.

Lemma NoDup_uuid_filter (P : Bundle → Prop) `{∀ r, Decision (P r)} (t : list Bundle) :
  NoDup (uuid <$> t) → NoDup (uuid <$> filter P t).
Proof.
  intros Hnd. eapply sublist_NoDup; [exact Hnd |].
  apply fmap_sublist, sublist_filter.
Qed.

Lemma update_rows_none sel f (t : list Bundle) :
  (∀ r, r ∈ t → sel (uuid r) = false) → update_rows sel f t = t.
Proof.
  intros Hno. unfold update_rows. rewrite <- (list_fmap_id t) at 2.
  apply list_fmap_ext. intros i r Hr. simpl.
  rewrite Hno; [done |]. by eapply list_elem_of_lookup_2.
Qed.

Lemma fail_rows_snoc l bm t :
  fail_rows (l ++ [bm]) t
  = update_rows (λ u, bool_decide (u = uuid bm.1)) (apply_update (fail_update bm.2))
      (fail_rows l t).
Proof. unfold fail_rows. by rewrite foldl_app. Qed.

(** A row no entry of bundles_to_fail names is left as it is. *)
Lemma fail_rows_other l t r :
  (∀ bm, bm ∈ l → uuid bm.1 ≠ uuid r) → r ∈ t → r ∈ fail_rows l t.
Proof.
  induction l as [|bm l IH] using rev_ind; intros Hne Hr; [done |].
  rewrite fail_rows_snoc. apply elem_of_update_rows. exists r. split.
  - apply IH; [| done]. intros bm' Hbm'. apply Hne. rewrite elem_of_app. by left.
  - rewrite bool_decide_false; [done |].
    intros Heq. apply (Hne bm); [| done]. rewrite elem_of_app, list_elem_of_singleton. by right.
Qed.

(** A row named once gets that entry's update. *)
Lemma fail_rows_hit l t b m :
  NoDup ((λ bm, uuid bm.1) <$> l) → (b, m) ∈ l → b ∈ t →
  apply_update (fail_update m) b ∈ fail_rows l t.
Proof.
  induction l as [|bm l IH] using rev_ind; intros Hnd Hin Hb;
    [by apply not_elem_of_nil in Hin |].
  rewrite fmap_app in Hnd. apply NoDup_app in Hnd as (Hnd & Hfresh & _).
  rewrite fail_rows_snoc. apply elem_of_update_rows.
  apply elem_of_app in Hin as [Hin|Hin].
  - exists (apply_update (fail_update m) b). split; [by apply IH |].
    rewrite bool_decide_false; [done |]. simpl. intros Heq.
    apply (Hfresh (uuid b)); [| rewrite Heq; by left].
    apply list_elem_of_fmap. by exists (b, m).
  - apply list_elem_of_singleton in Hin as <-. simpl.
    exists b. split; [| by rewrite bool_decide_true].
    apply fail_rows_other; [| done].
    intros bm' Hbm' Heq. apply (Hfresh (uuid bm'.1)); [| rewrite Heq; by left].
    apply list_elem_of_fmap. by exists bm'.
Qed.

(** Every row afterwards comes from a row with the same uuid, unchanged
    unless bundles_to_fail names it. *)
Lemma fail_rows_inv l t r :
  r ∈ fail_rows l t →
  ∃ r0, r0 ∈ t ∧ uuid r0 = uuid r ∧ (r = r0 ∨ ∃ bm, bm ∈ l ∧ uuid bm.1 = uuid r0).
Proof.
  revert r. induction l as [|bm l IH] using rev_ind; intros r Hr; [by eauto |].
  rewrite fail_rows_snoc in Hr. apply elem_of_update_rows in Hr as (r1 & Hr1 & ->).
  destruct (IH r1 Hr1) as (r0 & Hr0 & Hu & Hcase).
  exists r0. split; [done |]. case_bool_decide as Hsel.
  - split; [by rewrite apply_update_uuid |]. right. exists bm.
    rewrite elem_of_app, list_elem_of_singleton. split; [by right | congruence].
  - split; [done |]. destruct Hcase as [->|(bm' & Hbm' & Hu')]; [by left |].
    right. exists bm'. rewrite elem_of_app. auto.
Qed.

Section Quiet_store.
Context {E : Type} `{Backend E}.

Lemma fail_loop_quiet (l : list (Bundle * string)) (w : Worker E) :
  peers (model w) = [] →
  ∃ w', fail_loop l w = (w', Ok tt) ∧
        rows (model w') = fail_rows l (rows (model w)) ∧ peers (model w') = [].
Proof.
  revert w. induction l as [|[b m] l IH]; intros w Hquiet; simpl.
  - by exists w.
  - rewrite bind_with_model.
    match goal with |- ∃ _, fail_loop _ ?v = _ ∧ _ =>
      destruct (IH v) as (w' & Hrun & Hrows & Hq)
    end.
    { simpl. by rewrite peer_turn_quiet. }
    exists w'. split; [exact Hrun |]. split; [| exact Hq].
    rewrite Hrows. simpl. by rewrite peer_turn_quiet.
Qed.

End Quiet_store.

Section Created_claims.
Context {E : Type} `{Backend E}.

(** What the classification reads, on a quiet store with one row per
    uuid. *)
Lemma parent_states_quiet σ bundle u :
  peers σ = [] → bundle ∈ created_at σ → u ∈ parents_of bundle →
  (is_Some (parent_states_at σ !! u) ↔ present (rows σ) u) ∧
  (∀ s, parent_states_at σ !! u = Some s → parent_in (rows σ) s u) ∧
  (NoDup (uuid <$> rows σ) → ∀ s, parent_in (rows σ) s u → parent_states_at σ !! u = Some s).
Proof.
  intros Hquiet Hb Hu. unfold parent_states_at, batch_get_bundles_uuid. cbn [snd].
  rewrite !(peer_turn_quiet σ Hquiet).
  set (wanted := ⋃ (dep_uuids <$> created_at σ)).
  assert (Hwanted : u ∈ wanted).
  { apply elem_of_union_list. exists (dep_uuids bundle). split.
    - apply list_elem_of_fmap. by exists bundle.
    - by apply elem_of_list_to_set. }
  assert (Hsome : ∀ s, dict_by_uuid state (filter (λ r, uuid r ∈ wanted) (rows σ)) !! u = Some s
                       → parent_in (rows σ) s u).
  { intros s (p & Hp & Hpu & Hps)%dict_by_uuid_Some.
    apply list_elem_of_filter in Hp as [_ Hp]. by exists p. }
  split; [| split].
  - split.
    + intros [s Hs]. destruct (Hsome s Hs) as (p & Hp & Hpu & _). by exists p.
    + intros (p & Hp & <-). apply dict_by_uuid_is_Some, list_elem_of_filter. done.
  - exact Hsome.
  - intros Hnd s (p & Hp & <- & <-). apply dict_by_uuid_lookup.
    + by apply NoDup_uuid_filter.
    + apply list_elem_of_filter. done.
Qed.

(** On a quiet store with one row per uuid the conditional batch update
    succeeds, and the table ends as the two lists say. *)
Lemma update_created_bundles_quiet (w : Worker E) :
  peers (model w) = [] → NoDup (uuid <$> rows (model w)) →
  ∃ w' r,
    update_created_bundles w = (w', Ok r) ∧
    rows (model w')
    = update_rows (λ u, bool_decide (u ∈ uuid <$> (classified (model w)).2))
        (apply_update (state_update STAGED))
        (fail_rows (classified (model w)).1 (rows (model w))).
Proof.
  intros Hquiet Hnd.
  destruct (update_created_bundles_run w) as (wf & w' & Hfail & Hrun & _ & _ & Hm).
  rewrite !(peer_turn_quiet _ Hquiet) in Hfail.
  destruct (fail_loop_quiet (classified (model w)).1
              {| env := env w; model := model w; bundle_data := bundle_data w |} Hquiet)
    as (wf' & Hfail' & Hrows & Hq).
  rewrite Hfail in Hfail'. injection Hfail' as <-. cbn [model] in Hrows.
  eexists w', _. split; [exact Hrun |]. rewrite Hm.
  pose proof (classified_fail (parent_states_at (model w)) (created_at (model w))) as Hinfail.
  pose proof (classified_stage (parent_states_at (model w)) (created_at (model w))) as Hinstage.
  fold (classified (model w)) in Hinfail, Hinstage.
  destruct (decide ((classified (model w)).2 = [])) as [Hnil|Hcons].
  - rewrite Hnil, Hrows. symmetry. apply update_rows_none.
    intros r _. apply bool_decide_false. simpl. apply not_elem_of_nil.
  - assert (Hok : (batch_update_bundles (classified (model w)).2 (state_update STAGED)
                     CREATED (model wf)).2.1 = true).
    { apply batch_update_success_iff. rewrite (peer_turn_quiet _ Hq), Hrows.
      intros r Hr Hu. apply list_elem_of_fmap in Hu as (s & Hu & Hs).
      apply Hinstage in Hs as (Hs & _ & Hnofail & _).
      apply elem_of_created_at in Hs as [Hstate Hs]. rewrite (peer_turn_quiet _ Hquiet) in Hs.
      apply fail_rows_inv in Hr as (r0 & Hr0 & Hu0 & Hcase).
      assert (r0 = s) as -> by (apply (uuid_inj_rows (rows (model w))); congruence).
      destruct Hcase as [->|([b m] & Hbm & Hbu)]; [done |]. exfalso.
      apply Hinfail in Hbm as (Hb & _ & Hf & _). simpl in Hbu.
      apply elem_of_created_at in Hb as [_ Hb]. rewrite (peer_turn_quiet _ Hquiet) in Hb.
      assert (b = s) as -> by (by apply (uuid_inj_rows (rows (model w)))).
      done. }
    cbn [batch_update_bundles fst snd rows] in Hok |- *. rewrite Hok.
    by rewrite (peer_turn_quiet _ Hq), Hrows.
Qed.

(** update_created_bundles on a store no peer is writing to, with one
    row per uuid, for a bundle it finds in CREATED: the row the table
    holds for it afterwards, in each of the four cases of the
    classification. *)
Lemma update_created_bundles_rows (w : Worker E) bundle :
  peers (model w) = [] →
  NoDup (uuid <$> rows (model w)) →
  bundle ∈ rows (model w) → state bundle = CREATED →
  let t := rows (model w) in
  let parents := parents_of bundle in
  ∃ w' r,
    update_created_bundles w = (w', Ok r) ∧
    uuid <$> rows (model w') = uuid <$> t ∧
    ((∃ u, u ∈ parents ∧ ¬ present t u) → bundle ∈ rows (model w')) ∧
    ((∀ u, u ∈ parents → present t u) →
     (∃ u, u ∈ parents ∧ parent_in t FAILED u) →
     ∃ failed,
       NoDup failed ∧ (∀ u, u ∈ failed ↔ u ∈ parents ∧ parent_in t FAILED u) ∧
       apply_update (fail_update ("Parent bundles failed: " +:+ join ", " failed)) bundle
         ∈ rows (model w')) ∧
    ((∀ u, u ∈ parents → parent_in t READY u) →
     apply_update (state_update STAGED) bundle ∈ rows (model w')) ∧
    ((∀ u, u ∈ parents → present t u) →
     (∀ u, u ∈ parents → ¬ parent_in t FAILED u) →
     (∃ u, u ∈ parents ∧ ¬ parent_in t READY u) →
     bundle ∈ rows (model w')).
Proof.
  intros Hquiet Hnd Hb Hstate t parents.
  destruct (update_created_bundles_quiet w Hquiet Hnd) as (w' & r & Hrun & Hrows).
  exists w', r. split; [exact Hrun |].
  set (σ := model w) in *.
  set (aps := parent_states_at σ) in *.
  pose proof (classified_fail aps (created_at σ)) as Hinfail.
  pose proof (classified_stage aps (created_at σ)) as Hinstage.
  fold (classified σ) in Hinfail, Hinstage.
  assert (Hcreated : bundle ∈ created_at σ).
  { apply elem_of_created_at. by rewrite (peer_turn_quiet _ Hquiet). }
  assert (Hin_t : ∀ b, b ∈ created_at σ → b ∈ t).
  { intros b [_ Hbt]%elem_of_created_at. by rewrite (peer_turn_quiet _ Hquiet) in Hbt. }
  pose proof (λ u, parent_states_quiet σ bundle u Hquiet Hcreated) as Hps.
  (* the three tests, read off the table *)
  assert (Hmissing : missing_uuids aps bundle = ∅ ↔ ∀ u, u ∈ parents → present t u).
  { rewrite missing_empty. split; intros Hall u Hu; apply (Hps u Hu), Hall, Hu. }
  assert (Hfailed : ∀ u, u ∈ failed_uuids_of aps bundle
                         ↔ u ∈ parents ∧ parent_in t FAILED u).
  { intros u. rewrite elem_of_failed_uuids. split; intros [Hu Hf]; (split; [done |]).
    - by apply (Hps u Hu).
    - by apply (Hps u Hu). }
  set (failed := failed_uuids_of aps bundle) in *.
  (* rows the two lists do not name by uuid stay; the named ones change *)
  assert (Hstay : (∀ m, (bundle, m) ∉ (classified σ).1) → bundle ∉ (classified σ).2 →
                  bundle ∈ rows (model w')).
  { intros Hnf Hns. rewrite Hrows. apply elem_of_update_rows. exists bundle. split.
    - apply fail_rows_other; [| done]. intros [b m] Hbm Hu. simpl in Hu.
      apply (Hnf m). assert (b = bundle) as <-; [| done].
      apply (uuid_inj_rows t); try done. apply Hin_t. by apply Hinfail in Hbm as [? _].
    - rewrite bool_decide_false; [done |].
      intros (s & Hu & Hs)%list_elem_of_fmap. apply Hns.
      assert (s = bundle) as <-; [| done].
      apply (uuid_inj_rows t); try done. apply Hin_t. by apply Hinstage in Hs as [? _]. }
  split; [| split; [| split; [| split]]].
  - rewrite Hrows. rewrite update_rows_uuid by apply apply_update_uuid.
    generalize (classified σ).1. intros l. induction l as [|bm l IH] using rev_ind; [done |].
    rewrite fail_rows_snoc, update_rows_uuid by apply apply_update_uuid. exact IH.
  - intros (u & Hu & Habsent). apply Hstay.
    + intros m (_ & Hmiss & _)%Hinfail. apply Habsent. by apply Hmissing.
    + intros (_ & Hmiss & _)%Hinstage. apply Habsent. by apply Hmissing.
  - intros Hall (u & Hu & Hf). exists failed.
    split; [apply failed_uuids_NoDup |]. split; [exact Hfailed |].
    assert (Hfail_in : (bundle, failure_message_of failed) ∈ (classified σ).1).
    { apply Hinfail. split; [done |]. split; [by apply Hmissing |]. split; [| done].
      intros Hnil. assert (Hin : u ∈ failed) by (by apply Hfailed).
      change (failed = []) in Hnil. rewrite Hnil in Hin. by apply not_elem_of_nil in Hin. }
    rewrite Hrows. apply elem_of_update_rows.
    exists (apply_update (fail_update (failure_message_of failed)) bundle). split.
    + apply fail_rows_hit; [| done | done].
      apply classified_fail_NoDup. unfold created_at, batch_get_bundles_state. cbn [snd].
      by apply NoDup_uuid_filter; rewrite (peer_turn_quiet _ Hquiet).
    + rewrite bool_decide_false; [done |]. rewrite apply_update_uuid.
      intros (s & Hus & Hs)%list_elem_of_fmap.
      apply Hinstage in Hs as (Hs & _ & Hnil & _).
      assert (s = bundle) as -> by (apply (uuid_inj_rows t); auto).
      apply Hinfail in Hfail_in as (_ & _ & Hne & _). done.
  - intros Hready.
    assert (Hstage_in : bundle ∈ (classified σ).2).
    { apply Hinstage. split; [done |]. split; [| split].
      - apply Hmissing. intros u Hu. destruct (Hready u Hu) as (p & Hp & Hpu & _). by exists p.
      - destruct (nil_or_elem failed) as [Hnil|[u Hin]]; [exact Hnil |]. exfalso.
        apply Hfailed in Hin as (Hu & p & Hp & Hpu & Hpf).
        destruct (Hready u Hu) as (q & Hq & Hqu & Hqs).
        assert (p = q) as -> by (apply (uuid_inj_rows t); [exact Hnd | done | done | congruence]). congruence.
      - apply all_ready_iff. intros u s Hu Hs.
        apply (Hps u Hu) in Hs as (p & Hp & Hpu & Hpf).
        destruct (Hready u Hu) as (q & Hq & Hqu & Hqs).
        assert (p = q) as -> by (apply (uuid_inj_rows t); [exact Hnd | done | done | congruence]). congruence. }
    rewrite Hrows. apply elem_of_update_rows. exists bundle. split.
    + apply fail_rows_other; [| done]. intros [b m] Hbm Hu. simpl in Hu.
      apply Hinfail in Hbm as (Hbc & _ & Hne & _).
      assert (b = bundle) as -> by (apply (uuid_inj_rows t); auto).
      by apply Hinstage in Hstage_in as (_ & _ & Hnil & _).
    + rewrite bool_decide_true; [done |]. apply list_elem_of_fmap. by exists bundle.
  - intros Hall Hnofail (u & Hu & Hnotready). apply Hstay.
    + intros m (_ & _ & Hne & _)%Hinfail. apply Hne.
      destruct (nil_or_elem failed) as [Hnil|[v Hin]]; [exact Hnil |]. exfalso.
      apply Hfailed in Hin as [Hv Hvf]. by apply (Hnofail v).
    + intros (_ & _ & _ & Hr)%Hinstage. apply Hnotready.
      destruct (Hall u Hu) as (p & Hp & Hpu). exists p. split; [done |]. split; [done |].
      pose proof (proj1 (all_ready_iff aps bundle) Hr) as Hall_ready.
      apply (Hall_ready u); [done |].
      apply (Hps u Hu); [done |]. by exists p.
Qed.

(** C4 (as the code has it): update_created_bundles on a store that no
    peer writes to during the call and that has one row per uuid, for a
    bundle it finds in CREATED. The method returns and the table still
    has exactly one row for the bundle. If some parent uuid has no row,
    that row is unchanged, in state CREATED. Otherwise, if some parent is
    FAILED, the row is in state FAILED and its metadata.failure_message
    is 'Parent bundles failed: ' followed by the failed parents' uuids,
    each once, joined by ', '. Otherwise, if all parents are READY, the
    row is in state STAGED. Otherwise the row is unchanged, in state
    CREATED. *)
Theorem update_created_bundles_classification (w : Worker E) bundle :
  peers (model w) = [] →
  NoDup (uuid <$> rows (model w)) →
  bundle ∈ rows (model w) → state bundle = CREATED →
  let t := rows (model w) in
  let parents := parents_of bundle in
  ∃ w' r after,
    update_created_bundles w = (w', Ok r) ∧
    after ∈ rows (model w') ∧ uuid after = uuid bundle ∧
    (∀ other, other ∈ rows (model w') → uuid other = uuid bundle → other = after) ∧
    ((∃ u, u ∈ parents ∧ ¬ present t u) → after = bundle ∧ state after = CREATED) ∧
    ((∀ u, u ∈ parents → present t u) →
     (∃ u, u ∈ parents ∧ parent_in t FAILED u) →
     ∃ failed,
       NoDup failed ∧ (∀ u, u ∈ failed ↔ u ∈ parents ∧ parent_in t FAILED u) ∧
       state after = FAILED ∧
       metadata after !! "failure_message"
       = Some (MString ("Parent bundles failed: " +:+ join ", " failed))) ∧
    ((∀ u, u ∈ parents → parent_in t READY u) → state after = STAGED) ∧
    ((∀ u, u ∈ parents → present t u) →
     (∀ u, u ∈ parents → ¬ parent_in t FAILED u) →
     (∃ u, u ∈ parents ∧ ¬ parent_in t READY u) →
     after = bundle ∧ state after = CREATED).
Proof.
  intros Hquiet Hnd Hb Hstate t parents.
  destruct (update_created_bundles_rows w bundle Hquiet Hnd Hb Hstate)
    as (w' & r & Hrun & Huuids & Hmissing & Hfail & Hstage & Hwait).
  fold t in Huuids, Hmissing, Hfail, Hstage, Hwait.
  fold parents in Hmissing, Hfail, Hstage, Hwait.
  assert (Hnd' : NoDup (uuid <$> rows (model w'))) by (by rewrite Huuids).
  assert (Hsome : uuid bundle ∈ uuid <$> rows (model w')).
  { rewrite Huuids. apply list_elem_of_fmap. by exists bundle. }
  apply list_elem_of_fmap in Hsome as (after & Hu & Hafter).
  assert (Hone : ∀ other, other ∈ rows (model w') → uuid other = uuid bundle → other = after).
  { intros other Hother Huo. apply (uuid_inj_rows (rows (model w'))); congruence. }
  exists w', r, after. split; [exact Hrun |]. split; [exact Hafter |].
  split; [done |]. split; [exact Hone |].
  split; [| split; [| split]].
  - intros Hm. rewrite <- (Hone bundle); auto.
  - intros Hall Hf. destruct (Hfail Hall Hf) as (failed & Hndf & Hfailed & Hrow).
    exists failed. split; [exact Hndf |]. split; [exact Hfailed |].
    rewrite <- (Hone _ Hrow (apply_update_uuid _ _)).
    split; [reflexivity |].
    unfold apply_update, fail_update. cbn [metadata upd_metadata].
    apply lookup_union_Some_l, lookup_insert_eq.
  - intros Hready. by rewrite <- (Hone _ (Hstage Hready) (apply_update_uuid _ _)).
  - intros Hall Hnofail Hnotready. rewrite <- (Hone bundle); auto.
Qed.

End Created_claims.

(** C4, refuted as stated: "y" is CREATED and its only parent "a" is
    READY before and after the call, yet "y" is still CREATED when
    update_created_bundles returns: a peer staged "x" first, so the
    conditional batch update of ["x"; "y"] failed as a whole. *)
Lemma update_created_bundles_stage_lost_to_peer :
  let y := mk_bundle "y" RunBundle CREATED ["a"] in
  let result := update_created_bundles w_race_batch in
  y ∈ rows (model w_race_batch) ∧
  parents_of y = ["a"] ∧
  parent_in (rows (model w_race_batch)) READY "a" ∧
  parent_in (rows (model result.1)) READY "a" ∧
  result.2 = Ok true ∧
  calls (model result.1) = [BatchUpdate ["x"; "y"] (state_update STAGED) CREATED false] ∧
  rows (model result.1)
  = [mk_bundle "a" RunBundle READY []; set_state STAGED (mk_bundle "x" RunBundle CREATED ["a"]); y].
Proof.
  intros y result.
  split; [unfold w_race_batch, mk_worker; cbn [model rows];
          repeat first [apply list_elem_of_here | apply list_elem_of_further] |].
  split; [reflexivity |].
  split; [exists (mk_bundle "a" RunBundle READY []); split; [apply list_elem_of_here | done] |].
  assert (Hrows : rows (model result.1)
                  = [mk_bundle "a" RunBundle READY [];
                     set_state STAGED (mk_bundle "x" RunBundle CREATED ["a"]); y])
    by (vm_compute; reflexivity).
  split; [rewrite Hrows; exists (mk_bundle "a" RunBundle READY []);
          split; [apply list_elem_of_here | done] |].
  split; [vm_compute; reflexivity |]. split; [vm_compute; reflexivity |]. exact Hrows.
Qed.

Lemma NoDup_singleton_inv {A} (l : list A) x :
  NoDup l → (∀ u, u ∈ l ↔ u = x) → l = [x].
Proof.
  intros Hnd Hin. destruct l as [|a l].
  - exfalso. eapply not_elem_of_nil, Hin. reflexivity.
  - assert (a = x) as -> by (apply Hin; by left).
    destruct l as [|b l]; [done |]. exfalso.
    assert (b = x) as -> by (apply Hin; right; by left).
    apply NoDup_cons in Hnd as [Hnot _]. apply Hnot. by left.
Qed.

Ltac rows_cases H :=
  repeat (apply elem_of_cons in H as [->|H]; [try discriminate; try done |]);
  try (by apply not_elem_of_nil in H).

Lemma update_created_bundles_classification_witness :
  ∃ w' r row_c row_d row_e row_f,
    update_created_bundles w_family = (w', Ok r) ∧
    (row_c ∈ rows (model w') ∧ uuid row_c = "c" ∧ state row_c = FAILED ∧
     metadata row_c !! "failure_message" = Some (MString "Parent bundles failed: b")) ∧
    (row_d ∈ rows (model w') ∧ uuid row_d = "d" ∧ state row_d = STAGED) ∧
    (row_e ∈ rows (model w') ∧ uuid row_e = "e" ∧ state row_e = CREATED) ∧
    (row_f ∈ rows (model w') ∧ uuid row_f = "f" ∧ state row_f = CREATED).
Proof.
  assert (Hquiet : peers (model w_family) = []) by reflexivity.
  assert (Hnd : NoDup (uuid <$> rows (model w_family)))
    by (apply (bool_decide_unpack _); vm_compute; exact I).
  assert (Hin : ∀ b, b ∈ family → b ∈ rows (model w_family)) by (intros b Hb; exact Hb).
  assert (Ha : parent_in family READY "a")
    by (exists (mk_bundle "a" RunBundle READY []); split; [apply list_elem_of_here | done]).
  assert (Hb : parent_in family FAILED "b").
  { exists (mk_bundle "b" RunBundle FAILED []).
    split; [apply list_elem_of_further, list_elem_of_here | done]. }
  assert (Hc : present family "c").
  { exists (mk_bundle "c" RunBundle CREATED ["a"; "b"]).
    split; [do 2 apply list_elem_of_further; apply list_elem_of_here | done]. }
  destruct (update_created_bundles_classification w_family
              (mk_bundle "c" RunBundle CREATED ["a"; "b"]) Hquiet Hnd)
    as (w' & r & row_c & Hrun & Hc_in & Hc_uuid & _ & _ & Hc_fail & _);
    [apply Hin; unfold family; repeat first [apply list_elem_of_here | apply list_elem_of_further]
    | reflexivity |].
  destruct (update_created_bundles_classification w_family
              (mk_bundle "d" MakeBundle CREATED ["a"]) Hquiet Hnd)
    as (w1 & r1 & row_d & Hrun1 & Hd_in & Hd_uuid & _ & _ & _ & Hd_stage & _);
    [apply Hin; unfold family; repeat first [apply list_elem_of_here | apply list_elem_of_further]
    | reflexivity |].
  destruct (update_created_bundles_classification w_family
              (mk_bundle "e" MakeBundle CREATED ["c"]) Hquiet Hnd)
    as (w2 & r2 & row_e & Hrun2 & He_in & He_uuid & _ & _ & _ & _ & He_wait);
    [apply Hin; unfold family; repeat first [apply list_elem_of_here | apply list_elem_of_further]
    | reflexivity |].
  destruct (update_created_bundles_classification w_family
              (mk_bundle "f" MakeBundle CREATED ["zz"; "b"]) Hquiet Hnd)
    as (w3 & r3 & row_f & Hrun3 & Hf_in & Hf_uuid & _ & Hf_missing & _);
    [apply Hin; unfold family; repeat first [apply list_elem_of_here | apply list_elem_of_further]
    | reflexivity |].
  rewrite Hrun in Hrun1, Hrun2, Hrun3.
  injection Hrun1 as <- <-. injection Hrun2 as <- <-. injection Hrun3 as <- <-.
  change (rows (model w_family)) with family in Hc_fail, Hd_stage, He_wait, Hf_missing.
  exists w', r, row_c, row_d, row_e, row_f. split; [exact Hrun |].
  split; [| split; [| split]].
  - destruct Hc_fail as (failed & Hndf & Hfailed & Hstate & Hmessage).
    + intros u Hu. rows_cases Hu.
      * destruct Ha as (p & ? & ? & _). by exists p.
      * destruct Hb as (p & ? & ? & _). by exists p.
    + exists "b". split; [| exact Hb]. apply list_elem_of_further, list_elem_of_here.
    + assert (failed = ["b"]) as ->.
      { apply NoDup_singleton_inv; [exact Hndf |]. intros u. rewrite Hfailed. split.
        - intros [Hu (p & Hp & Hpu & Hps)]. unfold family in Hp. rows_cases Hp.
        - intros ->. split; [| exact Hb]. apply list_elem_of_further, list_elem_of_here. }
      done.
  - split; [exact Hd_in |]. split; [exact Hd_uuid |]. apply Hd_stage.
    intros u Hu. rows_cases Hu.
  - split; [exact He_in |]. split; [exact He_uuid |]. apply He_wait.
    + intros u Hu. rows_cases Hu.
    + intros u Hu (p & Hp & Hpu & Hps). rows_cases Hu. unfold family in Hp. rows_cases Hp.
    + exists "c". split; [apply list_elem_of_here |].
      intros (p & Hp & Hpu & Hps). unfold family in Hp. rows_cases Hp.
  - split; [exact Hf_in |]. split; [exact Hf_uuid |]. apply Hf_missing.
    exists "zz". split; [apply list_elem_of_here |].
    intros (p & Hp & Hpu). unfold family in Hp. rows_cases Hp.
Defined.

(* ===================================================================== *)
(* Further properties of the worker                                       *)
(* ===================================================================== *)

Section Error_paths.
Context {E : Type} `{Backend E}.

(** update_bundle_states on a non-empty list raises exactly when the
    bundles are not all in the state of the first one. What it raises is
    a precondition violation, and it raises it before it asks the store
    for anything: the world is as it was. *)
Theorem update_bundle_states_mixed_states (w : Worker E) first rest new_state :
  let result := update_bundle_states (first :: rest) new_state w in
  ((∃ other, other ∈ rest ∧ state other ≠ state first) ↔ ∃ e, result.2 = Raise e) ∧
  (∀ e, result.2 = Raise e → result.1 = w ∧ ∃ message, e = PreconditionViolation message).
Proof.
  intros result. subst result.
  pose proof (update_bundle_states_run w first rest new_state) as Hrun. cbv zeta in Hrun.
  case_bool_decide as Hall; rewrite Hrun.
  - rewrite with_model_run. cbn [fst snd]. split; [| intros e [=]]. split.
    + intros (other & Hin & Hne). exfalso. apply Forall_cons in Hall as [_ Hall].
      rewrite Forall_forall in Hall. by apply Hne, Hall.
    + intros [e [=]].
  - cbn [fst snd]. split; [| intros e [= <-]; eauto]. split; [eauto |]. intros _.
    assert (Hrest : ¬ Forall (λ b, state b = state first) rest).
    { intros Hrest. apply Hall. by apply Forall_cons. }
    apply not_Forall_Exists in Hrest; [| apply _].
    apply Exists_exists in Hrest as (other & Hin & Hne). by exists other.
Qed.

(** update_staged_bundles takes the lock before start_bundle checks its
    preconditions. In a round of its loop on a STAGED bundle that already
    carries a data_hash, with every row of the bundle STAGED when the
    batch update arrives, the conditional update to RUNNING succeeds and
    start_bundle raises a precondition violation. Nothing rolls the lock
    back: that batch update is the round's only request to the store, and
    the bundle's rows are left in RUNNING, with no scratch record
    allocated and no call to the backend. *)
Theorem staged_body_data_hash_leaves_RUNNING (w : Worker E) n bundle h :
  state bundle = STAGED → data_hash bundle = Some h →
  (∀ r, r ∈ rows (peer_turn (model w)) → uuid r = uuid bundle → state r = STAGED) →
  ∃ w' message,
    staged_body n bundle w = (w', Raise (PreconditionViolation message)) ∧
    env w' = env w ∧
    bundle_data w' = bundle_data w ∧
    calls (model w')
    = calls (model w) ++ [BatchUpdate [uuid bundle] (state_update RUNNING) STAGED true] ∧
    ∀ r, r ∈ rows (model w') → uuid r = uuid bundle → state r = RUNNING.
Proof.
  intros Hstate Hhash Hrows.
  assert (Hwon : lock_won bundle w = true).
  { apply batch_update_success_iff. intros r Hr Hu.
    apply list_elem_of_singleton in Hu. rewrite Hstate. by apply Hrows. }
  exists (after_lock bundle w), "Unexpected bundle data_hash".
  split; [| split; [done | split; [done | split]]].
  - rewrite staged_body_won by done. unfold bind, start_bundle, precondition.
    rewrite bool_decide_true by done. rewrite bool_decide_false
      by (change (data_hash (running bundle)) with (data_hash bundle); congruence).
    reflexivity.
  - unfold lock_won in Hwon. unfold after_lock.
    cbn [batch_update_bundles fst snd model calls] in Hwon |- *.
    by rewrite Hwon, peer_turn_calls, Hstate.
  - intros r Hr Hu. unfold lock_won in Hwon. unfold after_lock in Hr.
    cbn [batch_update_bundles fst snd model rows] in Hwon, Hr. rewrite Hwon in Hr.
    apply elem_of_update_rows in Hr as (r0 & _ & ->).
    case_bool_decide as Hsel; [done |]. exfalso. apply Hsel.
    rewrite Hu. apply list_elem_of_here.
Qed.

(** check_finished_bundles, when the backend reports a finished bundle
    this worker has no scratch record for, raises KeyError for its uuid:
    the store is not written to, so the bundle's row stays as it is. *)
Theorem check_finished_bundles_unknown_bundle (w : Worker E) e bundle success temp_dir :
  machine_poll (env w) = (e, Some (bundle, success, temp_dir)) →
  bundle_data w !! uuid bundle = None →
  check_finished_bundles w
  = ({| env := (time_time e).1; model := model w; bundle_data := bundle_data w |},
     Raise (KeyError (uuid bundle))).
Proof.
  intros Hpoll Hnone. unfold check_finished_bundles.
  rewrite bind_with_env, Hpoll. cbn [fst snd].
  unfold bind at 1. unfold finalize_bundle. rewrite bind_with_env. cbn [env model bundle_data].
  unfold bind, get_bundle_data. cbn [bundle_data]. by rewrite Hnone.
Qed.

End Error_paths.

Lemma update_bundle_states_mixed_states_witness :
  (update_bundle_states [s_staged; r_running] RUNNING w_mixed).1 = w_mixed ∧
  ∃ message, (update_bundle_states [s_staged; r_running] RUNNING w_mixed).2
             = Raise (PreconditionViolation message).
Proof.
  destruct (update_bundle_states_mixed_states w_mixed s_staged [r_running] RUNNING)
    as [[Hraises _] Hworld].
  destruct Hraises as [e He].
  { exists r_running. split; [apply list_elem_of_here | discriminate]. }
  destruct (Hworld e He) as (Hw & message & ->). split; [exact Hw |]. by exists message.
Defined.

Lemma staged_body_data_hash_leaves_RUNNING_witness :
  ∃ w' message,
    staged_body 0 h_staged w_hashed = (w', Raise (PreconditionViolation message)) ∧
    calls (model w') = [BatchUpdate ["h"] (state_update RUNNING) STAGED true] ∧
    state <$> rows (model w') = [RUNNING] ∧
    bundle_data w' = ∅ ∧ started (env w') = [].
Proof.
  destruct (staged_body_data_hash_leaves_RUNNING w_hashed 0 h_staged "0xabc")
    as (w' & message & Hrun & He & Hd & Hcalls & _).
  - reflexivity.
  - reflexivity.
  - intros r Hr _. apply list_elem_of_singleton in Hr as ->. reflexivity.
  - exists w', message. split; [exact Hrun |]. split; [exact Hcalls |].
    assert (Hw : w' = (staged_body 0 h_staged w_hashed).1) by (by rewrite Hrun).
    split; [rewrite Hw; vm_compute; reflexivity |].
    split; [rewrite Hd | rewrite He]; reflexivity.
Defined.

Lemma check_finished_bundles_unknown_bundle_witness :
  (check_finished_bundles w_stranger).2 = Raise (KeyError "r") ∧
  model (check_finished_bundles w_stranger).1 = model w_stranger.
Proof.
  rewrite (check_finished_bundles_unknown_bundle w_stranger
             (machine_poll (env w_stranger)).1 r_running true "/tmp/r");
    [split; reflexivity | reflexivity | reflexivity].
Defined.

Section Finalize_outcomes.
Context {E : Type} `{Backend E}.

(** What finalize_update writes, by cases on the try block's outcome. *)
Lemma finalize_update_cases bundle success record end_time outcome :
  let update := finalize_update bundle success record end_time outcome in
  (upd_state update = Some READY ∧ success = true ∧
   ∃ h uploaded, outcome = Returns (h, uploaded) ∧ upd_data_hash update = Some (Some h)) ∨
  (upd_state update = Some FAILED ∧
   (success = false ∨ ∃ message, outcome = Raises message)).
Proof.
  unfold finalize_update.
  destruct outcome as [[h uploaded]|message], success; simpl; eauto 10.
Qed.

(** When finalize_bundle returns, the worker held a scratch record and
    the store got the update built from it. *)
Lemma finalize_bundle_Ok_inv (w w' : Worker E) bundle success temp_dir :
  finalize_bundle (bundle, success, temp_dir) w = (w', Ok tt) →
  ∃ record outcome,
    bundle_data w !! uuid bundle = Some record ∧
    model w' = (update_bundle bundle
                  (finalize_update bundle success record (time_time (env w)).2 outcome)
                  (model w)).1.
Proof.
  intros Hrun.
  assert (Hrec : ∃ record, bundle_data w !! uuid bundle = Some record).
  { unfold finalize_bundle in Hrun. rewrite bind_with_env in Hrun.
    apply bind_Ok in Hrun as (w1 & record & Hget & _).
    apply get_bundle_data_Ok in Hget as [_ Hget]. eauto. }
  destruct Hrec as [record Hrec].
  destruct (finalize_bundle_run w bundle success temp_dir record Hrec)
    as (w2 & outcome & Hrun2 & Hm & _).
  rewrite Hrun in Hrun2. injection Hrun2 as <-. eauto.
Qed.

(** After finalize_bundle returns, every row of the bundle is READY or
    FAILED. It is READY only if the reported success was true and, in
    the try block (entered right after the clock was read, with the
    parents of the bundle's scratch record), install_dependencies
    returned and upload then returned too; a READY row carries the
    data_hash of that upload. *)
Theorem finalize_bundle_READY_has_data_hash (w w' : Worker E) bundle success temp_dir r :
  finalize_bundle (bundle, success, temp_dir) w = (w', Ok tt) →
  r ∈ rows (model w') → uuid r = uuid bundle →
  (state r = READY ∨ state r = FAILED) ∧
  (state r = READY →
   success = true ∧
   ∃ record h uploaded,
     bundle_data w !! uuid bundle = Some record ∧
     let installed :=
       install_dependencies bundle (parent_dict record) temp_dir (time_time (env w)).1 in
     installed.2 = Returns tt ∧
     (bundle_store_upload temp_dir installed.1).2 = Returns (h, uploaded) ∧
     data_hash r = Some h).
Proof.
  intros Hrun Hr Hu.
  destruct (finalize_bundle_Ok_inv _ _ _ _ _ Hrun) as (record & _ & Hrec & _).
  destruct (finalize_bundle_exact w bundle success temp_dir record Hrec)
    as (w2 & Hrun2 & Hm & _).
  rewrite Hrun in Hrun2. injection Hrun2 as <-.
  rewrite Hm in Hr. cbn [update_bundle fst rows] in Hr.
  apply elem_of_update_rows in Hr as (r0 & _ & ->).
  case_bool_decide as Hsel; [| done].
  set (outcome := try_outcome bundle (parent_dict record) temp_dir (time_time (env w)).1) in *.
  destruct (finalize_update_cases bundle success record (time_time (env w)).2 outcome)
    as [(Hs & Hsucc & h & uploaded & Hout & Hd)|(Hs & _)];
    unfold apply_update; cbn [state data_hash]; rewrite Hs; cbn [default].
  - split; [by left |]. intros _. split; [exact Hsucc |].
    exists record, h, uploaded. split; [exact Hrec |]. cbv zeta.
    unfold outcome, try_outcome in Hout.
    destruct (install_dependencies bundle (parent_dict record) temp_dir (time_time (env w)).1).2
      as [[]|message] eqn:Hinst; [| discriminate].
    split; [reflexivity |]. split; [exact Hout |]. by rewrite Hd.
  - split; [by right | discriminate].
Qed.

(** The metadata finalize_bundle writes for a RunBundle. *)
Lemma finalize_bundle_writes_metadata (w : Worker E) bundle success temp_dir record :
  bundle_data w !! uuid bundle = Some record → kind bundle = RunBundle →
  ∃ w' update written,
    finalize_bundle (bundle, success, temp_dir) w = (w', Ok tt) ∧
    calls (model w') = calls (model w) ++ [UpdateBundle (uuid bundle) update] ∧
    upd_metadata update = Some written ∧
    written !! "time" = Some (MTime ((time_time (env w)).2 - start_time record)) ∧
    (actions record ≠ [] → written !! "actions" = Some (MActions (actions record))).
Proof.
  intros Hrec Hkind.
  destruct (finalize_bundle_run w bundle success temp_dir record Hrec)
    as (w' & outcome & Hrun & Hm & _).
  exists w', (finalize_update bundle success record (time_time (env w)).2 outcome).
  unfold finalize_update. rewrite Hkind. cbn [is_RunBundle].
  set (base := match outcome with
               | Returns (h, m) => (Some h, m, success)
               | Raises message => (None, <["failure_message" := MString message]> ∅, false)
               end).
  destruct base as [[dh md] sc] eqn:Hbase.
  set (written := if bool_decide (0 < length (actions record))%nat
                  then <["actions" := MActions (actions record)]>
                         (<["time" := MTime ((time_time (env w)).2 - start_time record)]> md)
                  else <["time" := MTime ((time_time (env w)).2 - start_time record)]> md).
  exists written.
  assert (Htime : written !! "time"
                  = Some (MTime ((time_time (env w)).2 - start_time record))).
  { unfold written. case_bool_decide.
    - rewrite lookup_insert_ne by done. by rewrite lookup_insert_eq.
    - by rewrite lookup_insert_eq. }
  split; [exact Hrun |]. split.
  - rewrite Hm. cbn [update_bundle fst calls]. rewrite peer_turn_calls.
    unfold finalize_update. rewrite Hkind. cbn [is_RunBundle]. fold base. by rewrite Hbase.
  - cbn [upd_metadata]. split; [| split; [exact Htime |]].
    + destruct (decide (written = ∅)) as [Hempty|]; [| done].
      rewrite Hempty, lookup_empty in Htime. discriminate.
    + intros Hacts. unfold written. rewrite bool_decide_true.
      * by rewrite lookup_insert_eq.
      * destruct (actions record); [done | simpl; lia].
Qed.

(** finalize_bundle for a RunBundle always writes metadata: its 'time' is
    the finalize clock reading minus the scratch record's start_time, and
    when actions were applied to the bundle its 'actions' is the list the
    scratch record holds. *)
Theorem finalize_bundle_run_metadata (w : Worker E) bundle success temp_dir record :
  bundle_data w !! uuid bundle = Some record → kind bundle = RunBundle →
  ∃ w' update written,
    finalize_bundle (bundle, success, temp_dir) w = (w', Ok tt) ∧
    calls (model w') = calls (model w) ++ [UpdateBundle (uuid bundle) update] ∧
    upd_metadata update = Some written ∧
    written !! "time" = Some (MTime ((time_time (env w)).2 - start_time record)) ∧
    (actions record ≠ [] → written !! "actions" = Some (MActions (actions record))).
Proof. apply finalize_bundle_writes_metadata. Qed.

(** start_bundle, on a bundle that meets its preconditions, returns and
    leaves a fresh scratch record under the bundle's uuid (the parents as
    the store has them, the clock reading, no actions), whether the
    bundle was launched, rejected or finalized inline; the other entries
    of the registry are untouched. *)
Theorem start_bundle_allocates_record (w : Worker E) bundle :
  state bundle = RUNNING → data_hash bundle = None →
  ∃ w' started,
    start_bundle bundle w = (w', Ok started) ∧
    bundle_data w' !! uuid bundle = Some (scratch_at bundle w) ∧
    actions (scratch_at bundle w) = [] ∧
    ∀ u, u ≠ uuid bundle → bundle_data w' !! u = bundle_data w !! u.
Proof.
  intros Hs Hh. destruct (start_bundle_run w bundle Hs Hh) as (w' & Hrun & Hd & _).
  exists w', (moved bundle w). split; [exact Hrun |]. rewrite Hd.
  split; [apply lookup_insert_eq |]. split; [done |].
  intros u Hu. by rewrite lookup_insert_ne.
Qed.

(** start_bundle on a MakeBundle finalizes it on the spot and returns
    true: afterwards every row of the bundle is READY or FAILED, never
    RUNNING, and a READY row carries a data_hash. *)
Theorem start_bundle_make_bundle (w : Worker E) bundle :
  kind bundle = MakeBundle → state bundle = RUNNING → data_hash bundle = None →
  ∃ w', start_bundle bundle w = (w', Ok true) ∧
        ∀ r, r ∈ rows (model w') → uuid r = uuid bundle →
             (state r = READY ∨ state r = FAILED) ∧
             (state r = READY → is_Some (data_hash r)).
Proof.
  intros Hkind Hs Hh. destruct (start_bundle_run w bundle Hs Hh) as (w' & Hrun & _ & Hw).
  assert (Hmoved : moved bundle w = true) by (unfold moved; by rewrite Hkind).
  rewrite Hmoved in Hrun. exists w'. split; [exact Hrun |].
  rewrite Hkind in Hw. destruct Hw as (end_time & outcome & Hm).
  intros r Hr Hu. rewrite Hm in Hr. cbn [update_bundle fst rows] in Hr.
  apply elem_of_update_rows in Hr as (r0 & _ & ->).
  case_bool_decide as Hsel; [| done].
  destruct (finalize_update_cases bundle true (scratch_at bundle w) end_time outcome)
    as [(Hst & _ & h & uploaded & _ & Hd)|(Hst & _)];
    unfold apply_update; cbn [state data_hash]; rewrite Hst; cbn [default].
  - split; [by left |]. intros _. rewrite Hd. cbn [default]. eauto.
  - split; [by right | discriminate].
Qed.

End Finalize_outcomes.

Lemma finalize_bundle_READY_has_data_hash_witness :
  let w' := (finalize_bundle (r_running, true, "/tmp/r") w_reap).1 in
  let r := default r_running (head (rows (model w'))) in
  state r = READY ∧
  ∃ h uploaded,
    (bundle_store_upload "/tmp/r"
       (install_dependencies r_running ∅ "/tmp/r" (time_time (env w_reap)).1).1).2
    = Returns (h, uploaded) ∧
    data_hash r = Some h.
Proof.
  intros w' r.
  destruct (finalize_bundle_READY_has_data_hash w_reap w' r_running true "/tmp/r" r)
    as [_ Hready].
  - vm_compute. reflexivity.
  - vm_compute. apply list_elem_of_here.
  - reflexivity.
  - assert (Hstate : state r = READY) by (vm_compute; reflexivity).
    split; [exact Hstate |].
    destruct (Hready Hstate) as (_ & record & h & uploaded & Hrec & _ & Hup & Hh).
    assert (Some record = Some r_record) as [= ->]
      by (rewrite <- Hrec; vm_compute; reflexivity).
    by exists h, uploaded.
Defined.

Lemma finalize_bundle_run_metadata_witness :
  ∃ w' update written,
    finalize_bundle (r_running, false, "/tmp/r") w_killed = (w', Ok tt) ∧
    calls (model w') = calls (model w_killed) ++ [UpdateBundle "r" update] ∧
    upd_metadata update = Some written ∧
    written !! "time" = Some (MTime (7 - 3)) ∧
    written !! "actions" = Some (MActions [KILL]).
Proof.
  destruct (finalize_bundle_run_metadata w_killed r_running false "/tmp/r"
              {| parent_dict := ∅; start_time := 3; actions := [KILL] |})
    as (w' & update & written & Hrun & Hcalls & Hmeta & Htime & Hacts);
    [reflexivity | reflexivity |].
  exists w', update, written. repeat split; try done. by apply Hacts.
Defined.

Lemma start_bundle_allocates_record_witness :
  ∃ w' started,
    start_bundle r_running w_boom = (w', Ok started) ∧
    bundle_data w' !! "r" = Some (scratch_at r_running w_boom) ∧
    actions (scratch_at r_running w_boom) = [] ∧
    ∀ u, u ≠ "r" → bundle_data w' !! u = bundle_data w_boom !! u.
Proof.
  apply (start_bundle_allocates_record w_boom r_running); reflexivity.
Defined.

Lemma start_bundle_make_bundle_witness :
  ∃ w', start_bundle m_running w_made = (w', Ok true) ∧
        ∀ r, r ∈ rows (model w') → uuid r = "m" →
             (state r = READY ∨ state r = FAILED) ∧
             (state r = READY → is_Some (data_hash r)).
Proof.
  apply (start_bundle_make_bundle w_made m_running); reflexivity.
Defined.

Section Kill_and_restage.
Context {E : Type} `{Backend E}.

Lemma kill_answer_other x (e : E) : action x ≠ KILL → kill_answer x e = (e, false).
Proof. intros Hne. unfold kill_answer. by rewrite decide_False. Qed.

Lemma no_KILL_replay (l : list BundleAction) (e : E) :
  Forall (λ x, action x ≠ KILL) l →
  consumed_of l e = [] ∧ requeued_of l e = l ∧ env_after_kills l e = e.
Proof.
  induction 1 as [|x l Hx _ IH]; [done |]. simpl.
  rewrite (kill_answer_other x e Hx). simpl.
  destruct IH as (-> & -> & ->). done.
Qed.

(** check_killed_bundles when every killed bundle has its record, world
    by world. *)
Lemma check_killed_bundles_run (w : Worker E) :
  let popped := queue (model w) in
  Forall (λ x, is_Some (bundle_data w !! bundle_uuid x)) (consumed_of popped (env w)) →
  ∃ w', check_killed_bundles w
        = (w', Ok (bool_decide (Z.of_nat (length popped)
                                - Z.of_nat (length (requeued_of popped (env w))) > 0))) ∧
        env w' = env_after_kills popped (env w) ∧
        queue (model w') = requeued_of popped (env w) ∧
        (∀ u, bundle_data w' !! u
              = with_actions (actions_for u (consumed_of popped (env w))) <$> bundle_data w !! u).
Proof.
  intros popped Hrec. unfold check_killed_bundles.
  rewrite (bind_step _ _ _ _ _ (pop_step w)).
  lazymatch goal with |- ∃ _, _ ?v = _ ∧ _ => set (w0 := v) end.
  destruct (kill_loop_Ok popped [] w0 Hrec) as (w1 & Hloop & Hm & He & Hd).
  cbn [app] in Hloop. rewrite (bind_step _ _ _ _ _ Hloop). cbv beta.
  change (env w0) with (env w) in *. change (bundle_data w0) with (bundle_data w) in Hd.
  change (queue (model w)) with popped.
  destruct (requeued_of popped (env w)) as [|y rest] eqn:Hreq.
  - rewrite bool_decide_false by (simpl; lia). rewrite bind_ret_l.
    exists w1. split; [reflexivity |]. split; [exact He |]. split; [| exact Hd].
    by rewrite Hm.
  - rewrite bool_decide_true by (simpl; lia). rewrite bind_with_model.
    eexists. split; [reflexivity |]. cbn [env model bundle_data].
    split; [exact He |]. split; [| exact Hd].
    cbn [add_bundle_actions fst queue]. by rewrite peer_turn_queue, Hm.
Qed.

(** Commands other than KILL are never shown to the backend: with only
    such commands queued, check_killed_bundles returns false, puts all of
    them back in their order, and leaves backend and registry alone. *)
Theorem check_killed_bundles_requeues_other_commands (w : Worker E) :
  Forall (λ x, action x ≠ KILL) (queue (model w)) →
  ∃ w', check_killed_bundles w = (w', Ok false) ∧
        queue (model w') = queue (model w) ∧
        env w' = env w ∧ bundle_data w' = bundle_data w.
Proof.
  intros Hother.
  destruct (no_KILL_replay (queue (model w)) (env w) Hother) as (Hc & Hr & He).
  destruct (check_killed_bundles_run w) as (w' & Hrun & He' & Hq & Hd).
  { rewrite Hc. constructor. }
  exists w'. rewrite Hr in Hrun, Hq. rewrite He in He'. rewrite Hc in Hd.
  rewrite bool_decide_false in Hrun by lia.
  split; [exact Hrun |]. split; [exact Hq |]. split; [exact He' |].
  apply map_eq. intros u. rewrite Hd. by destruct (bundle_data w !! u).
Qed.

(** The loop of check_killed_bundles only ever rewrites a record it has
    just found: the registry keeps exactly its uuids. *)
Lemma kill_loop_keeps_keys (l keep : list BundleAction) (w : Worker E) :
  dom (bundle_data (kill_loop l keep w).1) = dom (bundle_data w).
Proof.
  revert keep w. induction l as [|x l IH]; intros keep w; [done |]. simpl.
  rewrite (bind_step _ _ _ _ _ (kill_step x w)).
  destruct (kill_answer x (env w)) as [e1 p]. cbn [fst snd]. destruct p.
  - unfold bind at 1. unfold bind at 1. unfold get_bundle_data. cbn [bundle_data].
    destruct (bundle_data w !! bundle_uuid x) as [record|] eqn:Hrec; [| done].
    unfold bind, set_bundle_data, ret. cbv beta iota. rewrite IH. cbn [bundle_data].
    rewrite dom_insert_L. apply elem_of_dom_2 in Hrec.
    by apply subseteq_union_1_L, singleton_subseteq_l.
  - rewrite bind_ret_l. by rewrite IH.
Qed.

(** check_killed_bundles never adds a scratch record and never removes
    one, whether it returns or raises. *)
Theorem check_killed_bundles_keeps_registry_keys (w : Worker E) :
  dom (bundle_data (check_killed_bundles w).1) = dom (bundle_data w).
Proof.
  unfold check_killed_bundles. rewrite (bind_step _ _ _ _ _ (pop_step w)).
  lazymatch goal with |- dom (bundle_data (_ ?v).1) = _ => set (w0 := v) end.
  pose proof (kill_loop_keeps_keys (queue (model w)) [] w0) as Hkeys.
  unfold bind at 1. destruct (kill_loop (queue (model w)) [] w0) as [w1 [keep|e]]; [| exact Hkeys].
  cbn [fst] in Hkeys. case_bool_decide.
  - rewrite bind_with_model. exact Hkeys.
  - rewrite bind_ret_l. exact Hkeys.
Qed.

Lemma restage_after_running r :
  state r = STAGED →
  apply_update (state_update STAGED) (apply_update (state_update RUNNING) r) = r.
Proof. destruct r. simpl. by intros ->. Qed.

(** A rejected launch is undone in the table but not in the registry: on
    a store no peer is writing to, when the lock on a STAGED RunBundle is
    won and Machine.start answers false, the round puts every row back as
    it was, keeps the counter, and leaves the scratch record start_bundle
    allocated behind. *)
Theorem staged_body_rejection_restores_table (w : Worker E) n bundle :
  peers (model w) = [] →
  state bundle = STAGED → data_hash bundle = None → kind bundle = RunBundle →
  lock_won bundle w = true →
  start_answer (running bundle) (after_lock bundle w) = Returns false →
  ∃ w', staged_body n bundle w = (w', Ok n) ∧
        rows (model w') = rows (model w) ∧
        bundle_data w' !! uuid bundle
        = Some (scratch_at (running bundle) (after_lock bundle w)).
Proof.
  intros Hquiet Hstate Hhash Hkind Hwon Hans.
  rewrite staged_body_won by done.
  destruct (start_bundle_run (after_lock bundle w) (running bundle)) as (w2 & Hstart & Hd & Hm);
    [done | done |].
  change (kind (running bundle)) with (kind bundle) in Hm. rewrite Hkind, Hans in Hm.
  assert (Hmoved : moved (running bundle) (after_lock bundle w) = false).
  { unfold moved. change (kind (running bundle)) with (kind bundle). by rewrite Hkind, Hans. }
  rewrite Hmoved in Hstart. rewrite (bind_step _ _ _ _ _ Hstart).
  rewrite (bind_step _ _ _ _ _ (eq_trans (rollback_step w2 bundle) (with_model_run _ w2))).
  eexists. split; [reflexivity |]. cbn [model bundle_data].
  split; [| rewrite Hd; apply lookup_insert_eq].
  (* the table after the lock *)
  pose proof (proj1 (batch_update_success_iff [bundle] (state_update RUNNING)
                       (state bundle) (model w)) Hwon) as Hall.
  rewrite (peer_turn_quiet _ Hquiet), Hstate in Hall.
  assert (Hlocked : rows (model (after_lock bundle w))
                    = update_rows (λ u, bool_decide (u ∈ [uuid bundle]))
                        (apply_update (state_update RUNNING)) (rows (model w))).
  { unfold lock_won in Hwon. unfold after_lock.
    cbn [batch_update_bundles fst snd model rows] in Hwon |- *.
    by rewrite Hwon, (peer_turn_quiet _ Hquiet). }
  assert (Hq1 : peers (model (after_lock bundle w)) = []).
  { unfold after_lock. cbn [batch_update_bundles fst model peers].
    by rewrite (peer_turn_quiet _ Hquiet). }
  rewrite Hm, (peer_turn_quiet _ Hq1).
  assert (Hback : (batch_update_bundles [running bundle] (state_update STAGED) RUNNING
                     (model (after_lock bundle w))).2.1 = true).
  { apply batch_update_success_iff. rewrite (peer_turn_quiet _ Hq1), Hlocked.
    intros r Hr Hu. apply elem_of_update_rows in Hr as (r0 & _ & ->).
    case_bool_decide as Hsel; [done |]. exfalso. apply Hsel. exact Hu. }
  cbn [batch_update_bundles fst snd rows] in Hback |- *. rewrite Hback.
  rewrite (peer_turn_quiet _ Hq1), Hlocked.
  unfold update_rows. rewrite <- list_fmap_compose.
  rewrite <- (list_fmap_id (rows (model w))) at 2.
  apply list_fmap_ext. intros i r Hr. cbn [compose id fmap list_fmap uuid running].
  destruct (decide (uuid r ∈ [uuid bundle])) as [Hin|Hnin].
  - rewrite (bool_decide_true _ Hin).
    change (uuid (apply_update (state_update RUNNING) r)) with (uuid r).
    rewrite (bool_decide_true _ Hin).
    apply restage_after_running, Hall; [by eapply list_elem_of_lookup_2 | done].
  - rewrite (bool_decide_false _ Hnin). by rewrite (bool_decide_false _ Hnin).
Qed.

End Kill_and_restage.

Lemma check_killed_bundles_requeues_other_commands_witness :
  ∃ w', check_killed_bundles (w_kill [pause_r; resume_q]) = (w', Ok false) ∧
        queue (model w') = [pause_r; resume_q] ∧
        env w' = env (w_kill [pause_r; resume_q]) ∧
        bundle_data w' = bundle_data (w_kill [pause_r; resume_q]).
Proof.
  apply (check_killed_bundles_requeues_other_commands (w_kill [pause_r; resume_q])).
  repeat constructor; discriminate.
Defined.

Lemma staged_body_rejection_restores_table_witness :
  ∃ w', staged_body 0 s_staged w_refuse = (w', Ok 0) ∧
        rows (model w') = rows (model w_refuse) ∧
        bundle_data w' !! "s" = Some (scratch_at (running s_staged) (after_lock s_staged w_refuse)).
Proof.
  apply (staged_body_rejection_restores_table w_refuse 0 s_staged); reflexivity.
Defined.

(** After the writes for bundles_to_fail every row comes from a row with
    the same uuid: either it is that row, or it is FAILED and named by
    bundles_to_fail. *)
Lemma fail_rows_state l t r :
  r ∈ fail_rows l t →
  ∃ r0, r0 ∈ t ∧ uuid r0 = uuid r ∧
        (r = r0 ∨ (state r = FAILED ∧ ∃ bm, bm ∈ l ∧ uuid bm.1 = uuid r0)).
Proof.
  revert r. induction l as [|bm l IH] using rev_ind; intros r Hr; [by eauto |].
  rewrite fail_rows_snoc in Hr. apply elem_of_update_rows in Hr as (r1 & Hr1 & ->).
  destruct (IH r1 Hr1) as (r0 & Hr0 & Hu & Hcase).
  exists r0. split; [done |]. case_bool_decide as Hsel.
  - split; [by rewrite apply_update_uuid |]. right. split; [done |]. exists bm.
    rewrite elem_of_app, list_elem_of_singleton. split; [by right | congruence].
  - split; [done |]. destruct Hcase as [->|(Hf & bm' & Hbm' & Hu')]; [by left |].
    right. split; [done |]. exists bm'. rewrite elem_of_app. auto.
Qed.

Lemma filter_none {A} (P : A → Prop) `{∀ x, Decision (P x)} (l : list A) :
  (∀ x, x ∈ l → ¬ P x) → filter P l = [].
Proof.
  induction l as [|x l IH]; intros Hno; [done |].
  rewrite filter_cons_False by (apply Hno; left). apply IH.
  intros y Hy. apply Hno. by right.
Qed.

Section Created_further.
Context {E : Type} `{Backend E}.

(** update_created_bundles leaves alone what is not a CREATED bundle: on
    a store no peer is writing to, with one row per uuid, every row in
    another state is still there unchanged afterwards, and backend and
    scratch registry are untouched. *)
Theorem update_created_bundles_touches_only_CREATED (w : Worker E) other :
  peers (model w) = [] → NoDup (uuid <$> rows (model w)) →
  other ∈ rows (model w) → state other ≠ CREATED →
  ∃ w' r, update_created_bundles w = (w', Ok r) ∧
          other ∈ rows (model w') ∧
          env w' = env w ∧ bundle_data w' = bundle_data w.
Proof.
  intros Hquiet Hnd Hother Hstate.
  destruct (update_created_bundles_quiet w Hquiet Hnd) as (w' & r & Hrun & Hrows).
  destruct (update_created_bundles_run w) as (_ & w2 & _ & Hrun2 & He & Hd & _).
  rewrite Hrun in Hrun2. injection Hrun2 as <- _.
  exists w', r. split; [exact Hrun |]. split; [| done].
  assert (Hnot : ∀ b, b ∈ created_at (model w) → uuid b ≠ uuid other).
  { intros b [Hb Hin]%elem_of_created_at Hu. rewrite (peer_turn_quiet _ Hquiet) in Hin.
    assert (b = other) as -> by (by apply (uuid_inj_rows (rows (model w)))). done. }
  rewrite Hrows. apply elem_of_update_rows. exists other. split.
  - apply fail_rows_other; [| done]. intros [b m] Hbm. simpl.
    apply Hnot. by apply classified_fail in Hbm as [? _].
  - rewrite bool_decide_false; [done |].
    intros (s & Hu & Hs)%list_elem_of_fmap.
    apply (Hnot s); [| done]. by apply classified_stage in Hs as [? _].
Qed.

(** update_created_bundles moves a CREATED bundle only where its
    docstring says: on a store no peer is writing to, with one row per
    uuid, the bundle's row afterwards is CREATED, STAGED or FAILED; it is
    STAGED only if every parent has a READY row, and FAILED only if some
    parent has a FAILED row. *)
Theorem update_created_bundles_transitions_sound (w : Worker E) bundle :
  peers (model w) = [] → NoDup (uuid <$> rows (model w)) →
  bundle ∈ rows (model w) → state bundle = CREATED →
  ∃ w' r,
    update_created_bundles w = (w', Ok r) ∧
    ∀ after, after ∈ rows (model w') → uuid after = uuid bundle →
      (state after = CREATED ∨ state after = STAGED ∨ state after = FAILED) ∧
      (state after = STAGED →
       ∀ u, u ∈ parents_of bundle → parent_in (rows (model w)) READY u) ∧
      (state after = FAILED →
       ∃ u, u ∈ parents_of bundle ∧ parent_in (rows (model w)) FAILED u).
Proof.
  intros Hquiet Hnd Hb Hstate.
  destruct (update_created_bundles_quiet w Hquiet Hnd) as (w' & r & Hrun & Hrows).
  exists w', r. split; [exact Hrun |].
  set (σ := model w) in *. set (aps := parent_states_at σ) in *.
  pose proof (classified_fail aps (created_at σ)) as Hinfail.
  pose proof (classified_stage aps (created_at σ)) as Hinstage.
  fold (classified σ) in Hinfail, Hinstage.
  assert (Hcreated : bundle ∈ created_at σ).
  { apply elem_of_created_at. by rewrite (peer_turn_quiet _ Hquiet). }
  assert (Hin_t : ∀ b, b ∈ created_at σ → b ∈ rows σ).
  { intros b [_ Hbt]%elem_of_created_at. by rewrite (peer_turn_quiet _ Hquiet) in Hbt. }
  pose proof (λ u, parent_states_quiet σ bundle u Hquiet Hcreated) as Hps.
  intros after Hafter Hu. rewrite Hrows in Hafter.
  apply elem_of_update_rows in Hafter as (r1 & Hr1 & ->).
  apply fail_rows_state in Hr1 as (r0 & Hr0 & Hu0 & Hcase).
  case_bool_decide as Hsel.
  - (* the row is named by bundles_to_stage *)
    split; [right; by left |]. split; [| discriminate]. intros _ u Hparent.
    apply list_elem_of_fmap in Hsel as (s & Hus & Hs).
    rewrite apply_update_uuid in Hu.
    assert (s = bundle) as ->.
    { apply (uuid_inj_rows (rows σ)); [done | | done | congruence].
      apply Hin_t. by apply Hinstage in Hs as [? _]. }
    apply Hinstage in Hs as (_ & Hmiss & _ & Hready).
    pose proof (proj1 (missing_empty aps bundle) Hmiss u Hparent) as [s Hsome].
    pose proof (proj1 (all_ready_iff aps bundle) Hready u s Hparent Hsome) as ->.
    by apply (Hps u Hparent).
  - assert (r0 = bundle) as ->
      by (apply (uuid_inj_rows (rows σ)); [done | done | done | congruence]).
    destruct Hcase as [->|(Hfailed & [b m] & Hbm & Hub)].
    + rewrite Hstate. split; [by left |]. split; discriminate.
    + split; [right; by right |]. split; [rewrite Hfailed; discriminate |]. intros _.
      simpl in Hub. apply Hinfail in Hbm as (Hbc & _ & Hne & _).
      assert (b = bundle) as -> by (apply (uuid_inj_rows (rows σ)); auto).
      destruct (nil_or_elem (failed_uuids_of aps bundle)) as [Hnil|[u Hin]]; [done |].
      apply elem_of_failed_uuids in Hin as [Hparent Hf].
      exists u. split; [done |]. by apply (Hps u Hparent).
Qed.

End Created_further.

Section Loop_further.
Context {E : Type} `{Backend E}.

(** With num_iterations None or 0 the while condition of run_loop never
    turns false: however many passes are allowed, run_loop has not ended
    unless a pass raised. *)
Theorem run_loop_without_bound_never_ends fuel num_iterations sleep_time
    (w w' : Worker E) ended :
  num_iterations = None ∨ num_iterations = Some 0 →
  run_loop fuel num_iterations sleep_time w = (w', Ok ended) →
  ended = false.
Proof.
  intros Hnum. unfold run_loop. generalize 0 at 1. revert w.
  assert (Hcond : ∀ i, loop_condition num_iterations i = true).
  { intros i. by destruct Hnum as [-> | ->]. }
  induction fuel as [|fuel IH]; intros w iteration; simpl; rewrite Hcond.
  - by intros [= _ <-].
  - intros (w1 & next & _ & Hrest)%bind_Ok. by eapply IH.
Qed.

Lemma check_killed_bundles_empty_queue (w : Worker E) :
  queue (model w) = [] →
  check_killed_bundles w
  = ({| env := env w;
        model := {| rows := rows (peer_turn (model w)); queue := [];
                    peers := peers (peer_turn (model w));
                    calls := calls (model w) ++ [PopActions []] |};
        bundle_data := bundle_data w |}, Ok false).
Proof.
  intros Hq. unfold check_killed_bundles.
  rewrite (bind_step _ _ _ _ _ (pop_step w)). rewrite Hq. reflexivity.
Qed.

Lemma update_staged_bundles_none_staged (w : Worker E) :
  filter (λ r, state r = STAGED) (rows (peer_turn (model w))) = [] →
  update_staged_bundles w
  = ({| env := env w; model := peer_turn (model w); bundle_data := bundle_data w |},
     Ok false).
Proof.
  intros Hnone. unfold update_staged_bundles. rewrite bind_with_model.
  cbn [batch_get_bundles_state fst snd]. rewrite Hnone. reflexivity.
Qed.

Lemma check_finished_bundles_nothing (w : Worker E) e :
  machine_poll (env w) = (e, None) →
  check_finished_bundles w
  = ({| env := e; model := model w; bundle_data := bundle_data w |}, Ok None).
Proof.
  intros Hpoll. unfold check_finished_bundles. rewrite bind_with_env, Hpoll. reflexivity.
Qed.

(** A pass of run_loop with nothing to do changes nothing and sleeps: on
    a store no peer is writing to, with an empty action queue, no CREATED
    or STAGED row and a backend that has nothing finished, the only
    request that reaches the store's log is the pop, rows and registry
    are as before, the counter is unchanged and the worker sleeps once
    for sleep_time. *)
Theorem loop_body_idle (w : Worker E) sleep_time iteration e :
  peers (model w) = [] → queue (model w) = [] →
  (∀ r, r ∈ rows (model w) → state r ≠ CREATED ∧ state r ≠ STAGED) →
  machine_poll (env w) = (e, None) →
  ∃ w', loop_body sleep_time iteration w = (w', Ok iteration) ∧
        rows (model w') = rows (model w) ∧
        queue (model w') = [] ∧
        calls (model w') = calls (model w) ++ [PopActions []] ∧
        bundle_data w' = bundle_data w ∧
        env w' = (time_sleep sleep_time e).1.
Proof.
  intros Hquiet Hqueue Hrows Hpoll.
  assert (Hnone : ∀ s, s = CREATED ∨ s = STAGED →
                       filter (λ r, state r = s) (rows (model w)) = []).
  { intros s Hs. apply filter_none. intros r Hr Heq.
    destruct (Hrows r Hr) as [Hc Hst]. destruct Hs; congruence. }
  unfold loop_body.
  rewrite (bind_step _ _ _ _ _ (check_killed_bundles_empty_queue w Hqueue)).
  rewrite (peer_turn_quiet _ Hquiet), Hquiet.
  match goal with |- ∃ _, bind update_created_bundles _ ?v = _ ∧ _ => set (w1 := v) end.
  destruct (update_created_bundles_run w1) as (wf & w2 & Hfail & Hrun & He & Hd & Hm).
  assert (Hcls : classified (model w1) = ([], [])).
  { unfold classified, created_at, batch_get_bundles_state. cbn [snd].
    unfold w1. cbn [model peer_turn peers rows]. by rewrite (Hnone CREATED) by auto. }
  rewrite Hcls in Hfail, Hrun, Hm. cbn [fst snd fail_loop] in Hfail, Hrun, Hm.
  injection Hfail as <-. unfold w1 in He, Hd, Hm. cbn [env model bundle_data peer_turn peers] in He, Hd, Hm.
  rewrite (bind_step _ _ _ _ _ Hrun).
  rewrite (bind_step _ _ _ _ _ (update_staged_bundles_none_staged w2
             ltac:(rewrite Hm; cbn [peer_turn peers rows]; apply (Hnone STAGED); auto))).
  erewrite (bind_step check_finished_bundles)
    by (apply check_finished_bundles_nothing; cbn [env]; rewrite He; exact Hpoll).
  cbn [truthy default orb negb]. rewrite bind_with_env.
  eexists. split; [reflexivity |]. cbn [env model bundle_data].
  rewrite Hm, Hd. cbn [peer_turn peers rows queue calls]. done.
Qed.

End Loop_further.

Lemma update_created_bundles_touches_only_CREATED_witness :
  ∃ w' r, update_created_bundles w_family = (w', Ok r) ∧
          mk_bundle "a" RunBundle READY [] ∈ rows (model w') ∧
          env w' = env w_family ∧ bundle_data w' = bundle_data w_family.
Proof.
  apply (update_created_bundles_touches_only_CREATED w_family
           (mk_bundle "a" RunBundle READY [])).
  - reflexivity.
  - apply (bool_decide_unpack _). vm_compute. exact I.
  - apply list_elem_of_here.
  - discriminate.
Defined.

Lemma update_created_bundles_transitions_sound_witness :
  ∃ w' r,
    update_created_bundles w_family = (w', Ok r) ∧
    ∀ after, after ∈ rows (model w') → uuid after = "c" →
      (state after = CREATED ∨ state after = STAGED ∨ state after = FAILED) ∧
      (state after = STAGED →
       ∀ u, u ∈ ["a"; "b"] → parent_in family READY u) ∧
      (state after = FAILED →
       ∃ u, u ∈ ["a"; "b"] ∧ parent_in family FAILED u).
Proof.
  apply (update_created_bundles_transitions_sound w_family
           (mk_bundle "c" RunBundle CREATED ["a"; "b"])).
  - reflexivity.
  - apply (bool_decide_unpack _). vm_compute. exact I.
  - unfold w_family, mk_worker, mk_store, family. cbn [model rows].
    repeat first [apply list_elem_of_here | apply list_elem_of_further].
  - reflexivity.
Defined.

Lemma run_loop_without_bound_never_ends_witness :
  match (run_loop 3 (Some 0) 5 w_idle).2 with Ok ended => ended | Raise _ => true end = false.
Proof.
  apply (run_loop_without_bound_never_ends 3 (Some 0) 5 w_idle
           (run_loop 3 (Some 0) 5 w_idle).1).
  - by right.
  - vm_compute. reflexivity.
Defined.

Lemma loop_body_idle_witness :
  ∃ w', loop_body 5 0 w_idle = (w', Ok 0) ∧
        rows (model w') = rows (model w_idle) ∧
        queue (model w') = [] ∧
        calls (model w') = [PopActions []] ∧
        bundle_data w' = bundle_data w_idle ∧
        sleeps (env w') = [5].
Proof.
  destruct (loop_body_idle w_idle 5 0 (machine_poll (env w_idle)).1)
    as (w' & Hrun & Hrows & Hq & Hc & Hd & He).
  - reflexivity.
  - reflexivity.
  - intros r Hr. apply elem_of_cons in Hr as [-> | Hr]; [split; discriminate |].
    apply list_elem_of_singleton in Hr as ->. split; discriminate.
  - reflexivity.
  - exists w'. rewrite He. repeat split; done.
Defined.

(* --------------------------------------------------------------------- *)
(* rest/util.py: get_group_info                                           *)
(* --------------------------------------------------------------------- *)

Section Util_facts.
Variable Exc : Type.
Variable http_error_to_exception : Z → string → Exc.
Variable root_user_id : string.
Variable public_group_uuid : string.
Variable unique_group : string → option string → Exc + GroupInfo.

(** get_group_info grants admin access only where its checks allow it:
    when it returns a group for need_admin = True, the group is not the
    public group, and the caller is root, or an admin of the group, or
    its owner, or has an empty (falsy) user id, which passes the check
    'if user_id and ...' just as root's None does. The group returned is
    the one unique_group resolved. *)
Theorem get_group_info_admin_access user_id group_spec info :
  get_group_info Exc http_error_to_exception root_user_id public_group_uuid unique_group
    user_id group_spec true = inr info →
  group_uuid info ≠ public_group_uuid ∧
  (user_id = root_user_id ∨ user_id = "" ∨ is_admin info = true ∨ user_id = owner_id info) ∧
  unique_group group_spec (if decide (user_id = root_user_id) then None else Some user_id)
  = inr info.
Proof.
  unfold get_group_info, get_group_info_body, local_bundle_client_compatible.
  destruct (decide (user_id = root_user_id)) as [Hroot|Hroot];
    destruct (unique_group group_spec _) as [e|g]; try discriminate; cbn [truthy_user andb].
  - case_bool_decide as Hpub; cbn [andb]; [discriminate |].
    intros [= ->]. auto.
  - destruct (decide (user_id = "")) as [Hempty|Hempty].
    + rewrite (bool_decide_true _ Hempty). cbn [negb andb].
      case_bool_decide as Hpub; [discriminate |]. intros [= ->]. auto.
    + rewrite (bool_decide_false _ Hempty). cbn [negb andb].
      destruct (is_admin g) eqn:Hadmin; cbn [negb andb].
      * case_bool_decide as Hpub; [discriminate |]. intros [= <-].
        split; [done |]. split; [| done]. right. right. by left.
      * case_bool_decide as Howner; cbn [negb]; [| discriminate].
        case_bool_decide as Hpub; [discriminate |]. intros [= <-].
        split; [done |]. split; [| done]. right. right. right. congruence.
Qed.

(** No one can modify the public group, not even root: whoever asks, a
    need_admin request that resolves to the public group raises the
    exception http_error_to_exception makes of a 403. *)
Theorem get_group_info_public_group user_id group_spec info :
  unique_group group_spec (if decide (user_id = root_user_id) then None else Some user_id)
  = inr info →
  group_uuid info = public_group_uuid →
  ∃ text,
    get_group_info Exc http_error_to_exception root_user_id public_group_uuid unique_group
      user_id group_spec true = inl (http_error_to_exception FORBIDDEN text).
Proof.
  intros Hgroup Hpub.
  unfold get_group_info, get_group_info_body, local_bundle_client_compatible.
  rewrite Hgroup.
  destruct (truthy_user _ && true && negb (is_admin info) && negb (bool_decide _));
    [by eexists |].
  rewrite (bool_decide_true _ Hpub). cbn [andb]. by eexists.
Qed.

(** Without need_admin, get_group_info checks nothing: it hands back
    what unique_group resolved for the caller (for root: resolved with no
    user), or raises what unique_group raised. *)
Theorem get_group_info_read_access user_id group_spec :
  get_group_info Exc http_error_to_exception root_user_id public_group_uuid unique_group
    user_id group_spec false
  = unique_group group_spec (if decide (user_id = root_user_id) then None else Some user_id).
Proof.
  unfold get_group_info, get_group_info_body, local_bundle_client_compatible.
  destruct (unique_group group_spec _) as [e|g]; [done |].
  rewrite !andb_false_r. cbn [andb]. done.
Qed.

End Util_facts.

Lemma get_group_info_admin_access_witness :
  group_uuid lab_group ≠ "pub" ∧
  ("7" = "0" ∨ "7" = "" ∨ is_admin lab_group = true ∨ "7" = owner_id lab_group) ∧
  groups_of "lab" (if decide ("7" = "0") then None else Some "7") = inr lab_group.
Proof.
  apply (get_group_info_admin_access (Z * string) pair "0" "pub" groups_of "7" "lab" lab_group).
  reflexivity.
Defined.

Lemma get_group_info_public_group_witness :
  ∃ text, get_group_info (Z * string) pair "0" "pub" groups_of "0" "public" true
          = inl (FORBIDDEN, text).
Proof.
  apply (get_group_info_public_group (Z * string) pair "0" "pub" groups_of "0" "public" pub_group);
    reflexivity.
Defined.

(* --------------------------------------------------------------------- *)
(* A kill, then the finalization                                          *)
(* --------------------------------------------------------------------- *)

Lemma with_actions_actions applied record :
  actions (with_actions applied record) = actions record ++ applied.
Proof.
  revert record. induction applied as [|a applied IH]; intros record.
  - by rewrite app_nil_r.
  - rewrite with_actions_cons, IH. simpl. by rewrite <- app_assoc.
Qed.

Section Kill_then_finalize.
Context {E : Type} `{Backend E}.

(** A kill the backend carried out is on record when the bundle is
    finalized. Provided every bundle the backend kills in the call has a
    scratch record on this worker: if check_killed_bundles consumes a
    KILL for a RunBundle running here, it returns true, and
    finalize_bundle for that bundle, run on the world check_killed_bundles
    leaves, writes metadata whose 'actions' is the record's earlier
    actions followed by the consumed actions for that bundle, KILL among
    them. *)
Theorem kill_then_finalize_records_action (w : Worker E) x bundle success temp_dir record :
  let consumed := consumed_of (queue (model w)) (env w) in
  Forall (λ y, is_Some (bundle_data w !! bundle_uuid y)) consumed →
  x ∈ consumed → bundle_uuid x = uuid bundle →
  bundle_data w !! uuid bundle = Some record → kind bundle = RunBundle →
  ∃ w1 w2 update written applied,
    check_killed_bundles w = (w1, Ok true) ∧
    finalize_bundle (bundle, success, temp_dir) w1 = (w2, Ok tt) ∧
    calls (model w2) = calls (model w1) ++ [UpdateBundle (uuid bundle) update] ∧
    upd_metadata update = Some written ∧
    written !! "actions" = Some (MActions applied) ∧
    applied = actions record ++ actions_for (uuid bundle) consumed ∧
    KILL ∈ applied.
Proof.
  intros consumed Hrec Hx Hxu Hrecord Hkind.
  destruct (check_killed_bundles_run w Hrec) as (w1 & Hrun & _ & _ & Hd).
  fold consumed in Hd.
  assert (Hpos : bool_decide (Z.of_nat (length (queue (model w)))
                              - Z.of_nat (length (requeued_of (queue (model w)) (env w))) > 0)
                 = true).
  { apply bool_decide_eq_true.
    pose proof (consumed_requeued_perm (queue (model w)) (env w)) as Hperm.
    apply Permutation_length in Hperm. rewrite length_app in Hperm. fold consumed in Hperm.
    destruct consumed as [|c cs]; [by apply not_elem_of_nil in Hx | simpl in Hperm; lia]. }
  rewrite Hpos in Hrun.
  set (record1 := with_actions (actions_for (uuid bundle) consumed) record).
  assert (Hrecord1 : bundle_data w1 !! uuid bundle = Some record1).
  { by rewrite Hd, Hrecord. }
  assert (Hkill_in : KILL ∈ actions_for (uuid bundle) consumed).
  { unfold actions_for. apply list_elem_of_fmap. exists x. split.
    - symmetry. pose proof (consumed_all_KILL (queue (model w)) (env w)) as Hall.
      rewrite Forall_forall in Hall. by apply Hall.
    - by apply list_elem_of_filter. }
  destruct (finalize_bundle_writes_metadata w1 bundle success temp_dir record1 Hrecord1 Hkind)
    as (w2 & update & written & Hfin & Hcalls & Hmeta & _ & Hacts).
  exists w1, w2, update, written, (actions record1).
  split; [exact Hrun |]. split; [exact Hfin |]. split; [exact Hcalls |].
  split; [exact Hmeta |].
  assert (Happlied : actions record1 = actions record ++ actions_for (uuid bundle) consumed)
    by apply with_actions_actions.
  split; [| split; [exact Happlied |]].
  - apply Hacts. rewrite Happlied. intros Hnil. apply app_eq_nil in Hnil as [_ Hnil].
    rewrite Hnil in Hkill_in. by apply not_elem_of_nil in Hkill_in.
  - rewrite Happlied, elem_of_app. by right.
Qed.

End Kill_then_finalize.

Lemma kill_then_finalize_records_action_witness :
  ∃ w1 w2 update written applied,
    check_killed_bundles (w_kill [kill_r; kill_q]) = (w1, Ok true) ∧
    finalize_bundle (r_running, false, "/tmp/r") w1 = (w2, Ok tt) ∧
    calls (model w2) = calls (model w1) ++ [UpdateBundle "r" update] ∧
    upd_metadata update = Some written ∧
    written !! "actions" = Some (MActions applied) ∧
    applied = actions r_record
              ++ actions_for "r" (consumed_of [kill_r; kill_q] (env (w_kill [kill_r; kill_q]))) ∧
    KILL ∈ applied.
Proof.
  apply (kill_then_finalize_records_action (w_kill [kill_r; kill_q]) kill_r
           r_running false "/tmp/r" r_record).
  - vm_compute. repeat constructor; eauto.
  - vm_compute. apply list_elem_of_here.
  - reflexivity.
  - reflexivity.
  - reflexivity.
Defined.
